(** * pg_orchestrator: the upgrade runner, embedded and verified

    A shallow embedding of the migration side of pg_orchestrator
    ([upgrade/database.py], [upgrade/migration.py], [upgrade/upgrade.py] and
    the command entry points of [manager/dockerManager.py]).

    Conventions of the embedding.
    - A Python [str] is a Rocq [string]; its characters stand for code points
      below 256, which is what decides the classes [\d] and [\s] below.
    - Code that raises returns [Raise e]; code that touches the container,
      the host file system or the logger runs in the monad [M], a state and
      exception monad over [World].
    - The container is an external collaborator: what a command prints and
      which exit code it has is given by an oracle ([respond]), a variable of
      the sections below.  Every call that reaches the container is recorded,
      in order, in the world.
    - The Docker API itself answers every call, a log file can always be
      opened for appending, and paths are taken as already normalised.
    - The runner keeps its state in [self.state]; here the methods take the
      state and return the new one.  When a method raises the run is over
      and the state is not looked at again. *)

From Stdlib Require Import String Ascii List ZArith Bool Lia.
From stdpp Require Import gmap strings pretty.
Import ListNotations.
Open Scope string_scope.
Open Scope list_scope.

(** ** Exceptions and results *)

Inductive exn : Type :=
| ValueError (msg : string)
| RuntimeError (msg : string)
| FileNotFoundError (msg : string)
| IsADirectoryError (msg : string)
| NotImplementedError (msg : string)
| KeyError (msg : string)
| TypeError (msg : string)
| AttributeError (msg : string).

Inductive result (A : Type) : Type :=
| Ok (a : A)
| Raise (e : exn).
Arguments Ok {A} a.
Arguments Raise {A} e.

(** ** The pieces of Python's string library the program uses *)

Module Py.

Definition dquote : string := String (ascii_of_nat 34) EmptyString.
Definition squote : string := String (ascii_of_nat 39) EmptyString.
Definition LF : ascii := ascii_of_nat 10.
Definition CR : ascii := ascii_of_nat 13.

(** [\d] of a [str] pattern.  A string of the model is a sequence of code
    points below 256, among which the decimal digits are [0] to [9].  In a
    text with other code points [\d] also matches the decimal digits of
    other scripts; such a text has no counterpart in the model, and what is
    stated about the texts a pattern refuses is stated for ASCII text. *)
Definition is_digit (c : ascii) : bool :=
  let n := nat_of_ascii c in (48 <=? n)%nat && (n <=? 57)%nat.

(** [\s] of a [str] pattern, and [str.isspace], on code points below 256. *)
Definition is_space (c : ascii) : bool :=
  let n := nat_of_ascii c in
  ((9 <=? n)%nat && (n <=? 13)%nat) || ((28 <=? n)%nat && (n <=? 32)%nat)
  || (n =? 133)%nat || (n =? 160)%nat.

(** [\w] under [re.ASCII]. *)
Definition is_word (c : ascii) : bool :=
  let n := nat_of_ascii c in
  ((48 <=? n)%nat && (n <=? 57)%nat) || ((65 <=? n)%nat && (n <=? 90)%nat)
  || ((97 <=? n)%nat && (n <=? 122)%nat) || (n =? 95)%nat.

(** Truthiness of a [str] and of an [Optional[str]]. *)
Definition truthy (s : string) : bool := negb (String.eqb s "").
Definition truthy_opt (o : option string) : bool :=
  match o with Some s => truthy s | None => false end.

Fixpoint all_chars (p : ascii -> bool) (s : string) : bool :=
  match s with
  | EmptyString => true
  | String c s' => p c && all_chars p s'
  end.

(** The longest prefix whose characters satisfy [p], and what follows it:
    what a greedy [p+] or [p*] takes when the next pattern item cannot
    start with a [p] character. *)
Fixpoint span (p : ascii -> bool) (s : string) : string * string :=
  match s with
  | EmptyString => (EmptyString, EmptyString)
  | String c s' =>
      if p c then let '(a, b) := span p s' in (String c a, b)
      else (EmptyString, s)
  end.

(** [needle in hay]. *)
Fixpoint contains (needle hay : string) : bool :=
  String.prefix needle hay ||
  match hay with
  | EmptyString => false
  | String _ hay' => contains needle hay'
  end.

(** [s.endswith(suffix)]. *)
Fixpoint endswith (s suffix : string) : bool :=
  String.eqb s suffix ||
  match s with
  | EmptyString => false
  | String _ s' => endswith s' suffix
  end.

(** [s.split(sep)[0]] for a one-character separator. *)
Fixpoint split_first (sep : ascii) (s : string) : string :=
  match s with
  | EmptyString => EmptyString
  | String c s' => if Ascii.eqb c sep then EmptyString else String c (split_first sep s')
  end.

Fixpoint lstrip (s : string) : string :=
  match s with
  | String c s' => if is_space c then lstrip s' else s
  | EmptyString => EmptyString
  end.

Fixpoint rstrip (s : string) : string :=
  match s with
  | EmptyString => EmptyString
  | String c s' =>
      match rstrip s' with
      | EmptyString => if is_space c then EmptyString else String c EmptyString
      | r => String c r
      end
  end.

(** [s.strip()]. *)
Definition strip (s : string) : string := rstrip (lstrip s).

(** [s.replace(old, new)] for a one-character [old]. *)
Fixpoint replace_char (old : ascii) (new : string) (s : string) : string :=
  match s with
  | EmptyString => EmptyString
  | String c s' =>
      (if Ascii.eqb c old then new else String c EmptyString) +:+ replace_char old new s'
  end.

(** [sep.join(parts)]. *)
Fixpoint join (sep : string) (parts : list string) : string :=
  match parts with
  | [] => EmptyString
  | [p] => p
  | p :: rest => p +:+ sep +:+ join sep rest
  end.

(** [$] outside MULTILINE mode: the end of the string, or just before a
    line feed that ends the string. *)
Definition at_dollar (s : string) : bool :=
  String.eqb s EmptyString || String.eqb s (String LF EmptyString).

(** [str(x)] and [f'{x}'] for an [int]. *)
Definition str_int (z : Z) : string := pretty z.

End Py.

(** [shlex.quote] and [shlex.join]: a word made of safe characters only is
    left as it is, the empty word becomes two single quotes, any other word is
    wrapped in single quotes with each single quote inside it spelled
    quote, double-quoted quote, quote. *)
Module Shlex.

Definition safe_char (c : ascii) : bool :=
  Py.is_word c ||
  existsb (Ascii.eqb c) ["@"; "%"; "+"; "="; ":"; ","; "."; "/"; "-"]%char.

Definition quote (s : string) : string :=
  if String.eqb s EmptyString then Py.squote +:+ Py.squote
  else if Py.all_chars safe_char s then s
  else Py.squote
       +:+ Py.replace_char (ascii_of_nat 39)
             (Py.squote +:+ Py.dquote +:+ Py.squote +:+ Py.dquote +:+ Py.squote) s
       +:+ Py.squote.

Definition join (parts : list string) : string := Py.join " " (map quote parts).

End Shlex.

(** [os.path] on POSIX. *)
Module OsPath.

Definition is_abs (p : string) : bool := String.prefix "/" p.

(** [os.path.join(a, b)]. *)
Definition join (a b : string) : string :=
  if is_abs b then b
  else if String.eqb a EmptyString || Py.endswith a "/" then a +:+ b
  else a +:+ "/" +:+ b.

(** [path.split('/')], with the component being read in [cur]. *)
Fixpoint components_from (cur : string) (s : string) : list string :=
  match s with
  | EmptyString => [cur]
  | String c s' =>
      if Ascii.eqb c "/"%char then cur :: components_from EmptyString s'
      else components_from (cur +:+ String c EmptyString) s'
  end.

Definition components (p : string) : list string := components_from EmptyString p.

(** The loop of [posixpath.normpath] over the components: empty
    components and [.] are dropped, [..] removes the component before it
    unless there is none to remove or that one is [..] itself.
    [new_comps] is held last component first. *)
Fixpoint collapse (initial_slashes : bool) (comps new_comps : list string) : list string :=
  match comps with
  | [] => List.rev new_comps
  | comp :: rest =>
      if String.eqb comp EmptyString || String.eqb comp "." then
        collapse initial_slashes rest new_comps
      else if negb (String.eqb comp "..")
              || (negb initial_slashes
                  && match new_comps with [] => true | _ :: _ => false end)
              || match new_comps with last :: _ => String.eqb last ".." | [] => false end
      then collapse initial_slashes rest (comp :: new_comps)
      else match new_comps with
           | _ :: popped => collapse initial_slashes rest popped
           | [] => collapse initial_slashes rest new_comps
           end
  end.

(** [os.path.normpath(path)].  POSIX keeps two leading slashes and reads
    three or more as one. *)
Definition normpath (path : string) : string :=
  if String.eqb path EmptyString then "."
  else
    let initial_slashes := String.prefix "/" path in
    let leading :=
      if initial_slashes && String.prefix "//" path && negb (String.prefix "///" path)
      then "//"
      else if initial_slashes then "/" else EmptyString in
    let path' := leading +:+ Py.join "/" (collapse initial_slashes (components path) []) in
    if String.eqb path' EmptyString then "." else path'.

(** [os.path.basename(p)]: what follows the last slash. *)
Fixpoint basename (p : string) : string :=
  match p with
  | EmptyString => EmptyString
  | String c p' =>
      if Py.contains "/" p then basename p' else p
  end.

(** The part of [s] before its last dot, when that dot is preceded by a
    character that is not a dot ([genericpath._splitext]); [None] when the
    name has no extension. *)
Fixpoint splitext_root (seen_non_dot : bool) (s : string) : option string :=
  match s with
  | EmptyString => None
  | String c s' =>
      let is_dot := Ascii.eqb c "."%char in
      match splitext_root (seen_non_dot || negb is_dot) s' with
      | Some r => Some (String c r)
      | None => if is_dot && seen_non_dot then Some EmptyString else None
      end
  end.

(** [os.path.splitext(name)[0]] for a name without a slash. *)
Definition splitext0 (name : string) : string :=
  match splitext_root false name with
  | Some r => r
  | None => name
  end.

End OsPath.

(** ** [upgrade/database.py]: the version descriptor *)

Module DbVersion.

Record t : Type := mk {
  version : string;
  edition : option string;
  major : string;
  db_type : string
}.

(** [f'{x}'] for an [Optional[str]]. *)
Definition str_opt (o : option string) : string :=
  match o with Some s => s | None => "None" end.

(** [DbVersion.__str__]. *)
Definition str (v : t) : string :=
  if String.eqb (db_type v) "ttdb" then version v +:+ "-" +:+ str_opt (edition v)
  else version v +:+ "-pgdg".

(** [re.match(r'^\d+\.\d+\.\d+$', version)].  A dot is not a digit, so each
    greedy [\d+] takes the whole run of digits in front of it. *)
Definition match_ttdb (v : string) : bool :=
  let '(g1, r1) := Py.span Py.is_digit v in
  Py.truthy g1 &&
  match r1 with
  | String "."%char r2 =>
      let '(g2, r3) := Py.span Py.is_digit r2 in
      Py.truthy g2 &&
      match r3 with
      | String "."%char r4 =>
          let '(g3, r5) := Py.span Py.is_digit r4 in
          Py.truthy g3 && Py.at_dollar r5
      | _ => false
      end
  | _ => false
  end.

(** [re.match(r'^(\d+)\.(\d+)(\.\d+)?$', version)]: groups 1 and 2 of the
    match.  The optional group is tried first; when it does not lead to a
    match the pattern is retried without it. *)
Definition match_pgdg (v : string) : option (string * string) :=
  let '(g1, r1) := Py.span Py.is_digit v in
  if negb (Py.truthy g1) then None else
  match r1 with
  | String "."%char r2 =>
      let '(g2, r3) := Py.span Py.is_digit r2 in
      if negb (Py.truthy g2) then None else
      let with_patch :=
        match r3 with
        | String "."%char r4 =>
            let '(g3, r5) := Py.span Py.is_digit r4 in
            Py.truthy g3 && Py.at_dollar r5
        | _ => false
        end in
      if with_patch || Py.at_dollar r3 then Some (g1, g2) else None
  | _ => None
  end.

(** [DbVersion.create]. *)
Definition create (version : string) (edition : option string) (db_type : string)
  : result t :=
  if String.eqb db_type "ttdb" then
    if negb (match_ttdb version) then
      Raise (ValueError ("Invalid version string " +:+ Py.dquote +:+ version +:+ Py.dquote
                         +:+ " - must be in MAJOR.MINOR.PATCH form for ttdb"))
    else if negb (Py.truthy_opt edition) then
      Raise (ValueError ("DB edition is not provided for version " +:+ Py.dquote +:+ version
                         +:+ Py.dquote +:+ " in ttdb mode"))
    else
      Ok (mk version edition (Py.split_first "."%char version) db_type)
  else if String.eqb db_type "pgdg" then
    match match_pgdg version with
    | None =>
        Raise (ValueError ("Invalid pgdg version string " +:+ Py.dquote +:+ version
                           +:+ Py.dquote +:+ ". Expected at least MAJOR.MINOR (e.g. "
                           +:+ Py.dquote +:+ "16.6" +:+ Py.dquote +:+ " or "
                           +:+ Py.dquote +:+ "16.6.0" +:+ Py.dquote +:+ ")"))
    | Some (major_part, minor_part) =>
        Ok (mk (major_part +:+ "." +:+ minor_part) None major_part db_type)
    end
  else
    Raise (ValueError ("Unknown db_type " +:+ Py.dquote +:+ db_type +:+ Py.dquote)).

End DbVersion.


(** ** The world the program runs in *)

(** An environment dictionary; a value may be [None]. *)
Definition Env : Type := list (string * option string).

(** What the container's [exec_create] receives. *)
Record ExecReq : Type := mkReq {
  cmd : string;
  environment : option Env;
  workdir : option string
}.

(** The calls that reach the Docker daemon, as the manager's methods were
    called. *)
Inductive Event : Type :=
| EvManagerInit (image container_name : string) (volumes : list string)
| EvStartContainer
| EvShell (command : list string) (env : option Env) (logfile : option string)
    (cwd : option string) (check_code : bool)
| EvExecCommand (command : string) (log_to_file : bool).

Inductive Level : Type := WARNING | ERROR.

(** [events]: the calls made so far, oldest first.  [files] and [dirs]: the
    regular files (with their text) and the directories of the host.
    [logged]: the warning and error records handed to the logger, oldest
    first (debug and info records are left out of the embedding). *)
Record World : Type := mkWorld {
  events : list Event;
  files : gmap string string;
  dirs : gset string;
  logged : list (Level * string)
}.

(** A state and exception monad over [World]. *)
Definition M (A : Type) : Type := World -> result A * World.

Definition ret {A} (a : A) : M A := fun w => (Ok a, w).
Definition raise {A} (e : exn) : M A := fun w => (Raise e, w).
Definition lift {A} (r : result A) : M A := fun w => (r, w).
Definition bind {A B} (m : M A) (k : A -> M B) : M B :=
  fun w => match m w with
           | (Ok a, w') => k a w'
           | (Raise e, w') => (Raise e, w')
           end.

(** [try: m  except Exception as e: h e]. *)
Definition try_except {A} (m : M A) (h : exn -> M A) : M A :=
  fun w => match m w with
           | (Ok a, w') => (Ok a, w')
           | (Raise e, w') => h e w'
           end.

Declare Scope m_scope.
Delimit Scope m_scope with M.
Notation "x <- m ;; k" := (bind m (fun x => k))
  (at level 100, m at next level, right associativity) : m_scope.
Notation "m ;; k" := (bind m (fun _ => k))
  (at level 100, right associativity) : m_scope.
Open Scope m_scope.

(** [when c m]: [if c: m]. *)
Definition when (c : bool) (m : M unit) : M unit := if c then m else ret tt.

(** [for x in l: body x]. *)
Fixpoint for_each {A} (l : list A) (body : A -> M unit) : M unit :=
  match l with
  | [] => ret tt
  | x :: rest => body x ;; for_each rest body
  end.

Definition record_event (e : Event) : M unit :=
  fun w => (Ok tt, mkWorld (events w ++ [e]) (files w) (dirs w) (logged w)).

Definition log (l : Level) (msg : string) : M unit :=
  fun w => (Ok tt, mkWorld (events w) (files w) (dirs w) (logged w ++ [(l, msg)])).

(** The host file system. *)
Module Host.

(** [os.path.isfile]. *)
Definition isfile (p : string) : M bool :=
  fun w => (Ok (bool_decide (is_Some (files w !! p))), w).

(** [p] is a file or a directory of the host. *)
Definition present (w : World) (p : string) : bool :=
  bool_decide (is_Some (files w !! p)) || bool_decide (p ∈ dirs w).

(** [os.path.exists]. *)
Definition path_exists (p : string) : M bool :=
  fun w => (Ok (present w p), w).

(** [os.makedirs(p, exist_ok=True)]; parent directories are not tracked. *)
Definition makedirs (p : string) : M unit :=
  fun w => (Ok tt, mkWorld (events w) (files w) ({[p]} ∪ dirs w) (logged w)).

(** [with open(p, 'a') as f: f.write(text)]. *)
Definition append (p text : string) : M unit :=
  fun w => (Ok tt, mkWorld (events w)
                     (<[p := default EmptyString (files w !! p) +:+ text]> (files w))
                     (dirs w) (logged w)).

(** [open(p, 'r').read()]; the caller has checked that [p] exists. *)
Definition read (p : string) : M string :=
  fun w => match files w !! p with
           | Some text => (Ok text, w)
           | None => (Raise (IsADirectoryError p), w)
           end.

(** The lines a text file yields when it is iterated: universal newlines,
    so a line ends at a line feed, at a carriage return, or at a carriage
    return followed by a line feed; the terminator is read as one line
    feed and stays on the line. *)
Fixpoint lines_from (cur : string) (s : string) : list string :=
  match s with
  | EmptyString => if String.eqb cur EmptyString then [] else [cur]
  | String c s' =>
      if Ascii.eqb c Py.LF then (cur +:+ String Py.LF EmptyString) :: lines_from EmptyString s'
      else if Ascii.eqb c Py.CR then
        (cur +:+ String Py.LF EmptyString) ::
        match s' with
        | String c' s'' => if Ascii.eqb c' Py.LF then lines_from EmptyString s''
                           else lines_from EmptyString s'
        | EmptyString => []
        end
      else lines_from (cur +:+ String c EmptyString) s'
  end.

Definition lines (text : string) : list string := lines_from EmptyString text.

End Host.

(** ** The records of [upgrade/database.py], [src/manifest.py] and
    [upgrade/migration.py] *)

(** [Database].  Its [docker_manager] field is the one manager of the run
    and is not repeated in the record; [version] and [bin_path] are [None] in
    the placeholder the runner builds for the first old database. *)
Module Database.
Record t : Type := mk {
  version : option DbVersion.t;
  bin_path : option string;
  data_path : string;
  logs_dir : string
}.

(** [f'{db.version}']. *)
Definition version_str (db : t) : string :=
  match version db with
  | Some v => DbVersion.str v
  | None => "None"
  end.
End Database.

Module NexusEnv.
Record t : Type := mk {
  NEXUS_USER : option string;
  NEXUS_USER_PASSWORD : option string;
  NEXUS_URL : option string
}.

(** [nexus_env.__dict__]. *)
Definition dict (n : t) : Env :=
  [("NEXUS_USER", NEXUS_USER n);
   ("NEXUS_USER_PASSWORD", NEXUS_USER_PASSWORD n);
   ("NEXUS_URL", NEXUS_URL n)].
End NexusEnv.

(** [ScriptList = Union[str, List[str], None]]. *)
Inductive ScriptList : Type :=
| SNone
| SStr (s : string)
| SList (l : list string).

(** Truthiness of a script list, and Python's [a or b] on two of them. *)
Definition truthy_scripts (s : ScriptList) : bool :=
  match s with
  | SNone => false
  | SStr s => Py.truthy s
  | SList l => negb (bool_decide (l = []))
  end.

Definition or_scripts (a b : ScriptList) : ScriptList :=
  if truthy_scripts a then a else b.

Inductive MigrationStrategy : Type := PG_DUMPALL | PG_UPGRADE | MINOR.

(** [MigrationStep]; its [args] dictionary is read nowhere in the program
    and is left out. *)
Module Step.
Record t : Type := mk {
  type : MigrationStrategy;
  db_version : string;
  db_edition : option string;
  package : option string;
  pre_scripts : ScriptList;
  post_scripts : ScriptList;
  verifiers : ScriptList
}.
End Step.

Module DockerConfig.
Record t : Type := mk {
  image : string;
  registry : option string;
  host_port : option Z;
  container_port : option Z;
  container_name : option string
}.
End DockerConfig.

(** [MigrationManifest]; [kind] is ["upgrade"] and [args] is read nowhere. *)
Module Manifest.
Record t : Type := mk {
  steps : list Step.t;
  db_type : string;
  db_version : string;
  db_edition : option string;
  package : option string;
  initial_setup_script : option string;
  initial_pre_scripts : ScriptList;
  initial_post_scripts : ScriptList;
  pre_scripts : ScriptList;
  post_scripts : ScriptList;
  verifiers : ScriptList;
  docker : DockerConfig.t
}.
End Manifest.

(** [Environment] of [upgrade/migration.py]. *)
Module Environment.
Record t : Type := mk {
  tmp_dir : string;
  new_db : string;
  old_db : string;
  logs_dir : string;
  scripts_dir : option string;
  packages_dir : option string;
  db_installer : string;
  pgdg_installer : string
}.
End Environment.

(** [self.state] of the runner, once [create_initial_state] has set it. *)
Module State.
Record t : Type := mk {
  old_db : Database.t;
  new_db : Database.t;
  step : option Step.t
}.
End State.

(** [str(e)] of an exception. *)
Definition exn_msg (e : exn) : string :=
  match e with
  | ValueError m | RuntimeError m | FileNotFoundError m | IsADirectoryError m
  | NotImplementedError m | KeyError m | TypeError m | AttributeError m => m
  end.

(** ** [manager/dockerManager.py]: running commands in the container *)

Record ExecResult : Type := mkExecResult { exit_code : Z; output : string }.

Section Program.

(** What the container answers to a request, given the calls made before
    it: the chunks of output, in order, and the exit code. *)
Variable respond : list Event -> ExecReq -> list string * Z.

(** [src.logger.TIMESTAMP], [os.getcwd()] and [os.environ]. *)
Variable TIMESTAMP : string.
Variable getcwd : string.
Variable environ : gmap string string.

(** [exec_create], [exec_start] and [exec_inspect] of one command. *)
Definition container_exec (e : Event) (req : ExecReq) : M (list string * Z) :=
  fun w => (Ok (respond (events w) req),
            mkWorld (events w ++ [e]) (files w) (dirs w) (logged w)).

(** [DockerContainerManager.shell].  [logfile] is a path or [None], the
    only forms the program passes. *)
Definition shell (command : list string) (env : option Env) (logfile : option string)
    (cwd : option string) (check_code : bool) : M ExecResult :=
  let cmd := Shlex.join command in
  try_except
    (answer <- container_exec (EvShell command env logfile cwd check_code)
                 (mkReq cmd env cwd) ;;
     let '(chunks, exit_code) := answer in
     for_each chunks (fun decoded =>
       match logfile with
       | Some f => when (Py.truthy f) (Host.append f decoded)
       | None => ret tt
       end) ;;
     let contents := fold_left String.append chunks EmptyString in
     if check_code && negb (exit_code =? 0)%Z then
       log ERROR ("Command failed with exit code " +:+ Py.str_int exit_code +:+ ": " +:+ cmd) ;;
       raise (RuntimeError ("Command failed with exit code " +:+ Py.str_int exit_code
                            +:+ ": " +:+ cmd))
     else ret (mkExecResult exit_code contents))
    (fun e =>
       log ERROR ("An error occurred while executing the command: " +:+ cmd) ;;
       raise e).

(** [shell] called with positional arguments only: every keyword argument
    is at its default. *)
Definition shell_ (command : list string) : M ExecResult :=
  shell command None None None true.

(** [DockerContainerManager.exec_command] for a [str] command.  The output
    goes to the performance log when [log_to_file] is set and to the
    terminal (not part of the world) otherwise. *)
Definition exec_command (command : string) (log_to_file : bool) : M Z :=
  let log_file_path :=
    OsPath.join (OsPath.join getcwd "logs") ("perf_dbms_" +:+ TIMESTAMP +:+ ".log") in
  when log_to_file
    (Host.makedirs (OsPath.join getcwd "logs") ;;
     Host.append log_file_path EmptyString) ;;
  answer <- container_exec (EvExecCommand command log_to_file)
              (mkReq command None None) ;;
  let '(chunks, exit_code) := answer in
  for_each chunks (fun chunk => when log_to_file (Host.append log_file_path chunk)) ;;
  if negb (exit_code =? 0)%Z then
    if Py.contains "db_installer.sh" command && (exit_code =? 127)%Z then
      log WARNING "Ignoring error code 127 from db_installer.sh due to missing systemctl" ;;
      ret 0%Z
    else
      log ERROR ("Command '" +:+ command +:+ "' failed with exit code "
                 +:+ Py.str_int exit_code +:+ ".") ;;
      ret exit_code
  else ret exit_code.


(** ** [upgrade/database.py] *)

(** A path argument that must be a [str]: [os.path.join] and [shlex.join]
    raise [TypeError] on [None]. *)
Definition require_str (o : option string) : M string :=
  match o with
  | Some s => ret s
  | None => raise (TypeError "expected str, bytes or os.PathLike object, not NoneType")
  end.

(** [get_pg_binary]. *)
Definition get_pg_binary (db : Database.t) (binary : string) : M string :=
  b <- require_str (Database.bin_path db) ;;
  ret (OsPath.join b binary).

(** [get_log_file]. *)
Definition get_log_file (db : Database.t) (logfilename : string) : string :=
  OsPath.join (Database.logs_dir db) logfilename.

(** [run_pg_binary]. *)
Definition run_pg_binary (db : Database.t) (binary : string) (args : list string) : M string :=
  let logfilename := binary +:+ "_" +:+ Database.version_str db +:+ ".log" in
  let logfile := get_log_file db logfilename in
  pg_binary <- get_pg_binary db binary ;;
  let command := Shlex.join (pg_binary :: args) in
  try_except
    (r <- shell ["su"; "-"; "postgres"; "-c"; command] None (Some logfile)
            (Some (Database.data_path db)) true ;;
     ret (output r))
    (fun e =>
       log WARNING ("Failed to execute " +:+ binary +:+ ". See errors in logfile: " +:+ logfile) ;;
       when (String.eqb binary "pg_upgrade")
         (let error_logs_dir := OsPath.join (Database.logs_dir db) "additionally_errors_logs" in
          shell_ ["mkdir"; "-p"; error_logs_dir] ;;
          shell_ ["bash"; "-c"; "cp -r " +:+ Database.data_path db
                                 +:+ "/pg_upgrade_output.d/*/log/* " +:+ error_logs_dir] ;;
          shell_ ["find"; error_logs_dir; "-type"; "d"; "-exec"; "chmod"; "775"; "{}"; "+"] ;;
          shell_ ["find"; error_logs_dir; "-type"; "f"; "-exec"; "chmod"; "664"; "{}"; "+"] ;;
          ret tt) ;;
       raise e).

(** [initdb] (no extra arguments are passed anywhere). *)
Definition initdb (db : Database.t) : M unit :=
  run_pg_binary db "initdb" ["-D"; Database.data_path db] ;; ret tt.

(** [pg_ctl]. *)
Definition pg_ctl (db : Database.t) (command : string) : M unit :=
  run_pg_binary db "pg_ctl" ["-D"; Database.data_path db; command] ;; ret tt.

(** [run_db] and [stop_db]. *)
Definition run_db (db : Database.t) : M unit := pg_ctl db "start".
Definition stop_db (db : Database.t) : M unit := pg_ctl db "stop".

(** The scan of [run_sql_script]: the first line of the log that contains
    the marker, if any. *)
Definition first_error_line (text : string) : option string :=
  find (Py.contains "ERROR:") (Host.lines text).

(** [run_sql_script]. *)
Definition run_sql_script (db : Database.t) (script_path : string) : M unit :=
  let binary := "psql" in
  let logfilename := binary +:+ "_" +:+ Database.version_str db +:+ ".log" in
  let logfile := get_log_file db logfilename in
  run_pg_binary db binary ["-f"; script_path] ;;
  found <- Host.path_exists logfile ;;
  if found then
    text <- Host.read logfile ;;
    match first_error_line text with
    | Some line =>
        log ERROR ("Error found in SQL script execution log: " +:+ Py.strip line) ;;
        raise (RuntimeError ("Error found during execution of " +:+ script_path
                             +:+ ". See " +:+ logfile +:+ " for details."))
    | None => ret tt
    end
  else
    log WARNING ("Logfile " +:+ logfile +:+ " not found for analysis").

(** [run_shell_script]. *)
Definition run_shell_script (db : Database.t) (script : string) : M unit :=
  let script_name := OsPath.splitext0 (OsPath.basename script) in
  let logfilename := get_log_file db ("shell_" +:+ script_name +:+ ".log") in
  shell ["bash"; script] (Some [("DB_PATH", Some (Database.data_path db))])
    (Some logfilename) (Database.bin_path db) true ;;
  ret tt.

(** [pg_upgrade]. *)
Definition pg_upgrade (new_db old_db : Database.t) : M unit :=
  shell_ ["cp"; Database.data_path old_db +:+ "/postgresql.conf"; Database.data_path new_db] ;;
  old_bin <- require_str (Database.bin_path old_db) ;;
  new_bin <- require_str (Database.bin_path new_db) ;;
  result <- run_pg_binary new_db "pg_upgrade"
              ["-b"; old_bin; "-B"; new_bin;
               "-d"; Database.data_path old_db; "-D"; Database.data_path new_db] ;;
  let script := "update_extensions.sql" in
  when (Py.contains script result)
    (run_db new_db ;;
     run_sql_script new_db script ;;
     stop_db new_db).

(** [pg_dumpall]. *)
Definition pg_dumpall (db : Database.t) (dump_file : string) : M unit :=
  run_pg_binary db "pg_dumpall" ["-f"; dump_file] ;; ret tt.

(** [get_bin_dir]. *)
Definition get_bin_dir (version : DbVersion.t) (package_path : option string) : M string :=
  if String.eqb (DbVersion.db_type version) "ttdb" then
    ret ("/opt/tantor/db/" +:+ DbVersion.major version +:+ "/bin")
  else if String.eqb (DbVersion.db_type version) "pgdg" then
    let default_path := "/usr/local/pgsql/" +:+ DbVersion.major version +:+ "/bin" in
    if Py.truthy_opt package_path then
      let file_path := "/tmp/pg_install_path_" +:+ DbVersion.major version +:+ ".txt" in
      try_except
        (result <- shell ["cat"; file_path] None None None false ;;
         if (exit_code result =? 0)%Z && Py.truthy (Py.strip (output result))
         then ret (OsPath.join (Py.strip (output result)) "bin")
         else ret default_path)
        (fun e =>
           log WARNING ("Error reading install path from " +:+ file_path +:+ ": " +:+ exn_msg e) ;;
           ret default_path)
    else ret default_path
  else raise (ValueError ("Unsupported db_type: " +:+ DbVersion.db_type version)).

(** [re.search(r'Version:\s*(\S+)', output)]: group 1 of the leftmost
    match.  After the literal, [\s*] takes all the white space and [\S+]
    the run that follows; when that run is empty no shorter choice of
    [\s*] helps, and the search moves on to the next position. *)
Fixpoint search_version (s : string) : option string :=
  let here :=
    if String.prefix "Version:" s then
      let g := fst (Py.span (fun c => negb (Py.is_space c))
                      (Py.lstrip (String.substring 8 (String.length s - 8) s))) in
      if Py.truthy g then Some g else None
    else None in
  match here with
  | Some g => Some g
  | None => match s with
            | EmptyString => None
            | String _ s' => search_version s'
            end
  end.

(** [verify_package_version]. *)
Definition verify_package_version (package_path : string) (version : DbVersion.t) : M unit :=
  result <- shell ["dpkg"; "-I"; package_path] None None None false ;;
  if negb (exit_code result =? 0)%Z then
    raise (RuntimeError ("Failed to inspect package " +:+ package_path))
  else
    match search_version (output result) with
    | None => raise (RuntimeError ("Failed to parse version from package " +:+ package_path))
    | Some package_version =>
        let mismatch :=
          RuntimeError ("Package version " +:+ package_version
                        +:+ " does not match expected version " +:+ DbVersion.version version) in
        if String.eqb (DbVersion.db_type version) "pgdg" then
          let pkg_ver_numeric := Py.split_first "-"%char package_version in
          if negb (String.eqb pkg_ver_numeric (DbVersion.version version))
          then raise mismatch else ret tt
        else
          if negb (String.eqb package_version (DbVersion.version version))
          then raise mismatch else ret tt
    end.

(** [p if p else None]: a path that is absent or empty counts as absent. *)
Definition given (package_path : option string) : option string :=
  match package_path with
  | Some p => if Py.truthy p then Some p else None
  | None => None
  end.

(** [run_db_installer]. *)
Definition run_db_installer (db_installer pgdg_installer : string) (version : DbVersion.t)
    (db_logs_dir : string) (nexus_env : NexusEnv.t) (package_path : option string)
    (db_type : string) : M unit :=
  let logfilename :=
    OsPath.join db_logs_dir (db_type +:+ "_installer_" +:+ DbVersion.str version +:+ ".log") in
  settled <-
    (if String.eqb db_type "pgdg" then
       match given package_path with
       | Some p =>
           verify_package_version p version ;;
           ret ([pgdg_installer; "--from-file=" +:+ p], @None Env)
       | None =>
           ret ([pgdg_installer;
                 "--maintenance-version=" +:+ DbVersion.version version;
                 "--install-path=/usr/local/pgsql/" +:+ DbVersion.major version], None)
       end
     else
       match given package_path with
       | Some p =>
           verify_package_version p version ;;
           ret ([db_installer; "--from-file=" +:+ p],
                Some [("DEBIAN_FRONTEND", Some "noninteractive")])
       | None =>
           ret ([db_installer;
                 "--edition=" +:+ DbVersion.str_opt (DbVersion.edition version);
                 "--maintenance-version=" +:+ DbVersion.version version;
                 "--major-version=" +:+ DbVersion.major version],
                Some (NexusEnv.dict nexus_env))
       end) ;;
  let '(command, env_vars) := settled in
  try_except
    (shell command env_vars (Some logfilename) None true ;; ret tt)
    (fun e =>
       log ERROR ("Failed to execute installer. See log in " +:+ logfilename) ;;
       raise e).

(** [create_db]. *)
Definition create_db (db_installer logs_dir db_path : string) (version : DbVersion.t)
    (nexus_env : NexusEnv.t) (db_type pgdg_installer : string) (package_path : option string)
  : M Database.t :=
  let db_logs_dir := OsPath.join logs_dir ("logs_" +:+ DbVersion.str version) in
  Host.makedirs db_logs_dir ;;
  run_db_installer db_installer pgdg_installer version db_logs_dir nexus_env package_path db_type ;;
  bin_path <- get_bin_dir version package_path ;;
  ret (Database.mk (Some version) (Some bin_path) db_path db_logs_dir).

(** [NexusEnv.from_env]. *)
Definition from_env (db_type : string) : result NexusEnv.t :=
  let get key := environ !! key in
  let missing key := negb (Py.truthy_opt (get key)) && String.eqb db_type "ttdb" in
  let complain key :=
    Raise (KeyError ("Nexus setting " +:+ key +:+ " not set in environment variables")) in
  if missing "NEXUS_USER" then complain "NEXUS_USER"
  else if missing "NEXUS_USER_PASSWORD" then complain "NEXUS_USER_PASSWORD"
  else if missing "NEXUS_URL" then complain "NEXUS_URL"
  else Ok (NexusEnv.mk (get "NEXUS_USER") (get "NEXUS_USER_PASSWORD") (get "NEXUS_URL")).

(** [os.path.abspath]: a relative path is joined to the working
    directory, and the result is normalised. *)
Definition abspath (p : string) : string :=
  OsPath.normpath (if OsPath.is_abs p then p else OsPath.join getcwd p).

(** ** [upgrade/migration.py] *)

(** [Environment.get_script] and [Environment.get_package]. *)
Definition get_script (env : Environment.t) (script_name : string) : M string :=
  scripts_dir <- require_str (Environment.scripts_dir env) ;;
  let path := OsPath.join scripts_dir script_name in
  is_file <- Host.isfile path ;;
  if negb is_file then raise (FileNotFoundError ("Failed to find script " +:+ path))
  else ret (abspath path).

Definition get_package (env : Environment.t) (package_name : string) : M string :=
  packages_dir <- require_str (Environment.packages_dir env) ;;
  let path := OsPath.join packages_dir package_name in
  is_file <- Host.isfile path ;;
  if negb is_file then raise (FileNotFoundError ("Failed to find package " +:+ path))
  else ret (abspath path).

(** [Environment.get_temp_filename]. *)
Definition get_temp_filename (env : Environment.t) (filename : string) : string :=
  OsPath.join (Environment.tmp_dir env) filename.

Section MigrationRunner.

(** [self.manifest], [self.env] and [self.nexus_env]; [self.db_installer]
    is [env.db_installer] and [self.docker_manager] is the manager of
    the run. *)
Variable manifest : Manifest.t.
Variable env : Environment.t.
Variable nexus_env : NexusEnv.t.

(** [self.env.get_package(p) if p else None]. *)
Definition resolve_package (package : option string) : M (option string) :=
  match given package with
  | Some p => path <- get_package env p ;; ret (Some path)
  | None => ret None
  end.

(** [MigrationRunner.clean_db_directory]. *)
Definition clean_db_directory (db_path : string) : M unit :=
  shell_ ["rm"; "-rf"; db_path] ;;
  shell_ ["mkdir"; "-p"; db_path] ;;
  shell_ ["chmod"; "0700"; db_path] ;;
  shell_ ["chown"; "postgres:postgres"; db_path] ;;
  ret tt.

(** [MigrationRunner.create_initial_state]; the state it stores in
    [self.state] is returned. *)
Definition create_initial_state : M State.t :=
  initial_version <- lift (DbVersion.create (Manifest.db_version manifest)
                             (Manifest.db_edition manifest) (Manifest.db_type manifest)) ;;
  initial_package_path <- resolve_package (Manifest.package manifest) ;;
  initial_db <- create_db (Environment.db_installer env) (Environment.logs_dir env)
                  (Environment.new_db env) initial_version nexus_env
                  (Manifest.db_type manifest) (Environment.pgdg_installer env)
                  initial_package_path ;;
  let old_db := Database.mk None None (Environment.old_db env) (Environment.logs_dir env) in
  for_each [initial_db; old_db] (fun db => clean_db_directory (Database.data_path db)) ;;
  initdb initial_db ;;
  ret (State.mk old_db initial_db None).

(** [MigrationRunner.prepare_step].  The assignment to
    [self.state['new_db'].data_path] changes the one object that the
    state holds as its new database; the swap then makes it the old
    database. *)
Definition prepare_step (state : State.t) (step : Step.t) : M State.t :=
  let old_data := Database.data_path (State.old_db state) in
  let new_data := Database.data_path (State.new_db state) in
  shell_ ["rm"; "-rf"; old_data] ;;
  shell_ ["mv"; new_data; old_data] ;;
  let moved := Database.mk (Database.version (State.new_db state))
                 (Database.bin_path (State.new_db state)) old_data
                 (Database.logs_dir (State.new_db state)) in
  let state1 := State.mk moved (State.old_db state) (State.step state) in
  new_version <- lift (DbVersion.create (Step.db_version step) (Step.db_edition step)
                         (Manifest.db_type manifest)) ;;
  new_package_path <- resolve_package (Step.package step) ;;
  new_db <- create_db (Environment.db_installer env) (Environment.logs_dir env)
              (Environment.new_db env) new_version nexus_env
              (Manifest.db_type manifest) (Environment.pgdg_installer env)
              new_package_path ;;
  ret (State.mk (State.old_db state1) new_db (Some step)).

(** [self.state['step']], which is [None] until a step is prepared. *)
Definition current_step (state : State.t) : M Step.t :=
  match State.step state with
  | Some step => ret step
  | None => raise (AttributeError "'NoneType' object has no attribute 'type'")
  end.

(** [MigrationRunner.initialize_db_cluster]. *)
Definition initialize_db_cluster (state : State.t) : M unit :=
  let new_db := State.new_db state in
  shell_ ["mkdir"; "-p"; Database.data_path new_db] ;;
  shell_ ["chown"; "postgres:postgres"; Database.data_path new_db] ;;
  initdb new_db.

(** [MigrationRunner.extract_plain_script_list]. *)
Definition extract_plain_script_list (scripts : ScriptList) : option (list string) :=
  if negb (truthy_scripts scripts) then None
  else match scripts with
       | SStr s => Some [s]
       | SList l => Some l
       | SNone => None
       end.

(** [MigrationRunner.run_psql_script] and [run_shell_script]. *)
Definition run_psql_script (state : State.t) (script : string) : M unit :=
  script_path <- get_script env script ;;
  run_sql_script (State.new_db state) script_path.

Definition runner_run_shell_script (state : State.t) (script : string) : M unit :=
  script_path <- get_script env script ;;
  run_shell_script (State.new_db state) script_path.

(** [MigrationRunner.run_scripts]. *)
Definition run_scripts (state : State.t) (scripts : ScriptList) : M unit :=
  if negb (truthy_scripts scripts) then ret tt
  else match extract_plain_script_list scripts with
       | None | Some [] => ret tt
       | Some script_list =>
           run_db (State.new_db state) ;;
           for_each script_list (fun script =>
             if Py.endswith script ".sql" then run_psql_script state script
             else runner_run_shell_script state script) ;;
           stop_db (State.new_db state)
       end.

(** [MigrationRunner.run_pre_step]. *)
Definition pre_step_scripts (step : Step.t) : ScriptList :=
  match Step.type step with
  | MINOR => or_scripts (Manifest.initial_pre_scripts manifest) (Manifest.pre_scripts manifest)
  | _ => or_scripts (Step.pre_scripts step) (Manifest.pre_scripts manifest)
  end.

Definition run_pre_step (state : State.t) : M unit :=
  step <- current_step state ;;
  run_scripts state (pre_step_scripts step).

(** The class body defines [run_post_step] twice.  The first definition
    is the one that knows of minor steps. *)
Definition post_step_scripts_first (step : Step.t) : ScriptList :=
  match Step.type step with
  | MINOR => or_scripts (Manifest.initial_post_scripts manifest) (Manifest.post_scripts manifest)
  | _ => or_scripts (Step.post_scripts step) (Manifest.post_scripts manifest)
  end.

Definition run_post_step_first (state : State.t) : M unit :=
  step <- current_step state ;;
  run_scripts state (post_step_scripts_first step).

(** The second definition of [run_post_step]. *)
Definition post_step_scripts_second (step : Step.t) : ScriptList :=
  or_scripts (Step.post_scripts step) (Manifest.post_scripts manifest).

Definition run_post_step_second (state : State.t) : M unit :=
  step <- current_step state ;;
  run_scripts state (post_step_scripts_second step).

(** A class body is executed top to bottom and a later [def] rebinds the
    name, so the method the class ends up with is the second one. *)
Definition post_step_scripts : Step.t -> ScriptList := post_step_scripts_second.
Definition run_post_step : State.t -> M unit := run_post_step_second.

(** [MigrationRunner.run_verifier]. *)
Definition verifier_scripts (step : Step.t) : ScriptList :=
  or_scripts (Step.verifiers step) (Manifest.verifiers manifest).

Definition run_verifier (state : State.t) : M unit :=
  step <- current_step state ;;
  run_scripts state (verifier_scripts step).

(** [db.version.major]. *)
Definition version_major (db : Database.t) : M string :=
  match Database.version db with
  | Some v => ret (DbVersion.major v)
  | None => raise (AttributeError "'NoneType' object has no attribute 'major'")
  end.

(** The message of the [ValueError] of [run_minor]; the source has it in
    Russian, its bytes are kept. *)
Definition minor_mismatch (old_major new_major : string) : exn :=
  ValueError ("Minor upgrade невозможно: несовпадение major версии. Текущая: "
              +:+ old_major +:+ ", целевая: " +:+ new_major +:+ ".").

(** [MigrationRunner.run_minor]. *)
Definition run_minor (state : State.t) : M unit :=
  run_pre_step state ;;
  let old_db := State.old_db state in
  let new_db := State.new_db state in
  old_major <- version_major old_db ;;
  new_major <- version_major new_db ;;
  if negb (String.eqb old_major new_major) then raise (minor_mismatch old_major new_major)
  else
    let old_data := Database.data_path old_db in
    let new_data := Database.data_path new_db in
    shell_ ["rm"; "-rf"; new_data] ;;
    shell_ ["mv"; old_data; new_data] ;;
    shell_ ["mkdir"; "-p"; old_data] ;;
    shell_ ["chmod"; "0700"; old_data] ;;
    shell_ ["chown"; "postgres:postgres"; old_data] ;;
    run_db new_db ;;
    stop_db new_db ;;
    run_post_step state.

(** [MigrationRunner.run_pg_upgrade]. *)
Definition run_pg_upgrade (state : State.t) : M unit :=
  pg_upgrade (State.new_db state) (State.old_db state).

(** [MigrationRunner.copy_configuration_files]. *)
Definition copy_configuration_files (old_data_path new_data_path : string) : M unit :=
  for_each ["postgresql.conf"; "postgresql.auto.conf"; "pg_hba.conf"] (fun filename =>
    let old_file := OsPath.join old_data_path filename in
    let new_file := OsPath.join new_data_path filename in
    try_except
      (shell_ ["cp"; old_file; new_file] ;; ret tt)
      (fun e =>
         log ERROR ("Failed to copy " +:+ filename +:+ " to new db: " +:+ exn_msg e) ;;
         raise (RuntimeError ("Failed to copy " +:+ filename +:+ " to new db")))).

(** [MigrationRunner.run_pg_dumpall]. *)
Definition run_pg_dumpall (state : State.t) : M unit :=
  let new_db := State.new_db state in
  let old_db := State.old_db state in
  run_db old_db ;;
  let dump_file := get_temp_filename env ("dump_" +:+ Database.version_str old_db +:+ ".sql") in
  pg_dumpall new_db dump_file ;;
  stop_db old_db ;;
  copy_configuration_files (Database.data_path old_db) (Database.data_path new_db) ;;
  run_db new_db ;;
  run_sql_script new_db dump_file ;;
  stop_db new_db.

(** [MigrationRunner.run_step]. *)
Definition run_step (state : State.t) : M unit :=
  step <- current_step state ;;
  let step_type := Step.type step in
  match step_type with
  | MINOR => run_minor state
  | _ =>
      initialize_db_cluster state ;;
      run_pre_step state ;;
      match step_type with
      | PG_UPGRADE => run_pg_upgrade state
      | PG_DUMPALL => run_pg_dumpall state
      | MINOR => raise (NotImplementedError "Migration strategy minor not implemented")
      end ;;
      run_post_step state
  end ;;
  run_verifier state.

(** The loop of [MigrationRunner.run_migration], from the state the
    runner holds; the state after the last step is returned. *)
Fixpoint run_steps (state : State.t) (steps : list Step.t) : M State.t :=
  match steps with
  | [] => ret state
  | step :: rest =>
      state' <- prepare_step state step ;;
      run_step state' ;;
      run_steps state' rest
  end.

(** [MigrationRunner.run_migration]. *)
Definition runner_run_migration : M State.t :=
  state <- create_initial_state ;;
  run_steps state (Manifest.steps manifest).

End MigrationRunner.

(** [run_migration] of [upgrade/migration.py]: the constructor of the
    runner reads the Nexus settings, then the runner runs. *)
Definition run_migration (manifest : Manifest.t) (env : Environment.t) : M unit :=
  nexus_env <- lift (from_env (Manifest.db_type manifest)) ;;
  runner_run_migration manifest env nexus_env ;;
  ret tt.

(** ** [upgrade/upgrade.py] *)

(** [iter_script_list] of [check_scripts_exist]. *)
Definition iter_script_list (scripts : ScriptList) : list string :=
  if negb (truthy_scripts scripts) then []
  else match scripts with
       | SStr s => [s]
       | SList l => l
       | SNone => []
       end.

(** [iter_scripts] of [check_scripts_exist]: the scripts the check walks
    over, in order. *)
Definition iter_scripts (manifest : Manifest.t) : list string :=
  (flat_map iter_script_list
     [Manifest.pre_scripts manifest; Manifest.post_scripts manifest; Manifest.verifiers manifest]
   ++ flat_map (fun step =>
        flat_map iter_script_list
          [Step.pre_scripts step; Step.post_scripts step; Step.verifiers step])
      (Manifest.steps manifest))%list.

(** The loop of [check_scripts_exist] that collects the missing paths. *)
Fixpoint collect_missing (scripts_path : string) (scripts : list string) : M (list string) :=
  match scripts with
  | [] => ret []
  | script :: rest =>
      here <- (if Py.truthy script then
                 let script_path := OsPath.join scripts_path script in
                 found <- Host.path_exists script_path ;;
                 ret (if found then [] else [script_path])
               else ret []) ;;
      others <- collect_missing scripts_path rest ;;
      ret (here ++ others)%list
  end.

(** [check_scripts_exist]. *)
Definition check_scripts_exist (scripts_path : string) (manifest : Manifest.t) : M unit :=
  missing_scripts <- collect_missing scripts_path (iter_scripts manifest) ;;
  match missing_scripts with
  | [] => ret tt
  | _ => raise (FileNotFoundError ("Script files not found: " +:+ Py.join ", " missing_scripts))
  end.

(** The packages [check_packages_exist] walks over. *)
Definition package_files (manifest : Manifest.t) : list string :=
  (match given (Manifest.package manifest) with Some p => [p] | None => [] end
   ++ flat_map (fun step => match given (Step.package step) with Some p => [p] | None => [] end)
        (Manifest.steps manifest))%list.

(** [check_packages_exist]. *)
Definition check_packages_exist (packages_dir : string) (manifest : Manifest.t) : M unit :=
  for_each (package_files manifest) (fun package =>
    let path := OsPath.join packages_dir package in
    is_file <- Host.isfile path ;;
    if negb is_file then raise (FileNotFoundError ("Package file not found: " +:+ path))
    else ret tt).

(** [has_scripts] and [has_packages] of [prepare_environment]. *)
Definition has_scripts (manifest : Manifest.t) : bool :=
  let of_field f := iter_script_list f in
  let scripts : list string :=
    (flat_map of_field
       [Manifest.pre_scripts manifest; Manifest.post_scripts manifest;
        Manifest.verifiers manifest; Manifest.initial_pre_scripts manifest;
        Manifest.initial_post_scripts manifest]
     ++ match given (Manifest.initial_setup_script manifest) with Some s => [s] | None => [] end
     ++ flat_map (fun step =>
          flat_map of_field [Step.pre_scripts step; Step.post_scripts step; Step.verifiers step])
        (Manifest.steps manifest))%list in
  (0 <? length scripts)%nat.

Definition has_packages (manifest : Manifest.t) : bool :=
  Py.truthy_opt (Manifest.package manifest)
  || existsb (fun step => Py.truthy_opt (Step.package step)) (Manifest.steps manifest).

(** [prepare_environment]. *)
Definition prepare_environment (scenario_path : string) (manifest : Manifest.t)
  : M Environment.t :=
  let tmp_dir := "/tmp" in
  let new_db := abspath (OsPath.join tmp_dir "new_data") in
  let old_db := abspath (OsPath.join tmp_dir "old_data") in
  scripts_dir <-
    (if has_scripts manifest then
       let scripts_dir := abspath (OsPath.join scenario_path "scripts") in
       check_scripts_exist scripts_dir manifest ;;
       ret (Some scripts_dir)
     else ret None) ;;
  packages_dir <-
    (if has_packages manifest then
       let packages_dir := abspath (OsPath.join scenario_path "packages") in
       check_packages_exist packages_dir manifest ;;
       ret (Some packages_dir)
     else ret None) ;;
  let logs_dir := abspath (OsPath.join "logs" ("upgrade_dbms_" +:+ TIMESTAMP)) in
  Host.makedirs logs_dir ;;
  let db_installer := abspath "db_installer.sh" in
  let pgdg_installer := abspath "src/pgdg_installer.sh" in
  ret (Environment.mk tmp_dir new_db old_db logs_dir scripts_dir packages_dir
         db_installer pgdg_installer).

(** The host paths [create_docker_manager] mounts: those that are set and
    exist. *)
Fixpoint existing_paths (paths : list (option string)) : M (list string) :=
  match paths with
  | [] => ret []
  | None :: rest => existing_paths rest
  | Some path :: rest =>
      found <- Host.path_exists path ;;
      others <- existing_paths rest ;;
      ret (if found then path :: others else others)
  end.

(** [with create_docker_manager(env, manifest) as manager: body].  The
    construction of the manager and the start of the container are
    recorded as events; an exception of the body passes through the
    [except] clause of the context manager. *)
Definition with_docker_manager {A} (env : Environment.t) (manifest : Manifest.t)
    (body : M A) : M A :=
  volumes <- existing_paths [Some (Environment.logs_dir env); Environment.scripts_dir env;
                             Environment.packages_dir env;
                             Some (Environment.pgdg_installer env)] ;;
  record_event (EvManagerInit (DockerConfig.image (Manifest.docker manifest))
                  (match given (DockerConfig.container_name (Manifest.docker manifest)) with
                   | Some n => n
                   | None => "pg_orchestrator_upgrade"
                   end) volumes) ;;
  try_except
    (record_event EvStartContainer ;; body)
    (fun e => log ERROR "Failed to start Docker container" ;; raise e).

(** [prepare_container_env]. *)
Definition prepare_container_env (env : Environment.t) (db_type : string) : M unit :=
  for_each [Environment.new_db env; Environment.old_db env] (fun data =>
    found <- Host.path_exists data ;;
    if found then shell_ ["rm"; "-rf"; data] ;; ret tt else ret tt) ;;
  when (String.eqb db_type "ttdb")
    (shell_ ["apt-get"; "update"] ;;
     shell_ ["apt-get"; "install"; "-y"; "wget"] ;;
     shell_ ["wget"; "https://public.tantorlabs.ru/db_installer.sh"; "-O";
             Environment.db_installer env] ;;
     shell_ ["chmod"; "+x"; Environment.db_installer env] ;;
     ret tt) ;;
  match given (Environment.scripts_dir env) with
  | Some d => found <- Host.path_exists d ;;
              if found then shell_ ["chmod"; "-R"; "+x"; d] ;; ret tt else ret tt
  | None => ret tt
  end ;;
  match given (Environment.packages_dir env) with
  | Some d => found <- Host.path_exists d ;;
              if found then shell_ ["chmod"; "-R"; "+r"; d] ;; ret tt else ret tt
  | None => ret tt
  end.

(** [run_upgrade]. *)
Definition run_upgrade (manifest : Manifest.t) (scenario_path : string) : M unit :=
  env <- prepare_environment scenario_path manifest ;;
  with_docker_manager env manifest
    (prepare_container_env env (Manifest.db_type manifest) ;;
     run_migration manifest env).

End Program.

(** * Properties *)

(** ** Strings *)

Section StringFacts.

(** [String.append] does not unfold under [simpl]; its two equations. *)
Lemma append_cons (x : ascii) (a b : string) : String x a +:+ b = String x (a +:+ b).
Proof. reflexivity. Qed.

Lemma append_nil_l (b : string) : EmptyString +:+ b = b.
Proof. reflexivity. Qed.

Lemma append_assoc (a b c : string) : (a +:+ b) +:+ c = a +:+ (b +:+ c).
Proof.
  induction a as [|x a IH]; [reflexivity|].
  rewrite !append_cons. f_equal. exact IH.
Qed.

Lemma append_nil_r (a : string) : a +:+ EmptyString = a.
Proof.
  induction a as [|x a IH]; [reflexivity|].
  rewrite append_cons. f_equal. exact IH.
Qed.

Lemma length_append (a b : string) :
  String.length (a +:+ b) = (String.length a + String.length b)%nat.
Proof.
  induction a as [|x a IH]; [reflexivity|].
  rewrite append_cons. simpl. f_equal. exact IH.
Qed.

(** What follows a maximal run of [p] characters does not start with one. *)
Definition stops (p : ascii -> bool) (r : string) : Prop :=
  match r with
  | EmptyString => True
  | String c _ => p c = false
  end.

Lemma span_run (p : ascii -> bool) (a r : string) :
  Py.all_chars p a = true -> stops p r -> Py.span p (a +:+ r) = (a, r).
Proof.
  intros Ha Hr. induction a as [|x a IH].
  - rewrite append_nil_l. destruct r as [|c r]; simpl in *; [reflexivity | now rewrite Hr].
  - simpl in Ha. apply andb_prop in Ha as [Hx Ha].
    rewrite append_cons. simpl. rewrite Hx, (IH Ha). reflexivity.
Qed.

Lemma contains_append_r (n a b : string) :
  Py.contains n b = true -> Py.contains n (a +:+ b) = true.
Proof.
  intros H. induction a as [|x a IH]; [exact H|].
  rewrite append_cons. simpl. rewrite IH. apply orb_true_r.
Qed.

End StringFacts.

(** ** The version descriptor *)

Section VersionDescriptor.

(** A non-empty run of decimal digits: what [\d+] matches in full. *)
Definition digits (s : string) : Prop :=
  Py.truthy s = true /\ Py.all_chars Py.is_digit s = true.

Lemma match_pgdg_two (X Y : string) :
  digits X -> digits Y -> DbVersion.match_pgdg (X +:+ "." +:+ Y) = Some (X, Y).
Proof.
  intros [HX DX] [HY DY]. unfold DbVersion.match_pgdg.
  rewrite (span_run _ X ("." +:+ Y) DX) by reflexivity.
  rewrite HX. cbn [negb]. rewrite append_cons, append_nil_l.
  rewrite <- (append_nil_r Y) at 1.
  rewrite (span_run _ Y EmptyString DY) by exact I.
  rewrite HY. reflexivity.
Qed.

Lemma match_pgdg_three (X Y Z : string) :
  digits X -> digits Y -> digits Z ->
  DbVersion.match_pgdg (X +:+ "." +:+ Y +:+ "." +:+ Z) = Some (X, Y).
Proof.
  intros [HX DX] [HY DY] [HZ DZ]. unfold DbVersion.match_pgdg.
  rewrite (span_run _ X ("." +:+ Y +:+ "." +:+ Z) DX) by reflexivity.
  rewrite HX. cbn [negb]. rewrite append_cons, append_nil_l.
  rewrite (span_run _ Y ("." +:+ Z) DY) by reflexivity.
  rewrite HY. cbn [negb]. rewrite append_cons, append_nil_l.
  rewrite <- (append_nil_r Z) at 1.
  rewrite (span_run _ Z EmptyString DZ) by exact I.
  rewrite HZ. reflexivity.
Qed.

(** C8.  For a PGDG version string [X.Y] or [X.Y.Z] (each of [X], [Y],
    [Z] a non-empty run of digits) [DbVersion.create] succeeds, whatever
    the edition argument; the stored version is exactly [X.Y] and the
    major is [X]; the rendering is [X.Y-pgdg], with no trace of the patch
    component; and for an input [X.Y.Z] the stored version differs from
    the input. *)
Theorem pgdg_version_is_canonical (X Y Z : string) (e : option string) :
  digits X -> digits Y -> digits Z ->
  let canonical := DbVersion.mk (X +:+ "." +:+ Y) None X "pgdg" in
  DbVersion.create (X +:+ "." +:+ Y) e "pgdg" = Ok canonical /\
  DbVersion.create (X +:+ "." +:+ Y +:+ "." +:+ Z) e "pgdg" = Ok canonical /\
  DbVersion.str canonical = X +:+ "." +:+ Y +:+ "-pgdg" /\
  DbVersion.version canonical <> X +:+ "." +:+ Y +:+ "." +:+ Z.
Proof.
  intros HX HY HZ canonical. repeat split.
  - unfold DbVersion.create. cbn [String.eqb Ascii.eqb Bool.eqb].
    rewrite (match_pgdg_two X Y HX HY). reflexivity.
  - unfold DbVersion.create. cbn [String.eqb Ascii.eqb Bool.eqb].
    rewrite (match_pgdg_three X Y Z HX HY HZ). reflexivity.
  - unfold DbVersion.str, canonical. cbn. now rewrite append_assoc.
  - unfold canonical. cbn [DbVersion.version]. intros E.
    apply (f_equal String.length) in E.
    rewrite !length_append in E. simpl in E. lia.
Qed.

Lemma pgdg_version_is_canonical_witness :
  DbVersion.create "16.6" (Some "se") "pgdg" = Ok (DbVersion.mk "16.6" None "16" "pgdg") /\
  DbVersion.create "16.6.3" (Some "se") "pgdg" = Ok (DbVersion.mk "16.6" None "16" "pgdg") /\
  DbVersion.str (DbVersion.mk "16.6" None "16" "pgdg") = "16.6-pgdg" /\
  "16.6" <> "16.6.3".
Proof.
  apply (pgdg_version_is_canonical "16" "6" "3" (Some "se")); split; reflexivity.
Defined.

(** C9.  With product type pgdg a descriptor that [DbVersion.create]
    returns has no edition, whatever edition was passed, and the edition
    argument plays no part in the outcome: any other edition gives the
    same result. *)
Theorem pgdg_edition_is_discarded (version : string) (e : option string) (v : DbVersion.t) :
  DbVersion.create version e "pgdg" = Ok v ->
  DbVersion.edition v = None /\
  forall e' : option string, DbVersion.create version e' "pgdg" = Ok v.
Proof.
  unfold DbVersion.create. cbn [String.eqb Ascii.eqb Bool.eqb].
  destruct (DbVersion.match_pgdg version) as [[major_part minor_part]|]; [|discriminate].
  intros [= <-]. split; [reflexivity | intros e'; reflexivity].
Qed.

Lemma pgdg_edition_is_discarded_witness :
  DbVersion.edition (DbVersion.mk "16.6" None "16" "pgdg") = None /\
  forall e' : option string,
    DbVersion.create "16.6.0" e' "pgdg" = Ok (DbVersion.mk "16.6" None "16" "pgdg").
Proof.
  apply (pgdg_edition_is_discarded "16.6.0" (Some "se")). reflexivity.
Defined.

End VersionDescriptor.

(** ** The pgdg pattern, declaratively *)

Section PgdgPattern.

Lemma span_spec (p : ascii -> bool) (s a r : string) :
  Py.span p s = (a, r) -> s = a +:+ r /\ Py.all_chars p a = true /\ stops p r.
Proof.
  revert a r. induction s as [|c s IH]; intros a r H.
  - inversion H; subst. repeat split.
  - simpl in H. destruct (p c) eqn:Hc.
    + destruct (Py.span p s) as [a' r'] eqn:Hs. inversion H; subst.
      destruct (IH a' r eq_refl) as (-> & Ha & Hr).
      rewrite append_cons. simpl. rewrite Hc. repeat split; assumption.
    + inversion H; subst. rewrite append_nil_l. repeat split. exact Hc.
Qed.

(** [v] is [X.Y] or [X.Y.Z], with [X], [Y], [Z] non-empty runs of digits,
    possibly followed by one line feed: the strings
    [^(\d+)\.(\d+)(\.\d+)?$] matches, with [X] and [Y] its groups 1 and 2. *)
Definition pgdg_shape (v X Y : string) : Prop :=
  digits X /\ digits Y /\
  exists tail, Py.at_dollar tail = true /\
    (v = X +:+ "." +:+ Y +:+ tail \/
     exists Z, digits Z /\ v = X +:+ "." +:+ Y +:+ "." +:+ Z +:+ tail).

Lemma at_dollar_stops (tail : string) : Py.at_dollar tail = true -> stops Py.is_digit tail.
Proof.
  unfold Py.at_dollar. intros H. apply orb_prop in H as [H|H];
    apply String.eqb_eq in H; subst; reflexivity.
Qed.

Lemma match_pgdg_spec (v X Y : string) :
  DbVersion.match_pgdg v = Some (X, Y) <-> pgdg_shape v X Y.
Proof.
  split.
  - unfold DbVersion.match_pgdg. intros H.
    destruct (Py.span Py.is_digit v) as [g1 r1] eqn:S1.
    apply span_spec in S1 as (-> & D1 & _).
    destruct (Py.truthy g1) eqn:T1; [|discriminate]. cbn [negb] in H.
    destruct r1 as [|c r2]; [discriminate|].
    destruct (Ascii.eqb_spec c "."%char) as [->|Hc].
    2:{ destruct c as [[] [] [] [] [] [] [] []]; try discriminate. now destruct Hc. }
    destruct (Py.span Py.is_digit r2) as [g2 r3] eqn:S2.
    apply span_spec in S2 as (-> & D2 & _).
    destruct (Py.truthy g2) eqn:T2; [|discriminate]. cbn [negb] in H.
    assert (Hshape :
      (exists g3 r5, r3 = String "."%char (g3 +:+ r5) /\ digits g3 /\ Py.at_dollar r5 = true)
      \/ Py.at_dollar r3 = true).
    { destruct r3 as [|c3 r4]; [now right|].
      destruct (Ascii.eqb_spec c3 "."%char) as [->|Hc3].
      - destruct (Py.span Py.is_digit r4) as [g3 r5] eqn:S3.
        apply span_spec in S3 as (-> & D3 & _).
        destruct (Py.truthy g3 && Py.at_dollar r5) eqn:E.
        + apply andb_prop in E as [T3 A5]. left. exists g3, r5. now repeat split.
        + cbn [orb] in H. destruct (Py.at_dollar _) eqn:A; [now right | discriminate].
      - destruct c3 as [[] [] [] [] [] [] [] []]; cbn [orb] in H;
          try (destruct (Py.at_dollar _) eqn:A; [now right | discriminate]).
        now destruct Hc3. }
    assert (E : Some (g1, g2) = Some (X, Y)).
    { destruct (_ || _) in H; [exact H | discriminate]. }
    inversion E; subst. clear H E.
    split; [now split|]. split; [now split|].
    destruct Hshape as [(g3 & r5 & -> & D3 & A5)|A3].
    + exists r5. split; [exact A5|]. right. exists g3. split; [exact D3|].
      rewrite !append_cons, !append_nil_l. reflexivity.
    + exists r3. split; [exact A3|]. left. now rewrite append_cons, append_nil_l.
  - intros ([T1 D1] & [T2 D2] & tail & At & Hv). unfold DbVersion.match_pgdg.
    destruct Hv as [->|(Z & [T3 D3] & ->)].
    + rewrite (span_run _ X _ D1) by reflexivity. rewrite T1. cbn [negb].
      rewrite append_cons, append_nil_l.
      rewrite (span_run _ Y tail D2) by now apply at_dollar_stops.
      rewrite T2, At. cbn [negb]. now rewrite orb_true_r.
    + rewrite (span_run _ X _ D1) by reflexivity. rewrite T1. cbn [negb].
      rewrite append_cons, append_nil_l.
      rewrite (span_run _ Y _ D2) by reflexivity. rewrite T2. cbn [negb].
      rewrite append_cons, append_nil_l.
      rewrite (span_run _ Z tail D3) by now apply at_dollar_stops.
      now rewrite T3, At.
Qed.

(** What [DbVersion.create] accepts for pgdg, and what it stores: always the
    two components. *)
Lemma pgdg_create_spec (v : string) (e : option string) (d : DbVersion.t) :
  DbVersion.create v e "pgdg" = Ok d <->
  exists X Y, pgdg_shape v X Y /\ d = DbVersion.mk (X +:+ "." +:+ Y) None X "pgdg".
Proof.
  unfold DbVersion.create. cbn [String.eqb Ascii.eqb Bool.eqb].
  destruct (DbVersion.match_pgdg v) as [[X Y]|] eqn:Hm.
  - apply match_pgdg_spec in Hm. split.
    + intros [= <-]. eauto.
    + intros (X' & Y' & Hs & ->). apply match_pgdg_spec in Hs.
      apply match_pgdg_spec in Hm. rewrite Hm in Hs. now inversion Hs.
  - split; [discriminate|]. intros (X & Y & Hs & _).
    apply match_pgdg_spec in Hs. rewrite Hm in Hs. discriminate.
Qed.

End PgdgPattern.

(** ** The monad *)

Section MonadFacts.

Context {A B : Type}.

Lemma bind_ok (m : M A) (k : A -> M B) (w w1 : World) (a : A) :
  m w = (Ok a, w1) -> bind m k w = k a w1.
Proof. intros H. unfold bind. now rewrite H. Qed.


Lemma bind_ok_inv (m : M A) (k : A -> M B) (w w2 : World) (b : B) :
  bind m k w = (Ok b, w2) ->
  exists a w1, m w = (Ok a, w1) /\ k a w1 = (Ok b, w2).
Proof.
  unfold bind. destruct (m w) as [[a|e] w1]; intros H; [eauto | discriminate].
Qed.

Lemma bind_inv (m : M A) (k : A -> M B) (w w2 : World) (r : result B) :
  bind m k w = (r, w2) ->
  (exists a w1, m w = (Ok a, w1) /\ k a w1 = (r, w2)) \/
  (exists e, m w = (Raise e, w2) /\ r = Raise e).
Proof.
  unfold bind. destruct (m w) as [[a|e] w1]; intros H; [left; eauto|].
  right. exists e. now inversion H.
Qed.

End MonadFacts.

Lemma try_except_ok_inv {A} (m : M A) (h : exn -> M A) (w w2 : World) (a : A) :
  try_except m h w = (Ok a, w2) ->
  m w = (Ok a, w2) \/ exists e w1, m w = (Raise e, w1) /\ h e w1 = (Ok a, w2).
Proof.
  unfold try_except. destruct (m w) as [[x|e] w1]; intros H; [left; exact H | right; eauto].
Qed.

(** Taking one step of a computation whose first action is known. *)
Ltac step_ok H := rewrite (bind_ok _ _ _ _ _ H).

(** ** Commands in the container *)

(** The message of the error [shell] raises on a non-zero exit code. *)
Definition command_failed (code : Z) (cmd : string) : string :=
  "Command failed with exit code " +:+ Py.str_int code +:+ ": " +:+ cmd.

(** The host files once [shell] has appended the chunks to its log file. *)
Definition write_chunks (logfile : option string) (chunks : list string)
    (fs : gmap string string) : gmap string string :=
  match given logfile with
  | Some f => fold_left (fun m c => <[f := default EmptyString (m !! f) +:+ c]> m) chunks fs
  | None => fs
  end.

(** The world once [shell] has run a command, before it looks at the exit
    code. *)
Definition after_shell (e : Event) (logfile : option string) (chunks : list string)
    (w : World) : World :=
  mkWorld (events w ++ [e]) (write_chunks logfile chunks (files w)) (dirs w) (logged w).

Definition with_logged (l : list (Level * string)) (w : World) : World :=
  mkWorld (events w) (files w) (dirs w) (logged w ++ l).

Section ShellFacts.

Variable respond : list Event -> ExecReq -> list string * Z.

Lemma fold_append (chunks : list string) (a : string) :
  fold_left String.append chunks a = a +:+ fold_left String.append chunks EmptyString.
Proof.
  revert a. induction chunks as [|c chunks IH]; intros a; simpl.
  - now rewrite append_nil_r.
  - rewrite (IH (a +:+ c)), (IH (EmptyString +:+ c)), append_nil_l.
    now rewrite append_assoc.
Qed.

Lemma for_each_write (logfile : option string) (chunks : list string) (w : World) :
  for_each chunks (fun decoded =>
    match logfile with
    | Some f => when (Py.truthy f) (Host.append f decoded)
    | None => ret tt
    end) w
  = (Ok tt, mkWorld (events w) (write_chunks logfile chunks (files w)) (dirs w) (logged w)).
Proof.
  revert w. induction chunks as [|c chunks IH]; intros w.
  - unfold write_chunks. destruct w, (given logfile); reflexivity.
  - simpl for_each. unfold bind at 1.
    destruct logfile as [f|]; [destruct (Py.truthy f) eqn:Hf|].
    + unfold when, Host.append. rewrite IH. unfold write_chunks, given.
      rewrite Hf. reflexivity.
    + unfold when, ret. rewrite IH. unfold write_chunks, given. rewrite Hf.
      now destruct w.
    + unfold ret. rewrite IH. now destruct w.
Qed.

(** What [shell] does, given the container's answer. *)
Lemma shell_eq (command : list string) (env : option Env) (logfile cwd : option string)
    (check_code : bool) (w : World) (chunks : list string) (code : Z) :
  respond (events w) (mkReq (Shlex.join command) env cwd) = (chunks, code) ->
  shell respond command env logfile cwd check_code w =
  let w1 := after_shell (EvShell command env logfile cwd check_code) logfile chunks w in
  if check_code && negb (code =? 0)%Z then
    (Raise (RuntimeError (command_failed code (Shlex.join command))),
     with_logged [(ERROR, command_failed code (Shlex.join command));
                  (ERROR, "An error occurred while executing the command: "
                          +:+ Shlex.join command)] w1)
  else (Ok (mkExecResult code (fold_left String.append chunks EmptyString)), w1).
Proof.
  intros H. unfold shell, try_except, bind at 1, container_exec. rewrite H.
  unfold bind at 1. rewrite for_each_write. cbn [events files dirs logged].
  destruct (check_code && negb (code =? 0)%Z); [|reflexivity].
  unfold bind, log, raise, with_logged, after_shell, command_failed.
  cbn [events files dirs logged]. now rewrite <- app_assoc.
Qed.

(** [shell] always records exactly one call. *)
Lemma shell_events (command : list string) (env : option Env) (logfile cwd : option string)
    (check_code : bool) (w : World) :
  events (snd (shell respond command env logfile cwd check_code w))
  = events w ++ [EvShell command env logfile cwd check_code].
Proof.
  destruct (respond (events w) (mkReq (Shlex.join command) env cwd)) as [chunks code] eqn:H.
  rewrite (shell_eq _ _ _ _ _ _ _ _ H). cbv zeta.
  destruct (check_code && negb (code =? 0)%Z); reflexivity.
Qed.

(** With the check off [shell] returns the exit code, whatever it is. *)
Lemma shell_unchecked (command : list string) (env : option Env) (logfile cwd : option string)
    (w : World) (chunks : list string) (code : Z) :
  respond (events w) (mkReq (Shlex.join command) env cwd) = (chunks, code) ->
  shell respond command env logfile cwd false w =
  (Ok (mkExecResult code (fold_left String.append chunks EmptyString)),
   after_shell (EvShell command env logfile cwd false) logfile chunks w).
Proof. intros H. now rewrite (shell_eq _ _ _ _ _ _ _ _ H). Qed.

End ShellFacts.

(** ** The lines of a log and the error marker *)

Section Lines.

(** [c] does not occur in [m]. *)
Definition lacks (c : ascii) (m : string) : Prop :=
  Py.all_chars (fun x => negb (Ascii.eqb x c)) m = true.

Lemma prefix_nil (s : string) : String.prefix EmptyString s = true.
Proof. now destruct s. Qed.

Lemma prefix_append_l (m a b : string) :
  String.prefix m a = true -> String.prefix m (a +:+ b) = true.
Proof.
  revert a. induction m as [|y m IH]; intros a H; [apply prefix_nil|].
  destruct a as [|x a]; [discriminate|].
  rewrite append_cons. simpl in *.
  destruct (ascii_dec y x); [now apply IH | discriminate].
Qed.

Lemma contains_append_l (m a b : string) :
  Py.contains m a = true -> Py.contains m (a +:+ b) = true.
Proof.
  induction a as [|x a IH]; intros H.
  - simpl in H. rewrite orb_false_r in H.
    destruct m; [|discriminate]. now destruct b.
  - rewrite append_cons. cbn [Py.contains] in *.
    apply orb_prop in H as [H|H].
    + rewrite <- append_cons, (prefix_append_l _ _ _ H). reflexivity.
    + rewrite (IH H). apply orb_true_r.
Qed.

Lemma contains_nil (m : string) : Py.contains m EmptyString = true -> m = EmptyString.
Proof. destruct m; [reflexivity | discriminate]. Qed.

Lemma prefix_before (c : ascii) (m a b : string) :
  lacks c m -> String.prefix m (a +:+ String c b) = true -> String.prefix m a = true.
Proof.
  unfold lacks. revert a. induction m as [|y m IH]; intros a Hm H; [now destruct a|].
  simpl in Hm. apply andb_prop in Hm as [Hy Hm].
  destruct a as [|x a].
  - rewrite append_nil_l in H. simpl in H.
    destruct (ascii_dec y c) as [->|]; [|discriminate].
    now rewrite Ascii.eqb_refl in Hy.
  - rewrite append_cons in H. simpl in *.
    destruct (ascii_dec y x); [now apply IH | discriminate].
Qed.

(** An occurrence of [m] cannot run across a character that [m] lacks. *)
Lemma contains_split (c : ascii) (m a b : string) :
  lacks c m -> Py.contains m (a +:+ String c b) = true ->
  Py.contains m a = true \/ Py.contains m b = true.
Proof.
  intros Hm. induction a as [|x a IH]; intros H.
  - rewrite append_nil_l in H. cbn [Py.contains] in H.
    apply orb_prop in H as [H|H]; [|now right].
    left. apply (prefix_before c m EmptyString b Hm) in H.
    destruct m; [reflexivity | discriminate].
  - rewrite append_cons in H. cbn [Py.contains] in H.
    apply orb_prop in H as [H|H].
    + left. rewrite <- append_cons in H. apply (prefix_before c _ _ _ Hm) in H.
      cbn [Py.contains]. now rewrite H.
    + destruct (IH H) as [Ha|Hb]; [left | now right].
      cbn [Py.contains]. rewrite Ha. apply orb_true_r.
Qed.

Variable m : string.
Hypothesis m_truthy : Py.truthy m = true.
Hypothesis m_no_LF : lacks Py.LF m.
Hypothesis m_no_CR : lacks Py.CR m.

Lemma m_not_in_nil : Py.contains m EmptyString = false.
Proof.
  destruct (Py.contains m EmptyString) eqn:H; [|reflexivity].
  apply contains_nil in H. subst m. discriminate.
Qed.

Lemma snoc_append (cur : string) (c : ascii) (s : string) :
  (cur +:+ String c EmptyString) +:+ s = cur +:+ String c s.
Proof. now rewrite append_assoc, append_cons, append_nil_l. Qed.

(** A text that holds the marker has a line that holds it.  The scan
    skips two characters at a carriage return followed by a line feed,
    hence the induction on a bound of the length. *)
Lemma marker_in_some_line_bounded (n : nat) (s cur : string) :
  (String.length s <= n)%nat ->
  Py.contains m (cur +:+ s) = true ->
  existsb (Py.contains m) (Host.lines_from cur s) = true.
Proof.
  revert s cur. induction n as [|n IH]; intros s cur Hn H.
  - destruct s; [|simpl in Hn; lia].
    rewrite append_nil_r in H. simpl.
    destruct (String.eqb_spec cur EmptyString) as [->|_].
    + now rewrite m_not_in_nil in H.
    + simpl. now rewrite H.
  - destruct s as [|c s].
    { rewrite append_nil_r in H. simpl.
      destruct (String.eqb_spec cur EmptyString) as [->|_].
      - now rewrite m_not_in_nil in H.
      - simpl. now rewrite H. }
    simpl in Hn. cbn [Host.lines_from].
    destruct (Ascii.eqb_spec c Py.LF) as [->|nLF].
    + cbn [existsb]. apply (contains_split _ _ _ _ m_no_LF) in H as [H|H].
      * now rewrite (contains_append_l _ _ _ H).
      * rewrite (IH s EmptyString); [apply orb_true_r | lia | exact H].
    + destruct (Ascii.eqb_spec c Py.CR) as [->|nCR].
      * cbn [existsb]. apply (contains_split _ _ _ _ m_no_CR) in H as [H|H].
        { now rewrite (contains_append_l _ _ _ H). }
        destruct s as [|c' s]; [now rewrite m_not_in_nil in H|].
        simpl in Hn.
        destruct (Ascii.eqb_spec c' Py.LF) as [->|_].
        -- apply (contains_split _ m EmptyString s m_no_LF) in H as [H|H].
           ++ now rewrite m_not_in_nil in H.
           ++ rewrite (IH s EmptyString); [apply orb_true_r | lia | exact H].
        -- rewrite (IH (String c' s) EmptyString); [apply orb_true_r | simpl; lia | exact H].
      * apply IH; [lia|]. now rewrite snoc_append.
Qed.

Lemma marker_in_some_line (s cur : string) :
  Py.contains m (cur +:+ s) = true ->
  existsb (Py.contains m) (Host.lines_from cur s) = true.
Proof. apply (marker_in_some_line_bounded (String.length s)). lia. Qed.

(** A line that holds the marker comes from a text that holds it. *)
Lemma marker_line_in_text_bounded (n : nat) (s cur : string) :
  (String.length s <= n)%nat ->
  existsb (Py.contains m) (Host.lines_from cur s) = true ->
  Py.contains m (cur +:+ s) = true.
Proof.
  assert (Hline : forall a b, Py.contains m (a +:+ String Py.LF EmptyString) = true ->
                              Py.contains m (a +:+ b) = true).
  { intros a b H. apply (contains_split _ _ _ _ m_no_LF) in H as [H|H].
    - now apply contains_append_l.
    - now rewrite m_not_in_nil in H. }
  assert (Hnil : forall a,
             existsb (Py.contains m) (Host.lines_from a EmptyString) = true ->
             Py.contains m (a +:+ EmptyString) = true).
  { intros a H. rewrite append_nil_r. simpl in H.
    destruct (String.eqb a EmptyString); [discriminate|].
    simpl in H. now rewrite orb_false_r in H. }
  assert (Htail : forall (c : ascii) (a b : string),
             Py.contains m b = true -> Py.contains m (a +:+ String c b) = true).
  { intros c a b H. apply contains_append_r. cbn [Py.contains].
    rewrite H. apply orb_true_r. }
  revert s cur. induction n as [|n IH]; intros s cur Hn H.
  - destruct s; [now apply Hnil | simpl in Hn; lia].
  - destruct s as [|c s]; [now apply Hnil|].
    simpl in Hn. cbn [Host.lines_from] in H.
    destruct (Ascii.eqb_spec c Py.LF) as [->|nLF].
    + cbn [existsb] in H. apply orb_prop in H as [H|H]; [now apply Hline|].
      apply IH in H; [|lia]. rewrite append_nil_l in H. now apply Htail.
    + destruct (Ascii.eqb_spec c Py.CR) as [->|nCR].
      * cbn [existsb] in H. apply orb_prop in H as [H|H]; [now apply Hline|].
        apply Htail.
        destruct s as [|c' s]; [discriminate|]. simpl in Hn.
        destruct (Ascii.eqb_spec c' Py.LF) as [->|_].
        -- apply IH in H; [|lia]. rewrite append_nil_l in H.
           cbn [Py.contains]. rewrite H. apply orb_true_r.
        -- apply IH in H; [|simpl; lia]. now rewrite append_nil_l in H.
      * apply IH in H; [|lia]. now rewrite snoc_append in H.
Qed.

Lemma marker_line_in_text (s cur : string) :
  existsb (Py.contains m) (Host.lines_from cur s) = true ->
  Py.contains m (cur +:+ s) = true.
Proof. apply (marker_line_in_text_bounded (String.length s)). lia. Qed.

Lemma existsb_find {X} (f : X -> bool) (l : list X) :
  existsb f l = true <-> exists x, find f l = Some x.
Proof.
  induction l as [|y l IH]; simpl.
  - split; [discriminate | intros [x Hx]; discriminate].
  - destruct (f y); simpl; [split; eauto | exact IH].
Qed.

(** Looking for the marker line by line is looking for it in the text. *)
Lemma line_scan (text : string) :
  (exists line, find (Py.contains m) (Host.lines text) = Some line)
  <-> Py.contains m text = true.
Proof.
  rewrite <- existsb_find. unfold Host.lines. split; intros H.
  - apply marker_line_in_text in H. now rewrite append_nil_l in H.
  - apply marker_in_some_line. now rewrite append_nil_l.
Qed.

End Lines.

Lemma error_scan (text : string) :
  (exists line, first_error_line text = Some line) <-> Py.contains "ERROR:" text = true.
Proof. apply line_scan; reflexivity. Qed.

Lemma error_scan_none (text : string) :
  first_error_line text = None <-> Py.contains "ERROR:" text = false.
Proof.
  pose proof (error_scan text) as H.
  destruct (first_error_line text) as [line|], (Py.contains "ERROR:" text); split; intros E;
    try reflexivity; try discriminate.
  - destruct H as [H _]. specialize (H (ex_intro _ line eq_refl)). discriminate.
  - destruct H as [_ H]. destruct (H eq_refl). discriminate.
Qed.

(** ** Database binaries and their logs *)

(** The log file, the command line, the recorded call and the container
    request of [run_pg_binary] for a database whose binaries are in [b]. *)
Definition pg_logfile (db : Database.t) (binary : string) : string :=
  OsPath.join (Database.logs_dir db) (binary +:+ "_" +:+ Database.version_str db +:+ ".log").

Definition pg_argv (b binary : string) (args : list string) : list string :=
  ["su"; "-"; "postgres"; "-c"; Shlex.join (OsPath.join b binary :: args)].

Definition pg_event (db : Database.t) (b binary : string) (args : list string) : Event :=
  EvShell (pg_argv b binary args) None (Some (pg_logfile db binary))
    (Some (Database.data_path db)) true.

Definition pg_request (db : Database.t) (b binary : string) (args : list string) : ExecReq :=
  mkReq (Shlex.join (pg_argv b binary args)) None (Some (Database.data_path db)).

(** The message of the error the log scan of [run_sql_script] raises. *)
Definition error_found (script_path logfile : string) : string :=
  "Error found during execution of " +:+ script_path +:+ ". See " +:+ logfile +:+ " for details.".

Section LogFiles.

Lemma truthy_append (a b : string) : Py.truthy (a +:+ b) = Py.truthy a || Py.truthy b.
Proof. destruct a; [now rewrite append_nil_l | reflexivity]. Qed.

Lemma truthy_join (a b : string) : Py.truthy b = true -> Py.truthy (OsPath.join a b) = true.
Proof.
  intros H. unfold OsPath.join.
  destruct (OsPath.is_abs b); [exact H|].
  destruct (String.eqb a EmptyString || Py.endswith a "/");
    rewrite !truthy_append, H; now rewrite ?orb_true_r.
Qed.

Lemma pg_logfile_truthy (db : Database.t) (binary : string) :
  Py.truthy (pg_logfile db binary) = true.
Proof.
  apply truthy_join. rewrite truthy_append.
  rewrite (truthy_append "_"). cbn. apply orb_true_r.
Qed.

Lemma given_truthy (f : string) : Py.truthy f = true -> given (Some f) = Some f.
Proof. intros H. unfold given. now rewrite H. Qed.

(** The log file after the chunks of one command are appended: untouched
    when there is no chunk, else its former text (the empty text when the
    file did not exist) followed by the output. *)
Lemma write_chunks_lookup (f : string) (chunks : list string) (fs : gmap string string) :
  Py.truthy f = true ->
  write_chunks (Some f) chunks fs !! f =
  match chunks with
  | [] => fs !! f
  | _ => Some (default EmptyString (fs !! f) +:+ fold_left String.append chunks EmptyString)
  end.
Proof.
  intros Hf. unfold write_chunks. rewrite (given_truthy f Hf).
  revert fs. induction chunks as [|c chunks IH]; intros fs; [reflexivity|].
  cbn [fold_left]. rewrite IH. rewrite lookup_insert_eq. cbn [default].
  destruct chunks as [|c' chunks].
  - cbn [fold_left]. now rewrite append_nil_l.
  - f_equal. unfold id. rewrite (fold_append (c' :: chunks) (EmptyString +:+ c)).
    now rewrite append_nil_l, append_assoc.
Qed.

(** Appending keeps what the file held. *)
Lemma write_chunks_keeps (f : string) (chunks : list string) (fs : gmap string string)
    (old : string) :
  Py.truthy f = true -> fs !! f = Some old ->
  write_chunks (Some f) chunks fs !! f
  = Some (old +:+ fold_left String.append chunks EmptyString).
Proof.
  intros Hf Hold. rewrite (write_chunks_lookup f chunks fs Hf), Hold.
  destruct chunks; [|reflexivity]. cbn. now rewrite append_nil_r.
Qed.

Lemma chunks_nonempty (chunks : list string) :
  Py.truthy (fold_left String.append chunks EmptyString) = true -> chunks <> [].
Proof. intros H ->. discriminate. Qed.

End LogFiles.

Section BinaryRunner.

Variable respond : list Event -> ExecReq -> list string * Z.

(** The records a failed binary leaves with the logger. *)
Definition binary_failure_records (db : Database.t) (b binary : string) (args : list string)
    (code : Z) : list (Level * string) :=
  [(ERROR, command_failed code (Shlex.join (pg_argv b binary args)));
   (ERROR, "An error occurred while executing the command: "
           +:+ Shlex.join (pg_argv b binary args));
   (WARNING, "Failed to execute " +:+ binary +:+ ". See errors in logfile: "
             +:+ pg_logfile db binary)].

(** [run_pg_binary] for a binary other than [pg_upgrade]: one call, its
    output appended to the log of the binary; a result on exit code zero
    and the error of [shell] otherwise. *)
Lemma run_pg_binary_eq (db : Database.t) (b binary : string) (args : list string)
    (w : World) (chunks : list string) (code : Z) :
  Database.bin_path db = Some b ->
  String.eqb binary "pg_upgrade" = false ->
  respond (events w) (pg_request db b binary args) = (chunks, code) ->
  run_pg_binary respond db binary args w =
  let w1 := after_shell (pg_event db b binary args) (Some (pg_logfile db binary)) chunks w in
  if (code =? 0)%Z then (Ok (fold_left String.append chunks EmptyString), w1)
  else (Raise (RuntimeError (command_failed code (Shlex.join (pg_argv b binary args)))),
        with_logged (binary_failure_records db b binary args code) w1).
Proof.
  intros Hb Hbin H. unfold run_pg_binary, get_pg_binary, require_str.
  rewrite Hb. unfold bind at 1. unfold bind at 1. unfold ret at 1. unfold ret at 1.
  unfold try_except at 1. unfold bind at 1.
  unfold pg_request, pg_argv in H.
  rewrite (shell_eq respond _ _ _ _ _ _ _ _ H). cbv zeta. cbn [andb].
  destruct (code =? 0)%Z; cbn [negb]; [reflexivity|].
  rewrite Hbin. unfold bind, log, when, ret, raise, with_logged, binary_failure_records.
  cbn [events files dirs logged]. unfold pg_event, pg_argv, pg_logfile, get_log_file.
  now rewrite <- app_assoc.
Qed.

(** Without a binaries path nothing is run. *)
Lemma run_pg_binary_no_bin (db : Database.t) (binary : string) (args : list string)
    (w : World) :
  Database.bin_path db = None ->
  run_pg_binary respond db binary args w
  = (Raise (TypeError "expected str, bytes or os.PathLike object, not NoneType"), w).
Proof.
  intros Hb. unfold run_pg_binary, get_pg_binary, require_str. now rewrite Hb.
Qed.

(** [run_sql_script], by cases on the exit code of the client and on the
    log file as the client left it. *)
Lemma run_sql_script_eq (db : Database.t) (b script_path : string) (w : World)
    (chunks : list string) (code : Z) :
  Database.bin_path db = Some b ->
  respond (events w) (pg_request db b "psql" ["-f"; script_path]) = (chunks, code) ->
  let lf := pg_logfile db "psql" in
  let w1 := after_shell (pg_event db b "psql" ["-f"; script_path]) (Some lf) chunks w in
  run_sql_script respond db script_path w =
  if (code =? 0)%Z then
    match files w1 !! lf with
    | Some text =>
        match first_error_line text with
        | Some line =>
            (Raise (RuntimeError (error_found script_path lf)),
             with_logged [(ERROR, "Error found in SQL script execution log: "
                                  +:+ Py.strip line)] w1)
        | None => (Ok tt, w1)
        end
    | None =>
        if bool_decide (lf ∈ dirs w) then (Raise (IsADirectoryError lf), w1)
        else (Ok tt, with_logged [(WARNING, "Logfile " +:+ lf +:+ " not found for analysis")] w1)
    end
  else (Raise (RuntimeError (command_failed code
                               (Shlex.join (pg_argv b "psql" ["-f"; script_path])))),
        with_logged (binary_failure_records db b "psql" ["-f"; script_path] code) w1).
Proof.
  intros Hb H lf w1. unfold run_sql_script. unfold bind at 1.
  rewrite (run_pg_binary_eq db b "psql" _ w chunks code Hb eq_refl H). cbv zeta.
  fold lf. fold w1.
  destruct (code =? 0)%Z; [|reflexivity].
  change (get_log_file db ("psql" +:+ "_" +:+ Database.version_str db +:+ ".log")) with lf.
  unfold bind at 1. unfold Host.path_exists at 1, Host.present.
  destruct (files w1 !! lf) as [text|] eqn:Hlf.
  - rewrite bool_decide_true by eauto. cbn [orb].
    unfold bind at 1, Host.read. rewrite Hlf.
    destruct (first_error_line text) as [line|]; [|reflexivity].
    unfold bind, log, raise, with_logged, error_found. reflexivity.
  - rewrite bool_decide_false by (intros [x Hx]; discriminate). cbn [orb].
    change (dirs w1) with (dirs w).
    destruct (bool_decide (lf ∈ dirs w)).
    + unfold bind, Host.read. now rewrite Hlf.
    + reflexivity.
Qed.

End BinaryRunner.

(** ** The SQL-script runner *)

(** A database as the tests of the repository build it, a world in which
    nothing has happened yet, and three containers: one in which every
    command succeeds silently, one whose SQL client prints an error line and
    exits with code 0, one whose SQL client prints the same line and exits
    with code 1. *)
Module Fixture.

Definition version_16 : DbVersion.t := DbVersion.mk "16.6.0" (Some "se") "16" "ttdb".

Definition db_16 : Database.t :=
  Database.mk (Some version_16) (Some "/opt/tantor/db/16/bin") "/tmp/new_data" "/tmp/logs".

Definition w0 : World := mkWorld [] ∅ ∅ [].

Definition error_line : string :=
  "psql:update_extensions.sql:6: ERROR:  some error happened" +:+ String Py.LF EmptyString.

Definition quiet : list Event -> ExecReq -> list string * Z :=
  fun _ _ => ([], 0%Z).

Definition psql_prints_error (code : Z) : list Event -> ExecReq -> list string * Z :=
  fun _ req => if Py.contains "/psql " (cmd req) then ([error_line], code) else ([], 0%Z).

End Fixture.

Section SqlScripts.

Variable respond : list Event -> ExecReq -> list string * Z.

(** C5, amended.  [run_sql_script] runs the client once and appends what it
    prints to the log of the client.  When the client exits with a non-zero
    code the error of the command is raised and the log is not looked at.
    When it exits with code 0 the log is scanned: a text that holds the
    marker gives the error of the scan; a text without it gives success; a
    log that does not exist gives success and one warning. *)
Theorem sql_log_is_scanned_after_a_zero_exit (db : Database.t) (b script_path : string)
    (w : World) (chunks : list string) (code : Z) :
  Database.bin_path db = Some b ->
  respond (events w) (pg_request db b "psql" ["-f"; script_path]) = (chunks, code) ->
  let lf := pg_logfile db "psql" in
  let w1 := after_shell (pg_event db b "psql" ["-f"; script_path]) (Some lf) chunks w in
  let r := run_sql_script respond db script_path w in
  files w1 !! lf =
    match chunks with
    | [] => files w !! lf
    | _ => Some (default EmptyString (files w !! lf)
                 +:+ fold_left String.append chunks EmptyString)
    end /\
  (code <> 0%Z ->
   r = (Raise (RuntimeError (command_failed code
                               (Shlex.join (pg_argv b "psql" ["-f"; script_path])))),
        with_logged (binary_failure_records db b "psql" ["-f"; script_path] code) w1)) /\
  (code = 0%Z -> forall text, files w1 !! lf = Some text ->
   Py.contains "ERROR:" text = true ->
   fst r = Raise (RuntimeError (error_found script_path lf))) /\
  (code = 0%Z -> forall text, files w1 !! lf = Some text ->
   Py.contains "ERROR:" text = false -> r = (Ok tt, w1)) /\
  (code = 0%Z -> files w1 !! lf = None -> lf ∉ dirs w ->
   r = (Ok tt, with_logged [(WARNING, "Logfile " +:+ lf +:+ " not found for analysis")] w1)).
Proof.
  intros Hb H lf w1 r. subst r.
  rewrite (run_sql_script_eq respond db b script_path w chunks code Hb H).
  cbv zeta. fold lf. fold w1. split; [|split; [|split; [|split]]].
  - apply write_chunks_lookup, pg_logfile_truthy.
  - intros Hc. apply Z.eqb_neq in Hc. now rewrite Hc.
  - intros -> text Ht Hm. cbn [Z.eqb]. rewrite Ht.
    apply error_scan in Hm as [line Hl]. now rewrite Hl.
  - intros -> text Ht Hm. cbn [Z.eqb]. rewrite Ht.
    apply error_scan_none in Hm. now rewrite Hm.
  - intros -> Hn Hd. cbn [Z.eqb]. rewrite Hn. now rewrite bool_decide_false.
Qed.

End SqlScripts.

Lemma sql_log_is_scanned_after_a_zero_exit_witness :
  fst (run_sql_script (Fixture.psql_prints_error 0) Fixture.db_16 "/fake/script.sql" Fixture.w0)
  = Raise (RuntimeError (error_found "/fake/script.sql" "/tmp/logs/psql_16.6.0-se.log")).
Proof.
  destruct (sql_log_is_scanned_after_a_zero_exit (Fixture.psql_prints_error 0) Fixture.db_16
              "/opt/tantor/db/16/bin" "/fake/script.sql" Fixture.w0 [Fixture.error_line] 0
              eq_refl eq_refl) as (_ & _ & H & _).
  apply (H eq_refl Fixture.error_line); vm_compute; reflexivity.
Defined.

(** C5 as stated fails when the client exits with a non-zero code: the log
    then holds the marker, yet the error raised is the error of the command,
    not that of the scan, and the scan has logged nothing. *)
Lemma sql_log_scan_skipped_on_failure :
  let r := run_sql_script (Fixture.psql_prints_error 1) Fixture.db_16 "/fake/script.sql"
             Fixture.w0 in
  files (snd r) !! "/tmp/logs/psql_16.6.0-se.log" = Some Fixture.error_line /\
  Py.contains "ERROR:" Fixture.error_line = true /\
  fst r = Raise (RuntimeError
                   "Command failed with exit code 1: su - postgres -c '/opt/tantor/db/16/bin/psql -f /fake/script.sql'") /\
  fst r <> Raise (RuntimeError (error_found "/fake/script.sql" "/tmp/logs/psql_16.6.0-se.log")) /\
  Forall (fun record => Py.contains "Error found in SQL script execution log" (snd record) = false)
    (logged (snd r)).
Proof.
  vm_compute. repeat split; try reflexivity; try discriminate.
  repeat constructor.
Qed.

Section SharedLog.

Variable respond : list Event -> ExecReq -> list string * Z.

(** A log that already holds the marker makes the runner fail, whatever the
    client does this time, and the marker stays in the log. *)
Lemma stale_marker_fails (db : Database.t) (script_path : string) (w : World) (old : string) :
  files w !! pg_logfile db "psql" = Some old ->
  Py.contains "ERROR:" old = true ->
  exists (e : exn) (w' : World) (text : string),
    run_sql_script respond db script_path w = (Raise e, w') /\
    files w' !! pg_logfile db "psql" = Some text /\
    Py.contains "ERROR:" text = true.
Proof.
  intros Hold Hm.
  destruct (Database.bin_path db) as [b|] eqn:Hb.
  - destruct (respond (events w) (pg_request db b "psql" ["-f"; script_path]))
      as [chunks code] eqn:H.
    rewrite (run_sql_script_eq respond db b script_path w chunks code Hb H). cbv zeta.
    set (lf := pg_logfile db "psql") in *.
    set (w1 := after_shell _ _ _ _).
    assert (Hw1 : files w1 !! lf
                  = Some (old +:+ fold_left String.append chunks EmptyString)).
    { apply write_chunks_keeps; [apply pg_logfile_truthy | exact Hold]. }
    assert (Hm1 : Py.contains "ERROR:" (old +:+ fold_left String.append chunks EmptyString)
                  = true) by now apply contains_append_l.
    destruct (code =? 0)%Z.
    + rewrite Hw1. apply error_scan in Hm1 as Hline. destruct Hline as [line Hl].
      rewrite Hl. do 3 eexists. split; [reflexivity|]. split; [exact Hw1 | exact Hm1].
    + do 3 eexists. split; [reflexivity|]. split; [exact Hw1 | exact Hm1].
  - unfold run_sql_script. unfold bind at 1.
    rewrite (run_pg_binary_no_bin respond db "psql" _ w Hb).
    do 3 eexists. split; [reflexivity|]. split; [exact Hold | exact Hm].
Qed.

(** An invocation whose client prints the marker leaves it in the log. *)
Lemma marker_is_written (db : Database.t) (b script_path : string) (w : World)
    (chunks : list string) (code : Z) :
  Database.bin_path db = Some b ->
  respond (events w) (pg_request db b "psql" ["-f"; script_path]) = (chunks, code) ->
  Py.contains "ERROR:" (fold_left String.append chunks EmptyString) = true ->
  exists text,
    files (snd (run_sql_script respond db script_path w)) !! pg_logfile db "psql" = Some text /\
    Py.contains "ERROR:" text = true.
Proof.
  intros Hb H Hm.
  assert (Hne : chunks <> []).
  { apply chunks_nonempty. destruct (fold_left String.append chunks EmptyString);
      [discriminate | reflexivity]. }
  rewrite (run_sql_script_eq respond db b script_path w chunks code Hb H). cbv zeta.
  set (lf := pg_logfile db "psql") in *.
  set (w1 := after_shell _ _ _ _).
  assert (Hw1 : files w1 !! lf
                = Some (default EmptyString (files w !! lf)
                        +:+ fold_left String.append chunks EmptyString)).
  { unfold w1. cbn [files after_shell].
    rewrite write_chunks_lookup by apply pg_logfile_truthy.
    destruct chunks; [now destruct Hne | reflexivity]. }
  assert (Hm1 : Py.contains "ERROR:"
                  (default EmptyString (files w !! lf)
                   +:+ fold_left String.append chunks EmptyString) = true)
    by now apply contains_append_r.
  destruct (code =? 0)%Z.
  - rewrite Hw1. apply error_scan in Hm1 as Hline. destruct Hline as [line Hl].
    rewrite Hl. eexists. split; [exact Hw1 | exact Hm1].
  - eexists. split; [exact Hw1 | exact Hm1].
Qed.

(** An invocation whose client exits with code 0, on a log that exists:
    the scan decides, and it reads the whole log, old text and new output
    alike. *)
Lemma scan_decides (db : Database.t) (b script_path : string) (w : World)
    (chunks : list string) (old : string) :
  Database.bin_path db = Some b ->
  respond (events w) (pg_request db b "psql" ["-f"; script_path]) = (chunks, 0%Z) ->
  files w !! pg_logfile db "psql" = Some old ->
  fst (run_sql_script respond db script_path w)
  = if Py.contains "ERROR:" (old +:+ fold_left String.append chunks EmptyString)
    then Raise (RuntimeError (error_found script_path (pg_logfile db "psql")))
    else Ok tt.
Proof.
  intros Hb H Hold.
  rewrite (run_sql_script_eq respond db b script_path w chunks 0 Hb H). cbv zeta.
  cbn [Z.eqb].
  set (lf := pg_logfile db "psql") in *.
  set (w1 := after_shell _ _ _ _).
  assert (Hw1 : files w1 !! lf
                = Some (old +:+ fold_left String.append chunks EmptyString)).
  { apply write_chunks_keeps; [apply pg_logfile_truthy | exact Hold]. }
  rewrite Hw1.
  destruct (first_error_line (old +:+ fold_left String.append chunks EmptyString))
    as [line|] eqn:Hl.
  - assert (Hc : Py.contains "ERROR:" (old +:+ fold_left String.append chunks EmptyString)
                 = true) by (apply error_scan; eauto).
    now rewrite Hc.
  - apply error_scan_none in Hl. now rewrite Hl.
Qed.

(** C10.  The log of the SQL client is named from the log directory of the
    database and the rendering of its version only, and output is appended
    to it.  So when one invocation has printed a line with the marker, any
    later invocation for a database with the same log directory and version
    fails, whatever script it runs and whatever its own client prints, as
    long as the log is still as the first invocation left it: with the error
    of the scan when its own client exits with code 0, and with the error
    of the command otherwise.  The marker is what makes it fail: on a log
    that holds no marker once the output is appended, the same invocation
    with exit code 0 returns. *)
Theorem marker_fails_every_later_script (db1 db2 : Database.t) (b1 b2 s1 s2 : string)
    (w w2 : World) (chunks chunks2 : list string) (code code2 : Z) :
  Database.logs_dir db1 = Database.logs_dir db2 ->
  Database.version db1 = Database.version db2 ->
  Database.bin_path db1 = Some b1 ->
  Database.bin_path db2 = Some b2 ->
  respond (events w) (pg_request db1 b1 "psql" ["-f"; s1]) = (chunks, code) ->
  Py.contains "ERROR:" (fold_left String.append chunks EmptyString) = true ->
  files w2 !! pg_logfile db1 "psql"
  = files (snd (run_sql_script respond db1 s1 w)) !! pg_logfile db1 "psql" ->
  respond (events w2) (pg_request db2 b2 "psql" ["-f"; s2]) = (chunks2, code2) ->
  pg_logfile db2 "psql" = pg_logfile db1 "psql" /\
  fst (run_sql_script respond db2 s2 w2)
  = Raise (RuntimeError
             (if (code2 =? 0)%Z then error_found s2 (pg_logfile db2 "psql")
              else command_failed code2 (Shlex.join (pg_argv b2 "psql" ["-f"; s2])))) /\
  (forall (w' : World) (text' : string) (chunks' : list string),
      files w' !! pg_logfile db2 "psql" = Some text' ->
      respond (events w') (pg_request db2 b2 "psql" ["-f"; s2]) = (chunks', 0%Z) ->
      Py.contains "ERROR:" (text' +:+ fold_left String.append chunks' EmptyString) = false ->
      fst (run_sql_script respond db2 s2 w') = Ok tt).
Proof.
  intros Hdir Hver Hb1 Hb2 H Hm Hsame H2.
  assert (Hlf : pg_logfile db2 "psql" = pg_logfile db1 "psql").
  { unfold pg_logfile, Database.version_str. now rewrite Hdir, Hver. }
  split; [exact Hlf|]. split.
  - destruct (marker_is_written db1 b1 s1 w chunks code Hb1 H Hm) as (text & Ht & Hmt).
    rewrite <- Hsame, <- Hlf in Ht.
    destruct (code2 =? 0)%Z eqn:Hc.
    + apply Z.eqb_eq in Hc. subst code2.
      rewrite (scan_decides db2 b2 s2 w2 chunks2 text Hb2 H2 Ht).
      now rewrite (contains_append_l "ERROR:" text _ Hmt).
    + rewrite (run_sql_script_eq respond db2 b2 s2 w2 chunks2 code2 Hb2 H2). cbv zeta.
      now rewrite Hc.
  - intros w' text' chunks' Ht' H' Hclean.
    rewrite (scan_decides db2 b2 s2 w' chunks' text' Hb2 H' Ht'). now rewrite Hclean.
Qed.

End SharedLog.

(** A container whose client prints an error line for the script
    [first.sql], exits with code 0 each time, and prints nothing for any
    other script. *)
Definition first_script_prints_error : list Event -> ExecReq -> list string * Z :=
  fun _ req => if Py.contains "first.sql" (cmd req) then ([Fixture.error_line], 0%Z)
               else ([], 0%Z).

(** Two scripts in a row against the database of the fixture.  The second
    prints nothing: it returns when it is run first, and fails with the error
    of the scan when it is run after the script that left the marker. *)
Lemma marker_fails_every_later_script_witness :
  fst (run_sql_script first_script_prints_error Fixture.db_16 "/fake/second.sql" Fixture.w0)
  = Ok tt /\
  fst (run_sql_script first_script_prints_error Fixture.db_16 "/fake/second.sql"
         (snd (run_sql_script first_script_prints_error Fixture.db_16 "/fake/first.sql"
                 Fixture.w0)))
  = Raise (RuntimeError (error_found "/fake/second.sql" (pg_logfile Fixture.db_16 "psql"))).
Proof.
  split; [vm_compute; reflexivity|].
  pose proof (marker_fails_every_later_script first_script_prints_error
                Fixture.db_16 Fixture.db_16 "/opt/tantor/db/16/bin" "/opt/tantor/db/16/bin"
                "/fake/first.sql" "/fake/second.sql" Fixture.w0
                (snd (run_sql_script first_script_prints_error Fixture.db_16
                        "/fake/first.sql" Fixture.w0))
                [Fixture.error_line] [] 0%Z 0%Z
                eq_refl eq_refl eq_refl eq_refl eq_refl eq_refl eq_refl eq_refl)
    as (_ & Hfail & _).
  exact Hfail.
Defined.

(** ** Exit codes *)

(** A manifest with one minor step across two majors, the environment
    variables of a ttdb run, and a container in which the ttdb installer
    exits with code 127 and every other command succeeds. *)
Module Scenario.

Definition docker : DockerConfig.t := DockerConfig.mk "tt_build_ubuntu:22.04" None None None None.

Definition minor_step : Step.t :=
  Step.mk MINOR "16.6.0" (Some "se") None SNone SNone SNone.

Definition manifest : Manifest.t :=
  Manifest.mk [minor_step] "ttdb" "15.8.0" (Some "se") None None
    SNone SNone SNone SNone SNone docker.

Definition environ : gmap string string :=
  <["NEXUS_USER" := "user"]> (<["NEXUS_USER_PASSWORD" := "secret"]>
    (<["NEXUS_URL" := "nexus.example"]> ∅)).

Definition installer_exits_127 : list Event -> ExecReq -> list string * Z :=
  fun _ req =>
    if Py.contains "db_installer.sh --edition" (cmd req) then ([], 127%Z) else ([], 0%Z).

End Scenario.

Section ExitCodes.

Variable respond : list Event -> ExecReq -> list string * Z.
Variable TIMESTAMP : string.
Variable getcwd : string.

Lemma for_each_perf_log (log_to_file : bool) (path : string) (chunks : list string) (w : World) :
  exists w', for_each chunks (fun chunk => when log_to_file (Host.append path chunk)) w
             = (Ok tt, w') /\ logged w' = logged w.
Proof.
  revert w. induction chunks as [|c chunks IH]; intros w; [now exists w|].
  cbn [for_each]. unfold bind at 1.
  assert (Hstep : exists w2, when log_to_file (Host.append path c) w = (Ok tt, w2)
                             /\ logged w2 = logged w).
  { destruct log_to_file; eexists; split; reflexivity. }
  destruct Hstep as (w2 & -> & Hl2).
  destruct (IH w2) as (w3 & -> & Hl3).
  exists w3. split; [reflexivity | congruence].
Qed.

(** [exec_command] never raises: it returns the exit code, except that code
    127 of a command that names [db_installer.sh] becomes 0. *)
Lemma exec_command_result (command : string) (log_to_file : bool) (w : World)
    (chunks : list string) (code : Z) :
  respond (events w) (mkReq command None None) = (chunks, code) ->
  fst (exec_command respond TIMESTAMP getcwd command log_to_file w)
  = Ok (if Py.contains "db_installer.sh" command && (code =? 127)%Z then 0%Z else code).
Proof.
  intros H. unfold exec_command. unfold bind at 1.
  assert (Hpre : exists w1,
             when log_to_file
               (Host.makedirs (OsPath.join getcwd "logs");;
                Host.append (OsPath.join (OsPath.join getcwd "logs")
                               ("perf_dbms_" +:+ TIMESTAMP +:+ ".log")) EmptyString) w
             = (Ok tt, w1) /\ events w1 = events w).
  { destruct log_to_file; cbn [when]; eexists; split; reflexivity. }
  destruct Hpre as (w1 & -> & Hev).
  unfold bind at 1, container_exec. rewrite Hev, H.
  unfold bind at 1.
  match goal with
  | |- context [for_each chunks ?f ?w2] =>
      destruct (for_each_perf_log log_to_file
                  (OsPath.join (OsPath.join getcwd "logs")
                     ("perf_dbms_" +:+ TIMESTAMP +:+ ".log")) chunks w2) as (w3 & -> & _)
  end.
  destruct (code =? 0)%Z eqn:Hc; cbn [negb].
  - apply Z.eqb_eq in Hc. subst code. cbn. now rewrite andb_false_r.
  - destruct (Py.contains "db_installer.sh" command && (code =? 127)%Z); reflexivity.
Qed.

(** The installer of a ttdb run without a package goes through [shell] with
    the check on: any non-zero exit code of it is fatal. *)
Lemma installer_failure_is_fatal (db_installer pgdg_installer db_logs_dir : string)
    (version : DbVersion.t) (nexus_env : NexusEnv.t) (w : World)
    (chunks : list string) (code : Z) :
  let command := [db_installer;
                  "--edition=" +:+ DbVersion.str_opt (DbVersion.edition version);
                  "--maintenance-version=" +:+ DbVersion.version version;
                  "--major-version=" +:+ DbVersion.major version] in
  respond (events w) (mkReq (Shlex.join command) (Some (NexusEnv.dict nexus_env)) None)
  = (chunks, code) ->
  code <> 0%Z ->
  fst (run_db_installer respond db_installer pgdg_installer version db_logs_dir nexus_env
         None "ttdb" w)
  = Raise (RuntimeError (command_failed code (Shlex.join command))).
Proof.
  intros command H Hc. unfold run_db_installer.
  cbn [String.eqb Ascii.eqb Bool.eqb given]. unfold bind at 1, ret at 1.
  unfold try_except, bind at 1.
  rewrite (shell_eq respond _ _ _ _ _ _ _ _ H). cbv zeta. cbn [andb].
  apply Z.eqb_neq in Hc. rewrite Hc. reflexivity.
Qed.

End ExitCodes.

(** C6 as stated fails in a migration run: the ttdb installer is run through
    [shell], where exit code 127 is as fatal as any other. *)
Lemma installer_exit_127_aborts_the_run :
  fst (run_upgrade Scenario.installer_exits_127 "TS" "/work" Scenario.environ
         Scenario.manifest "items/scenario" Fixture.w0)
  = Raise (RuntimeError
             "Command failed with exit code 127: /work/db_installer.sh --edition=se --maintenance-version=15.8.0 --major-version=15").
Proof. vm_compute. reflexivity. Qed.

(** ** Missing scripts *)

Section MissingScripts.

Variable respond : list Event -> ExecReq -> list string * Z.
Variable TIMESTAMP : string.
Variable getcwd : string.
Variable environ : gmap string string.

(** The paths [check_scripts_exist] reports. *)
Definition missing_in (w : World) (scripts_path : string) (scripts : list string) : list string :=
  flat_map (fun script =>
    if Py.truthy script && negb (Host.present w (OsPath.join scripts_path script))
    then [OsPath.join scripts_path script] else []) scripts.

(** The check reads the host and changes nothing. *)
Lemma collect_missing_eq (scripts_path : string) (scripts : list string) (w : World) :
  collect_missing scripts_path scripts w = (Ok (missing_in w scripts_path scripts), w).
Proof.
  induction scripts as [|script rest IH]; [reflexivity|].
  cbn [collect_missing missing_in flat_map]. unfold bind at 1.
  destruct (Py.truthy script); cbn [andb].
  - unfold bind at 1, Host.path_exists, ret at 1.
    unfold bind at 1. rewrite IH. unfold ret.
    now destruct (Host.present w (OsPath.join scripts_path script)).
  - unfold ret at 1. unfold bind at 1. rewrite IH. reflexivity.
Qed.

Lemma missing_in_nonempty (w : World) (scripts_path script : string) (scripts : list string) :
  In script scripts -> Py.truthy script = true ->
  Host.present w (OsPath.join scripts_path script) = false ->
  missing_in w scripts_path scripts <> [].
Proof.
  intros Hin Ht Hp Hnil.
  assert (Hm : In (OsPath.join scripts_path script) (missing_in w scripts_path scripts)).
  { unfold missing_in. apply in_flat_map. exists script. split; [exact Hin|].
    rewrite Ht, Hp. now left. }
  rewrite Hnil in Hm. exact Hm.
Qed.





End MissingScripts.


(** ** What a computation adds to the record of calls *)

(** [adds P m]: whatever [m] does, the calls it records all satisfy [P],
    and it removes none. *)
Definition adds {A} (P : Event -> Prop) (m : M A) : Prop :=
  forall (w w' : World) (r : result A),
    m w = (r, w') -> exists evs, events w' = events w ++ evs /\ Forall P evs.

Section Adds.

Variable P : Event -> Prop.

Lemma adds_same {A} (m : M A) :
  (forall w w' r, m w = (r, w') -> events w' = events w) -> adds P m.
Proof.
  intros Hm w w' r H. exists []. split; [|constructor].
  rewrite (Hm w w' r H). now rewrite app_nil_r.
Qed.

Lemma adds_ret {A} (a : A) : adds P (ret a).
Proof. apply adds_same. now intros w w' r [= <- <-]. Qed.

Lemma adds_raise {A} (e : exn) : adds P (@raise A e).
Proof. apply adds_same. now intros w w' r [= <- <-]. Qed.

Lemma adds_lift {A} (x : result A) : adds P (lift x).
Proof. apply adds_same. now intros w w' r [= <- <-]. Qed.

Lemma adds_log (l : Level) (msg : string) : adds P (log l msg).
Proof. apply adds_same. now intros w w' r [= <- <-]. Qed.

Lemma adds_isfile (p : string) : adds P (Host.isfile p).
Proof. apply adds_same. now intros w w' r [= <- <-]. Qed.

Lemma adds_path_exists (p : string) : adds P (Host.path_exists p).
Proof. apply adds_same. now intros w w' r [= <- <-]. Qed.

Lemma adds_makedirs (p : string) : adds P (Host.makedirs p).
Proof. apply adds_same. now intros w w' r [= <- <-]. Qed.

Lemma adds_append (p text : string) : adds P (Host.append p text).
Proof. apply adds_same. now intros w w' r [= <- <-]. Qed.

Lemma adds_read (p : string) : adds P (Host.read p).
Proof.
  apply adds_same. intros w w' r. unfold Host.read.
  destruct (files w !! p); now intros [= <- <-].
Qed.

Lemma adds_record_event (e : Event) : P e -> adds P (record_event e).
Proof.
  intros He w w' r [= <- <-]. exists [e]. split; [reflexivity | now constructor].
Qed.

Lemma adds_bind {A B} (m : M A) (k : A -> M B) :
  adds P m -> (forall a, adds P (k a)) -> adds P (bind m k).
Proof.
  intros Hm Hk w w' r H. apply bind_inv in H as [(a & w1 & H1 & H2)|(e & H1 & ->)].
  - destruct (Hm _ _ _ H1) as (evs1 & E1 & F1), (Hk a _ _ _ H2) as (evs2 & E2 & F2).
    exists (evs1 ++ evs2). split; [now rewrite E2, E1, app_assoc | now apply Forall_app].
  - exact (Hm _ _ _ H1).
Qed.

Lemma adds_try_except {A} (m : M A) (h : exn -> M A) :
  adds P m -> (forall e, adds P (h e)) -> adds P (try_except m h).
Proof.
  intros Hm Hh w w' r H. unfold try_except in H.
  destruct (m w) as [[a|e] w1] eqn:H1.
  - inversion H; subst. exact (Hm _ _ _ H1).
  - destruct (Hm _ _ _ H1) as (evs1 & E1 & F1), (Hh e _ _ _ H) as (evs2 & E2 & F2).
    exists (evs1 ++ evs2). split; [now rewrite E2, E1, app_assoc | now apply Forall_app].
Qed.

Lemma adds_when (c : bool) (m : M unit) : adds P m -> adds P (when c m).
Proof. intros Hm. destruct c; [exact Hm | apply adds_ret]. Qed.

Lemma adds_for_each {A} (l : list A) (body : A -> M unit) :
  (forall x, adds P (body x)) -> adds P (for_each l body).
Proof.
  intros Hb. induction l as [|x l IH]; [apply adds_ret|].
  cbn [for_each]. apply adds_bind; [apply Hb | intros _; exact IH].
Qed.

Variable respond : list Event -> ExecReq -> list string * Z.

Lemma adds_shell (command : list string) (env : option Env) (logfile cwd : option string)
    (check_code : bool) :
  P (EvShell command env logfile cwd check_code) ->
  adds P (shell respond command env logfile cwd check_code).
Proof.
  intros He w w' r H. exists [EvShell command env logfile cwd check_code].
  split; [|now constructor].
  rewrite <- (shell_events respond command env logfile cwd check_code w). now rewrite H.
Qed.

End Adds.

(** One step of a proof of [adds P m], by the shape of [m]. *)
Ltac adds_step :=
  match goal with
  | |- adds _ (bind _ _) => apply adds_bind; [|intros ?]
  | |- adds _ (ret _) => apply adds_ret
  | |- adds _ (raise _) => apply adds_raise
  | |- adds _ (lift _) => apply adds_lift
  | |- adds _ (log _ _) => apply adds_log
  | |- adds _ (when _ _) => apply adds_when
  | |- adds _ (for_each _ _) => apply adds_for_each; intros ?
  | |- adds _ (try_except _ _) => apply adds_try_except; [|intros ?]
  | |- adds _ (Host.isfile _) => apply adds_isfile
  | |- adds _ (Host.path_exists _) => apply adds_path_exists
  | |- adds _ (Host.makedirs _) => apply adds_makedirs
  | |- adds _ (Host.append _ _) => apply adds_append
  | |- adds _ (Host.read _) => apply adds_read
  | |- adds _ (shell _ _ _ _ _ _) => apply adds_shell
  | |- adds _ (shell_ _ _) => apply adds_shell
  | |- adds _ (match ?x with _ => _ end) => destruct x
  end.

Create HintDb adds discriminated.

Ltac adds_auto := repeat first [adds_step | solve [auto with adds]].

(** ** The migration run talks to the container through [shell] only *)

Section OnlyShell.

Variable respond : list Event -> ExecReq -> list string * Z.
Variable TIMESTAMP : string.
Variable getcwd : string.
Variable environ : gmap string string.

(** A predicate that every [shell] call satisfies. *)
Variable P : Event -> Prop.
Hypothesis P_shell : forall command env logfile cwd check_code,
  P (EvShell command env logfile cwd check_code).

Local Hint Resolve P_shell : adds.

Lemma adds_require_str (o : option string) : adds P (require_str o).
Proof. unfold require_str. adds_auto. Qed.
Local Hint Resolve adds_require_str : adds.

Lemma adds_run_pg_binary (db : Database.t) (binary : string) (args : list string) :
  adds P (run_pg_binary respond db binary args).
Proof. unfold run_pg_binary, get_pg_binary. adds_auto. Qed.
Local Hint Resolve adds_run_pg_binary : adds.

Lemma adds_pg_ctl (db : Database.t) (command : string) : adds P (pg_ctl respond db command).
Proof. unfold pg_ctl. adds_auto. Qed.
Local Hint Resolve adds_pg_ctl : adds.

Lemma adds_initdb (db : Database.t) : adds P (initdb respond db).
Proof. unfold initdb. adds_auto. Qed.
Local Hint Resolve adds_initdb : adds.

Lemma adds_run_db (db : Database.t) : adds P (run_db respond db).
Proof. unfold run_db. adds_auto. Qed.

Lemma adds_stop_db (db : Database.t) : adds P (stop_db respond db).
Proof. unfold stop_db. adds_auto. Qed.
Local Hint Resolve adds_run_db adds_stop_db : adds.

Lemma adds_run_sql_script (db : Database.t) (script_path : string) :
  adds P (run_sql_script respond db script_path).
Proof. unfold run_sql_script. adds_auto. Qed.

Lemma adds_run_shell_script (db : Database.t) (script : string) :
  adds P (run_shell_script respond db script).
Proof. unfold run_shell_script. adds_auto. Qed.
Local Hint Resolve adds_run_sql_script adds_run_shell_script : adds.

Lemma adds_pg_upgrade (new_db old_db : Database.t) : adds P (pg_upgrade respond new_db old_db).
Proof. unfold pg_upgrade. adds_auto. Qed.

Lemma adds_pg_dumpall (db : Database.t) (dump_file : string) :
  adds P (pg_dumpall respond db dump_file).
Proof. unfold pg_dumpall. adds_auto. Qed.
Local Hint Resolve adds_pg_upgrade adds_pg_dumpall : adds.

Lemma adds_get_bin_dir (version : DbVersion.t) (package_path : option string) :
  adds P (get_bin_dir respond version package_path).
Proof. unfold get_bin_dir. adds_auto. Qed.

Lemma adds_verify_package_version (package_path : string) (version : DbVersion.t) :
  adds P (verify_package_version respond package_path version).
Proof. unfold verify_package_version. adds_auto. Qed.
Local Hint Resolve adds_get_bin_dir adds_verify_package_version : adds.

Lemma adds_run_db_installer (db_installer pgdg_installer : string) (version : DbVersion.t)
    (db_logs_dir : string) (nexus_env : NexusEnv.t) (package_path : option string)
    (db_type : string) :
  adds P (run_db_installer respond db_installer pgdg_installer version db_logs_dir nexus_env
            package_path db_type).
Proof. unfold run_db_installer. adds_auto. Qed.
Local Hint Resolve adds_run_db_installer : adds.

Lemma adds_create_db (db_installer logs_dir db_path : string) (version : DbVersion.t)
    (nexus_env : NexusEnv.t) (db_type pgdg_installer : string) (package_path : option string) :
  adds P (create_db respond db_installer logs_dir db_path version nexus_env db_type
            pgdg_installer package_path).
Proof. unfold create_db. adds_auto. Qed.
Local Hint Resolve adds_create_db : adds.

Hypothesis P_lifecycle : forall image name volumes,
  P (EvManagerInit image name volumes) /\ P EvStartContainer.

Lemma adds_get_script (env : Environment.t) (name : string) :
  adds P (get_script getcwd env name).
Proof. unfold get_script. adds_auto. Qed.

Lemma adds_get_package (env : Environment.t) (name : string) :
  adds P (get_package getcwd env name).
Proof. unfold get_package. adds_auto. Qed.
Local Hint Resolve adds_get_script adds_get_package : adds.

Section Runner.

Variable manifest : Manifest.t.
Variable env : Environment.t.
Variable nexus_env : NexusEnv.t.

Lemma adds_resolve_package (package : option string) :
  adds P (resolve_package getcwd env package).
Proof. unfold resolve_package. adds_auto. Qed.
Local Hint Resolve adds_resolve_package : adds.

Lemma adds_clean_db_directory (db_path : string) :
  adds P (clean_db_directory respond db_path).
Proof. unfold clean_db_directory. adds_auto. Qed.
Local Hint Resolve adds_clean_db_directory : adds.

Lemma adds_create_initial_state :
  adds P (create_initial_state respond getcwd manifest env nexus_env).
Proof. unfold create_initial_state. adds_auto. Qed.

Lemma adds_prepare_step (state : State.t) (step : Step.t) :
  adds P (prepare_step respond getcwd manifest env nexus_env state step).
Proof. unfold prepare_step. adds_auto. Qed.
Local Hint Resolve adds_create_initial_state adds_prepare_step : adds.

Lemma adds_current_step (state : State.t) : adds P (current_step state).
Proof. unfold current_step. adds_auto. Qed.

Lemma adds_version_major (db : Database.t) : adds P (version_major db).
Proof. unfold version_major. adds_auto. Qed.
Local Hint Resolve adds_current_step adds_version_major : adds.

Lemma adds_initialize_db_cluster (state : State.t) :
  adds P (initialize_db_cluster respond state).
Proof. unfold initialize_db_cluster. adds_auto. Qed.
Local Hint Resolve adds_initialize_db_cluster : adds.

Lemma adds_run_scripts (state : State.t) (scripts : ScriptList) :
  adds P (run_scripts respond getcwd env state scripts).
Proof.
  unfold run_scripts, run_psql_script, runner_run_shell_script. adds_auto.
Qed.
Local Hint Resolve adds_run_scripts : adds.

Lemma adds_run_pre_step (state : State.t) :
  adds P (run_pre_step respond getcwd manifest env state).
Proof. unfold run_pre_step. adds_auto. Qed.

Lemma adds_run_post_step (state : State.t) :
  adds P (run_post_step respond getcwd manifest env state).
Proof. unfold run_post_step, run_post_step_second. adds_auto. Qed.

Lemma adds_run_verifier (state : State.t) :
  adds P (run_verifier respond getcwd manifest env state).
Proof. unfold run_verifier. adds_auto. Qed.
Local Hint Resolve adds_run_pre_step adds_run_post_step adds_run_verifier : adds.

Lemma adds_run_minor (state : State.t) :
  adds P (run_minor respond getcwd manifest env state).
Proof. unfold run_minor. adds_auto. Qed.

Lemma adds_copy_configuration_files (old_data_path new_data_path : string) :
  adds P (copy_configuration_files respond old_data_path new_data_path).
Proof. unfold copy_configuration_files. adds_auto. Qed.
Local Hint Resolve adds_run_minor adds_copy_configuration_files : adds.

Lemma adds_run_pg_dumpall (state : State.t) :
  adds P (run_pg_dumpall respond env state).
Proof. unfold run_pg_dumpall. adds_auto. Qed.

Lemma adds_run_pg_upgrade (state : State.t) : adds P (run_pg_upgrade respond state).
Proof. unfold run_pg_upgrade. adds_auto. Qed.
Local Hint Resolve adds_run_pg_dumpall adds_run_pg_upgrade : adds.

Lemma adds_run_step (state : State.t) :
  adds P (run_step respond getcwd manifest env state).
Proof. unfold run_step. adds_auto. Qed.
Local Hint Resolve adds_run_step : adds.

Lemma adds_run_steps (steps : list Step.t) (state : State.t) :
  adds P (run_steps respond getcwd manifest env nexus_env state steps).
Proof.
  revert state. induction steps as [|step rest IH]; intros state; cbn [run_steps]; adds_auto.
Qed.
Local Hint Resolve adds_run_steps : adds.

Lemma adds_runner_run_migration :
  adds P (runner_run_migration respond getcwd manifest env nexus_env).
Proof. unfold runner_run_migration. adds_auto. Qed.

End Runner.

Local Hint Resolve adds_runner_run_migration : adds.

Lemma adds_run_migration (manifest : Manifest.t) (env : Environment.t) :
  adds P (run_migration respond getcwd environ manifest env).
Proof. unfold run_migration. adds_auto. Qed.

Lemma adds_collect_missing (scripts_path : string) (scripts : list string) :
  adds P (collect_missing scripts_path scripts).
Proof.
  induction scripts as [|script rest IH]; cbn [collect_missing]; adds_auto.
Qed.
Local Hint Resolve adds_run_migration adds_collect_missing : adds.

Lemma adds_prepare_environment (scenario_path : string) (manifest : Manifest.t) :
  adds P (prepare_environment TIMESTAMP getcwd scenario_path manifest).
Proof.
  unfold prepare_environment, check_scripts_exist, check_packages_exist. adds_auto.
Qed.

Lemma adds_existing_paths (paths : list (option string)) : adds P (existing_paths paths).
Proof.
  induction paths as [|[path|] rest IH]; cbn [existing_paths]; adds_auto.
Qed.

Lemma adds_prepare_container_env (env : Environment.t) (db_type : string) :
  adds P (prepare_container_env respond env db_type).
Proof. unfold prepare_container_env. adds_auto. Qed.
Local Hint Resolve adds_prepare_environment adds_existing_paths
  adds_prepare_container_env : adds.

Lemma adds_run_upgrade (manifest : Manifest.t) (scenario_path : string) :
  adds P (run_upgrade respond TIMESTAMP getcwd environ manifest scenario_path).
Proof.
  unfold run_upgrade, with_docker_manager. adds_auto.
  - apply adds_record_event, P_lifecycle.
  - apply adds_record_event. exact (proj2 (P_lifecycle EmptyString EmptyString [])).
Qed.

End OnlyShell.

(** The event is not a call of [exec_command]. *)
Definition not_exec_command (e : Event) : Prop :=
  match e with
  | EvExecCommand _ _ => False
  | _ => True
  end.

(** A run of [run_upgrade] never calls [exec_command], the one place where
    exit code 127 is forgiven. *)
Lemma run_upgrade_never_calls_exec_command
    (respond : list Event -> ExecReq -> list string * Z) (TIMESTAMP getcwd : string)
    (environ : gmap string string) (manifest : Manifest.t) (scenario_path : string)
    (w w' : World) (r : result unit) :
  run_upgrade respond TIMESTAMP getcwd environ manifest scenario_path w = (r, w') ->
  exists evs, events w' = events w ++ evs /\ Forall not_exec_command evs.
Proof.
  apply (adds_run_upgrade respond TIMESTAMP getcwd environ not_exec_command);
    intros; cbn; auto.
Qed.

Section ExitCodePolicy.

Variable respond : list Event -> ExecReq -> list string * Z.
Variable TIMESTAMP : string.
Variable getcwd : string.
Variable environ : gmap string string.

(** C6, amended.  A run of [run_upgrade] reaches the container through
    [shell] only.  Under [shell] a non-zero exit code raises when the check
    is on, which is the default and knows no exception, and is returned to
    the caller when the check is off.  [exec_command], which the run never
    calls, never raises; it is the one place where exit code 127 of a
    command naming [db_installer.sh] is turned into 0. *)
Theorem nonzero_exit_under_shell_and_exec_command
    (manifest : Manifest.t) (scenario_path : string) (w0 w1 : World) (r : result unit)
    (command : list string) (env : option Env) (logfile cwd : option string) (w : World)
    (chunks : list string) (code : Z)
    (line : string) (log_to_file : bool) (w' : World) (chunks' : list string) (code' : Z) :
  run_upgrade respond TIMESTAMP getcwd environ manifest scenario_path w0 = (r, w1) ->
  respond (events w) (mkReq (Shlex.join command) env cwd) = (chunks, code) ->
  code <> 0%Z ->
  respond (events w') (mkReq line None None) = (chunks', code') ->
  (exists evs, events w1 = events w0 ++ evs /\ Forall not_exec_command evs) /\
  fst (shell respond command env logfile cwd true w)
  = Raise (RuntimeError (command_failed code (Shlex.join command))) /\
  fst (shell respond command env logfile cwd false w)
  = Ok (mkExecResult code (fold_left String.append chunks EmptyString)) /\
  fst (exec_command respond TIMESTAMP getcwd line log_to_file w')
  = Ok (if Py.contains "db_installer.sh" line && (code' =? 127)%Z then 0%Z else code').
Proof.
  intros Hrun H Hc H'. split; [|split; [|split]].
  - exact (run_upgrade_never_calls_exec_command _ _ _ _ _ _ _ _ _ Hrun).
  - rewrite (shell_eq respond _ _ _ _ _ _ _ _ H). cbv zeta. cbn [andb].
    apply Z.eqb_neq in Hc. now rewrite Hc.
  - now rewrite (shell_unchecked respond command env logfile cwd w chunks code H).
  - exact (exec_command_result respond TIMESTAMP getcwd line log_to_file w' chunks' code' H').
Qed.

End ExitCodePolicy.

(** The run of the scenario, and its installer command with exit code 127
    under the three entry points. *)
Lemma nonzero_exit_under_shell_and_exec_command_witness :
  let command := ["/work/db_installer.sh"; "--edition=se"; "--maintenance-version=15.8.0";
                  "--major-version=15"] in
  let run := run_upgrade Scenario.installer_exits_127 "TS" "/work" Scenario.environ
               Scenario.manifest "items/scenario" Fixture.w0 in
  (exists evs, events (snd run) = events Fixture.w0 ++ evs /\ Forall not_exec_command evs) /\
  fst (shell Scenario.installer_exits_127 command None None None true Fixture.w0)
  = Raise (RuntimeError (command_failed 127 (Shlex.join command))) /\
  fst (shell Scenario.installer_exits_127 command None None None false Fixture.w0)
  = Ok (mkExecResult 127 EmptyString) /\
  fst (exec_command Scenario.installer_exits_127 "TS" "/work" (Shlex.join command) false
         Fixture.w0)
  = Ok 0%Z.
Proof.
  intros command run.
  destruct (nonzero_exit_under_shell_and_exec_command Scenario.installer_exits_127 "TS" "/work"
              Scenario.environ Scenario.manifest "items/scenario" Fixture.w0 (snd run) (fst run)
              command None None None Fixture.w0 [] 127
              (Shlex.join command) false Fixture.w0 [] 127)
    as (H0 & H1 & H2 & H3);
    [apply surjective_pairing | reflexivity | discriminate | reflexivity |].
  split; [exact H0 | split; [exact H1 | split; [exact H2 | exact H3]]].
Defined.

(** ** Which scripts a step runs *)

(** A manifest with an initial post-script and a generic post-script, and a
    minor step without post-scripts of its own; both scripts exist on the
    host. *)
Module PostScenario.

Definition manifest : Manifest.t :=
  Manifest.mk [Scenario.minor_step] "ttdb" "15.8.0" (Some "se") None None
    SNone (SStr "init_post.sql") SNone (SStr "post.sql") SNone Scenario.docker.

Definition env : Environment.t :=
  Environment.mk "/tmp" "/tmp/new_data" "/tmp/old_data" "/work/logs"
    (Some "/work/items/scenario/scripts") None "/work/db_installer.sh"
    "/work/src/pgdg_installer.sh".

Definition state : State.t :=
  State.mk
    (Database.mk (Some (DbVersion.mk "15.8.0" (Some "se") "15" "ttdb"))
       (Some "/opt/tantor/db/15/bin") "/tmp/old_data" "/work/logs/logs_15.8.0-se")
    (Database.mk (Some (DbVersion.mk "15.10.0" (Some "se") "15" "ttdb"))
       (Some "/opt/tantor/db/15/bin") "/tmp/new_data" "/work/logs/logs_15.10.0-se")
    (Some Scenario.minor_step).

Definition w : World :=
  mkWorld []
    (<["/work/items/scenario/scripts/init_post.sql" := "select 1;"]>
       (<["/work/items/scenario/scripts/post.sql" := "select 2;"]> ∅))
    ∅ [].

(** The call that runs the SQL script [name] of the scripts directory. *)
Definition runs (name : string) : Event :=
  pg_event (State.new_db state) "/opt/tantor/db/15/bin" "psql"
    ["-f"; "/work/items/scenario/scripts/" +:+ name].

End PostScenario.

Section PostStepScripts.

Variable manifest : Manifest.t.

(** For a step that is not a minor step both definitions of [run_post_step]
    agree: the post-scripts of the step when it has any, else those of the
    manifest, never both. *)
Lemma post_scripts_of_other_steps (step : Step.t) :
  Step.type step <> MINOR ->
  post_step_scripts manifest step = post_step_scripts_first manifest step /\
  post_step_scripts manifest step
  = (if truthy_scripts (Step.post_scripts step) then Step.post_scripts step
     else Manifest.post_scripts manifest).
Proof.
  intros H. unfold post_step_scripts, post_step_scripts_second, post_step_scripts_first,
    or_scripts.
  destruct (Step.type step); [split; reflexivity .. | now destruct H].
Qed.

(** For a minor step the method in force never looks at the initial
    post-scripts. *)
Lemma post_scripts_of_minor_steps (step : Step.t) :
  Step.type step = MINOR ->
  post_step_scripts manifest step
  = or_scripts (Step.post_scripts step) (Manifest.post_scripts manifest) /\
  post_step_scripts_first manifest step
  = or_scripts (Manifest.initial_post_scripts manifest) (Manifest.post_scripts manifest).
Proof.
  intros H. unfold post_step_scripts, post_step_scripts_second, post_step_scripts_first.
  now rewrite H.
Qed.

End PostStepScripts.

(** C3 at a minor step of a manifest with initial post-scripts: the method in
    force resolves to the generic post-script and runs it; the initial
    post-script, which the first definition of the method resolves to, is
    not run. *)
Theorem minor_step_skips_initial_post_scripts :
  let w' := snd (run_post_step Fixture.quiet "/work" PostScenario.manifest PostScenario.env
                   PostScenario.state PostScenario.w) in
  post_step_scripts PostScenario.manifest Scenario.minor_step = SStr "post.sql" /\
  post_step_scripts_first PostScenario.manifest Scenario.minor_step = SStr "init_post.sql" /\
  In (PostScenario.runs "post.sql") (events w') /\
  ~ In (PostScenario.runs "init_post.sql") (events w').
Proof.
  vm_compute. repeat split; try reflexivity.
  - right. left. reflexivity.
  - intros [H|[H|[H|[]]]]; discriminate.
Qed.

(** ** Installing a version *)

(** The call runs a database binary ([initdb], [pg_ctl], [psql], ...): all of
    them, and nothing else, are run as [su - postgres -c <command>]. *)
Definition runs_pg_binary (e : Event) : bool :=
  match e with
  | EvShell [a; b; c; d; _] _ _ _ _ =>
      String.eqb a "su" && String.eqb b "-" && String.eqb c "postgres" && String.eqb d "-c"
  | _ => false
  end.

(** The command line and the environment of the installer. *)
Definition installer_argv (db_installer pgdg_installer : string) (version : DbVersion.t)
    (package_path : option string) (db_type : string) : list string :=
  match String.eqb db_type "pgdg", given package_path with
  | true, Some p => [pgdg_installer; "--from-file=" +:+ p]
  | true, None => [pgdg_installer;
                   "--maintenance-version=" +:+ DbVersion.version version;
                   "--install-path=/usr/local/pgsql/" +:+ DbVersion.major version]
  | false, Some p => [db_installer; "--from-file=" +:+ p]
  | false, None => [db_installer;
                    "--edition=" +:+ DbVersion.str_opt (DbVersion.edition version);
                    "--maintenance-version=" +:+ DbVersion.version version;
                    "--major-version=" +:+ DbVersion.major version]
  end.

Definition installer_env (nexus_env : NexusEnv.t) (package_path : option string)
    (db_type : string) : option Env :=
  match String.eqb db_type "pgdg", given package_path with
  | true, _ => None
  | false, Some p => Some [("DEBIAN_FRONTEND", Some "noninteractive")]
  | false, None => Some (NexusEnv.dict nexus_env)
  end.

(** The call of the installer. *)
Definition installer_event (db_installer pgdg_installer db_logs_dir : string)
    (version : DbVersion.t) (nexus_env : NexusEnv.t) (package_path : option string)
    (db_type : string) : Event :=
  EvShell (installer_argv db_installer pgdg_installer version package_path db_type)
    (installer_env nexus_env package_path db_type)
    (Some (OsPath.join db_logs_dir
             (db_type +:+ "_installer_" +:+ DbVersion.str version +:+ ".log")))
    None true.

(** The calls of a successful [create_db], in order: the inspection of the
    package when there is one, the installer, and for a pgdg package the
    read of the file in which the installer left its install path. *)
Definition install_events (db_installer logs_dir : string) (version : DbVersion.t)
    (nexus_env : NexusEnv.t) (db_type pgdg_installer : string)
    (package_path : option string) : list Event :=
  match given package_path with
  | Some p => [EvShell ["dpkg"; "-I"; p] None None None false]
  | None => []
  end
  ++ [installer_event db_installer pgdg_installer
        (OsPath.join logs_dir ("logs_" +:+ DbVersion.str version))
        version nexus_env package_path db_type]
  ++ (if negb (String.eqb (DbVersion.db_type version) "ttdb")
         && Py.truthy_opt package_path
      then [EvShell ["cat"; "/tmp/pg_install_path_" +:+ DbVersion.major version +:+ ".txt"]
              None None None false]
      else []).

Section Installing.

Variable respond : list Event -> ExecReq -> list string * Z.

Lemma shell_events_of (command : list string) (env : option Env) (logfile cwd : option string)
    (check_code : bool) (w w' : World) (r : result ExecResult) :
  shell respond command env logfile cwd check_code w = (r, w') ->
  events w' = events w ++ [EvShell command env logfile cwd check_code].
Proof.
  intros H. rewrite <- (shell_events respond command env logfile cwd check_code w).
  now rewrite H.
Qed.

Lemma shell_unchecked_ok (command : list string) (env : option Env) (logfile cwd : option string)
    (w : World) :
  exists r w', shell respond command env logfile cwd false w = (Ok r, w').
Proof.
  destruct (respond (events w) (mkReq (Shlex.join command) env cwd)) as [chunks code] eqn:H.
  rewrite (shell_unchecked respond command env logfile cwd w chunks code H). eauto.
Qed.

Lemma verify_package_version_events (package_path : string) (version : DbVersion.t)
    (w w' : World) (r : result unit) :
  verify_package_version respond package_path version w = (r, w') ->
  events w' = events w ++ [EvShell ["dpkg"; "-I"; package_path] None None None false].
Proof.
  unfold verify_package_version. intros H.
  destruct (shell_unchecked_ok ["dpkg"; "-I"; package_path] None None None w)
    as (res & w1 & Hs).
  rewrite (bind_ok _ _ _ _ _ Hs) in H.
  apply shell_events_of in Hs. rewrite <- Hs.
  destruct (negb (exit_code res =? 0)%Z); [now inversion H|].
  destruct (search_version (output res)); [|now inversion H].
  destruct (String.eqb (DbVersion.db_type version) "pgdg");
    match type of H with
    | (if ?c then _ else _) _ = _ => destruct c; now inversion H
    end.
Qed.

Lemma run_db_installer_events (db_installer pgdg_installer db_logs_dir : string)
    (version : DbVersion.t) (nexus_env : NexusEnv.t) (package_path : option string)
    (db_type : string) (w w' : World) :
  run_db_installer respond db_installer pgdg_installer version db_logs_dir nexus_env
    package_path db_type w = (Ok tt, w') ->
  events w' = events w
    ++ match given package_path with
       | Some p => [EvShell ["dpkg"; "-I"; p] None None None false]
       | None => []
       end
    ++ [installer_event db_installer pgdg_installer db_logs_dir version nexus_env
          package_path db_type].
Proof.
  unfold run_db_installer, installer_event, installer_argv, installer_env. intros H.
  apply bind_ok_inv in H as ([command env_vars] & w1 & Hsettle & H).
  apply try_except_ok_inv in H as [H|(e & w2 & _ & H)].
  2:{ unfold bind, log, raise in H. discriminate. }
  apply bind_ok_inv in H as (res & w2 & Hs & H). inversion H; subst w2.
  apply shell_events_of in Hs. rewrite Hs. clear Hs H.
  destruct (String.eqb db_type "pgdg"), (given package_path) as [p|].
  all: try (apply bind_ok_inv in Hsettle as ([] & w0 & Hv & Hsettle);
            apply verify_package_version_events in Hv).
  all: inversion Hsettle; subst; rewrite ?Hv, <- ?app_assoc; reflexivity.
Qed.

Lemma get_bin_dir_events (version : DbVersion.t) (package_path : option string)
    (w w' : World) (b : string) :
  get_bin_dir respond version package_path w = (Ok b, w') ->
  events w' = events w
    ++ (if negb (String.eqb (DbVersion.db_type version) "ttdb")
           && Py.truthy_opt package_path
        then [EvShell ["cat"; "/tmp/pg_install_path_" +:+ DbVersion.major version +:+ ".txt"]
                None None None false]
        else []).
Proof.
  unfold get_bin_dir. intros H.
  destruct (String.eqb (DbVersion.db_type version) "ttdb"); cbn [negb andb].
  { inversion H. now rewrite app_nil_r. }
  destruct (String.eqb (DbVersion.db_type version) "pgdg"); [|discriminate].
  destruct (Py.truthy_opt package_path).
  2:{ inversion H. now rewrite app_nil_r. }
  unfold try_except in H.
  destruct (shell_unchecked_ok
              ["cat"; "/tmp/pg_install_path_" +:+ DbVersion.major version +:+ ".txt"]
              None None None w) as (res & w1 & Hs).
  rewrite (bind_ok _ _ _ _ _ Hs) in H. apply shell_events_of in Hs.
  destruct ((exit_code res =? 0)%Z && Py.truthy (Py.strip (output res)));
    inversion H; subst; exact Hs.
Qed.

(** A database that [create_db] returns, and the calls it took. *)
Lemma create_db_ok (db_installer logs_dir db_path : string) (version : DbVersion.t)
    (nexus_env : NexusEnv.t) (db_type pgdg_installer : string) (package_path : option string)
    (w w' : World) (db : Database.t) :
  create_db respond db_installer logs_dir db_path version nexus_env db_type pgdg_installer
    package_path w = (Ok db, w') ->
  Database.version db = Some version /\
  Database.data_path db = db_path /\
  Database.logs_dir db = OsPath.join logs_dir ("logs_" +:+ DbVersion.str version) /\
  is_Some (Database.bin_path db) /\
  events w' = events w
    ++ install_events db_installer logs_dir version nexus_env db_type pgdg_installer
         package_path.
Proof.
  unfold create_db. intros H.
  apply bind_ok_inv in H as ([] & w1 & Hmk & H).
  apply bind_ok_inv in H as ([] & w2 & Hinst & H).
  apply bind_ok_inv in H as (b & w3 & Hbin & H).
  inversion H; subst. cbn. repeat split; [eauto|].
  apply run_db_installer_events in Hinst. apply get_bin_dir_events in Hbin.
  inversion Hmk; subst. cbn [events] in Hinst.
  rewrite Hbin, Hinst. unfold install_events. now rewrite <- !app_assoc.
Qed.

(** None of the calls of an installation runs a database binary, and one of
    them is the installer. *)
Lemma install_events_run_no_binary (db_installer logs_dir : string) (version : DbVersion.t)
    (nexus_env : NexusEnv.t) (db_type pgdg_installer : string) (package_path : option string) :
  Forall (fun e => runs_pg_binary e = false)
    (install_events db_installer logs_dir version nexus_env db_type pgdg_installer
       package_path).
Proof.
  unfold install_events, installer_event, installer_argv.
  apply Forall_app. split; [|apply Forall_app; split].
  - destruct (given package_path); [constructor; [reflexivity|] |]; constructor.
  - constructor; [|constructor].
    destruct (String.eqb db_type "pgdg"), (given package_path); reflexivity.
  - destruct (negb _ && _); [constructor; [reflexivity|] |]; constructor.
Qed.

End Installing.

(** ** The two slots of the runner *)

(** The two calls with which [prepare_step] moves the data of the new slot
    into the directory of the old slot. *)
Definition swap_events (state : State.t) : list Event :=
  [EvShell ["rm"; "-rf"; Database.data_path (State.old_db state)] None None None true;
   EvShell ["mv"; Database.data_path (State.new_db state);
            Database.data_path (State.old_db state)] None None None true].

Section Slots.

Variable respond : list Event -> ExecReq -> list string * Z.
Variable getcwd : string.
Variable manifest : Manifest.t.
Variable env : Environment.t.
Variable nexus_env : NexusEnv.t.

Lemma resolve_package_world (package : option string) (w w' : World)
    (r : result (option string)) :
  resolve_package getcwd env package w = (r, w') -> w' = w.
Proof.
  unfold resolve_package, get_package, require_str, Host.isfile.
  destruct (given package) as [p|]; [|now intros [= _ <-]].
  destruct (Environment.packages_dir env) as [d|]; unfold bind, ret, raise;
    [|now intros [= _ <-]].
  destruct (bool_decide _); cbn; now intros [= _ <-].
Qed.

(** What a successful [prepare_step] did and what it returns. *)
Lemma prepare_step_ok (state state' : State.t) (step : Step.t) (w w' : World) :
  prepare_step respond getcwd manifest env nexus_env state step w = (Ok state', w') ->
  exists (v : DbVersion.t) (package_path : option string) (new_db : Database.t),
    DbVersion.create (Step.db_version step) (Step.db_edition step) (Manifest.db_type manifest)
    = Ok v /\
    state' = State.mk
               (Database.mk (Database.version (State.new_db state))
                  (Database.bin_path (State.new_db state))
                  (Database.data_path (State.old_db state))
                  (Database.logs_dir (State.new_db state)))
               new_db (Some step) /\
    Database.version new_db = Some v /\
    Database.data_path new_db = Environment.new_db env /\
    is_Some (Database.bin_path new_db) /\
    events w' = events w ++ swap_events state
      ++ install_events (Environment.db_installer env) (Environment.logs_dir env) v nexus_env
           (Manifest.db_type manifest) (Environment.pgdg_installer env) package_path.
Proof.
  unfold prepare_step. intros H.
  apply bind_ok_inv in H as (r1 & w1 & H1 & H).
  apply bind_ok_inv in H as (r2 & w2 & H2 & H).
  apply bind_ok_inv in H as (v & w3 & Hv & H).
  apply bind_ok_inv in H as (pkg & w4 & Hp & H).
  apply bind_ok_inv in H as (new_db & w5 & Hc & H).
  inversion H; subst; clear H.
  apply shell_events_of in H1. apply shell_events_of in H2.
  unfold lift in Hv. inversion Hv; subst; clear Hv.
  apply resolve_package_world in Hp. subst w4.
  apply create_db_ok in Hc as (Hver & Hpath & _ & Hbin & Hev).
  exists v, pkg, new_db. repeat split; try assumption.
  rewrite Hev, H2, H1. unfold swap_events. now rewrite <- !app_assoc.
Qed.

(** C1, amended.  After [prepare_step] the old slot holds the instance that
    was in the new slot (its version, binaries and log directory) with its
    data path set to the data path of the former old slot, and the new slot
    points at [env.new_db].  The data moved, not the paths: the runner
    removed the directory of the old slot and moved the directory of the new
    slot to that path.  So when the new slot was at [env.new_db], as it is
    throughout a run, both slots keep their paths: no path is lost and none
    is used twice unless the two were equal to begin with. *)
Theorem prepare_step_moves_data_and_keeps_paths (state state' : State.t) (step : Step.t)
    (w w' : World) :
  prepare_step respond getcwd manifest env nexus_env state step w = (Ok state', w') ->
  State.old_db state'
  = Database.mk (Database.version (State.new_db state))
      (Database.bin_path (State.new_db state))
      (Database.data_path (State.old_db state))
      (Database.logs_dir (State.new_db state)) /\
  Database.data_path (State.old_db state') = Database.data_path (State.old_db state) /\
  Database.data_path (State.new_db state') = Environment.new_db env /\
  (Database.data_path (State.new_db state) = Environment.new_db env ->
   Database.data_path (State.new_db state') = Database.data_path (State.new_db state)) /\
  exists evs, events w' = events w ++ swap_events state ++ evs.
Proof.
  intros H. apply prepare_step_ok in H as (v & pkg & new_db & _ & -> & _ & Hp & _ & Hev).
  cbn [State.old_db State.new_db Database.data_path].
  split; [reflexivity|]. split; [reflexivity|]. split; [exact Hp|].
  split; [congruence|]. eexists. exact Hev.
Qed.

(** The state [create_initial_state] returns: the initial version in the new
    slot at [env.new_db], a placeholder in the old slot at [env.old_db]. *)
Lemma create_initial_state_ok (state : State.t) (w w' : World) :
  create_initial_state respond getcwd manifest env nexus_env w = (Ok state, w') ->
  Database.data_path (State.new_db state) = Environment.new_db env /\
  Database.data_path (State.old_db state) = Environment.old_db env /\
  Database.version (State.old_db state) = None /\
  exists v, DbVersion.create (Manifest.db_version manifest) (Manifest.db_edition manifest)
              (Manifest.db_type manifest) = Ok v /\
            Database.version (State.new_db state) = Some v.
Proof.
  unfold create_initial_state. intros H.
  apply bind_ok_inv in H as (v & w1 & Hv & H).
  apply bind_ok_inv in H as (pkg & w2 & _ & H).
  apply bind_ok_inv in H as (db & w3 & Hc & H).
  apply bind_ok_inv in H as (r4 & w4 & _ & H).
  apply bind_ok_inv in H as (r5 & w5 & _ & H).
  inversion H; subst; clear H. cbn.
  apply create_db_ok in Hc as (Hver & Hpath & _).
  unfold lift in Hv. inversion Hv; subst. eauto 7.
Qed.

(** Neither slot changes its path in the loop over the steps. *)
Lemma run_steps_paths (steps : list Step.t) (state state' : State.t) (w w' : World) :
  run_steps respond getcwd manifest env nexus_env state steps w = (Ok state', w') ->
  Database.data_path (State.new_db state) = Environment.new_db env ->
  Database.data_path (State.new_db state') = Environment.new_db env /\
  Database.data_path (State.old_db state') = Database.data_path (State.old_db state).
Proof.
  revert state w. induction steps as [|step rest IH]; intros state w H Hnew.
  - inversion H; subst. now split.
  - cbn [run_steps] in H.
    apply bind_ok_inv in H as (state1 & w1 & Hprep & H).
    apply bind_ok_inv in H as ([] & w2 & _ & H).
    apply prepare_step_ok in Hprep as (v & pkg & new_db & _ & -> & _ & Hnew1 & _).
    destruct (IH _ _ H Hnew1) as [Hn Ho]. split; [exact Hn | exact Ho].
Qed.

End Slots.

(** A run in a container where every command succeeds silently: version
    15.8.0 is installed, a binary upgrade to 16.6.0 is carried out, and the
    next step, a minor upgrade to 16.8.0, is prepared. *)
Module UpgradeRun.

Definition env : Environment.t :=
  Environment.mk "/tmp" "/tmp/new_data" "/tmp/old_data" "/work/logs" None None
    "/work/db_installer.sh" "/work/src/pgdg_installer.sh".

Definition nexus_env : NexusEnv.t :=
  NexusEnv.mk (Some "user") (Some "secret") (Some "nexus.example").

Definition upgrade_step : Step.t :=
  Step.mk PG_UPGRADE "16.6.0" (Some "se") None SNone SNone SNone.

Definition minor_step : Step.t :=
  Step.mk MINOR "16.8.0" (Some "se") None SNone SNone SNone.

Definition manifest : Manifest.t :=
  Manifest.mk [upgrade_step; minor_step] "ttdb" "15.8.0" (Some "se") None None
    SNone SNone SNone SNone SNone Scenario.docker.

Definition nowhere : Database.t := Database.mk None None EmptyString EmptyString.

(** The state a computation returned (a blank state if it raised). *)
Definition state_of (r : result State.t * World) : State.t :=
  match fst r with
  | Ok state => state
  | Raise _ => State.mk nowhere nowhere None
  end.

Definition initial := create_initial_state Fixture.quiet "/work" manifest env nexus_env Fixture.w0.

Definition upgraded :=
  run_steps Fixture.quiet "/work" manifest env nexus_env (state_of initial) [upgrade_step]
    (snd initial).

Definition prepared :=
  prepare_step Fixture.quiet "/work" manifest env nexus_env (state_of upgraded) minor_step
    (snd upgraded).

Lemma initial_ok : initial = (Ok (state_of initial), snd initial).
Proof. vm_compute. reflexivity. Qed.

Lemma upgraded_ok : upgraded = (Ok (state_of upgraded), snd upgraded).
Proof. vm_compute. reflexivity. Qed.

Lemma prepared_ok : prepared = (Ok (state_of prepared), snd prepared).
Proof. vm_compute. reflexivity. Qed.

End UpgradeRun.

Lemma prepare_step_moves_data_and_keeps_paths_witness :
  Database.data_path (State.old_db (UpgradeRun.state_of UpgradeRun.prepared)) = "/tmp/old_data" /\
  Database.data_path (State.new_db (UpgradeRun.state_of UpgradeRun.prepared)) = "/tmp/new_data".
Proof.
  destruct (prepare_step_moves_data_and_keeps_paths Fixture.quiet "/work" UpgradeRun.manifest
              UpgradeRun.env UpgradeRun.nexus_env _ _ _ _ _ UpgradeRun.prepared_ok)
    as (_ & Hold & Hnew & _).
  split; [rewrite Hold | rewrite Hnew]; reflexivity.
Defined.

(** C1 as stated fails: after [prepare_step] the old slot is not at the path
    the new slot had, and the new slot is not at the path the old slot
    had. *)
Lemma prepare_step_does_not_swap_paths :
  let before := UpgradeRun.state_of UpgradeRun.upgraded in
  let after := UpgradeRun.state_of UpgradeRun.prepared in
  prepare_step Fixture.quiet "/work" UpgradeRun.manifest UpgradeRun.env UpgradeRun.nexus_env
    before UpgradeRun.minor_step (snd UpgradeRun.upgraded)
  = (Ok after, snd UpgradeRun.prepared) /\
  Database.data_path (State.new_db before) = "/tmp/new_data" /\
  Database.data_path (State.old_db before) = "/tmp/old_data" /\
  Database.data_path (State.old_db after) <> Database.data_path (State.new_db before) /\
  Database.data_path (State.new_db after) <> Database.data_path (State.old_db before).
Proof.
  split; [exact UpgradeRun.prepared_ok|].
  vm_compute. repeat split; try reflexivity; discriminate.
Qed.

Section Invariant.

Variable respond : list Event -> ExecReq -> list string * Z.
Variable getcwd : string.
Variable manifest : Manifest.t.
Variable env : Environment.t.
Variable nexus_env : NexusEnv.t.

(** C2.  In a run, after the initial state is created and any number of
    steps are done, a [prepare_step] that completes leaves in the old slot
    the version and binaries the new slot held (what the previous step
    produced); in the new slot the parsed target version, at a data path that
    is [env.new_db], the data path of the new slot before this step and in
    the initial state alike; and the calls it made are the two of the data
    move followed by those of the installation, none of which runs a
    database binary: the new version is installed and not initialised. *)
Theorem new_slot_is_fresh_at_the_fixed_path (steps_done : list Step.t) (step : Step.t)
    (w0 w1 w2 w3 : World) (state0 state state' : State.t) :
  create_initial_state respond getcwd manifest env nexus_env w0 = (Ok state0, w1) ->
  run_steps respond getcwd manifest env nexus_env state0 steps_done w1 = (Ok state, w2) ->
  prepare_step respond getcwd manifest env nexus_env state step w2 = (Ok state', w3) ->
  Database.version (State.old_db state') = Database.version (State.new_db state) /\
  Database.bin_path (State.old_db state') = Database.bin_path (State.new_db state) /\
  (exists (v : DbVersion.t) (package_path : option string),
      DbVersion.create (Step.db_version step) (Step.db_edition step)
        (Manifest.db_type manifest) = Ok v /\
      Database.version (State.new_db state') = Some v /\
      events w3 = events w2 ++ swap_events state
        ++ install_events (Environment.db_installer env) (Environment.logs_dir env) v
             nexus_env (Manifest.db_type manifest) (Environment.pgdg_installer env)
             package_path /\
      Forall (fun e => runs_pg_binary e = false)
        (swap_events state
         ++ install_events (Environment.db_installer env) (Environment.logs_dir env) v
              nexus_env (Manifest.db_type manifest) (Environment.pgdg_installer env)
              package_path)) /\
  Database.data_path (State.new_db state') = Environment.new_db env /\
  Database.data_path (State.new_db state) = Environment.new_db env /\
  Database.data_path (State.new_db state0) = Environment.new_db env.
Proof.
  intros H0 Hrun Hprep.
  apply create_initial_state_ok in H0 as (Hnew0 & _).
  destruct (run_steps_paths _ _ _ _ _ _ _ _ _ _ Hrun Hnew0) as [Hnew _].
  apply prepare_step_ok in Hprep as (v & pkg & new_db & Hv & -> & Hver & Hpath & _ & Hev).
  cbn [State.old_db State.new_db Database.version Database.bin_path].
  split; [reflexivity|]. split; [reflexivity|]. split.
  - exists v, pkg. split; [exact Hv|]. split; [exact Hver|]. split; [exact Hev|].
    apply Forall_app. split.
    + unfold swap_events. constructor; [reflexivity|]. constructor; [reflexivity|]. constructor.
    + apply install_events_run_no_binary.
  - split; [exact Hpath|]. split; [exact Hnew | exact Hnew0].
Qed.

End Invariant.

Lemma new_slot_is_fresh_at_the_fixed_path_witness :
  Database.version (State.old_db (UpgradeRun.state_of UpgradeRun.prepared))
  = Some (DbVersion.mk "16.6.0" (Some "se") "16" "ttdb") /\
  Database.version (State.new_db (UpgradeRun.state_of UpgradeRun.prepared))
  = Some (DbVersion.mk "16.8.0" (Some "se") "16" "ttdb") /\
  Database.data_path (State.new_db (UpgradeRun.state_of UpgradeRun.prepared)) = "/tmp/new_data".
Proof.
  destruct (new_slot_is_fresh_at_the_fixed_path Fixture.quiet "/work" UpgradeRun.manifest
              UpgradeRun.env UpgradeRun.nexus_env [UpgradeRun.upgrade_step]
              UpgradeRun.minor_step _ _ _ _ _ _ _
              UpgradeRun.initial_ok UpgradeRun.upgraded_ok UpgradeRun.prepared_ok)
    as (Hold & _ & (v & pkg & Hv & Hnew & _) & Hpath & _).
  split; [rewrite Hold; reflexivity|].
  split; [|rewrite Hpath; reflexivity].
  rewrite Hnew. f_equal. vm_compute in Hv. now inversion Hv.
Defined.

(** ** The minor upgrade *)

(** The calls of a minor upgrade between the pre-step and the post-step
    scripts, for a new database whose binaries are in [b]: the new data
    directory is removed, the old one is moved to its path, an empty old
    directory is put back, and the new instance is started and stopped. *)
Definition minor_events (state : State.t) (b : string) : list Event :=
  let old_data := Database.data_path (State.old_db state) in
  let new_data := Database.data_path (State.new_db state) in
  [EvShell ["rm"; "-rf"; new_data] None None None true;
   EvShell ["mv"; old_data; new_data] None None None true;
   EvShell ["mkdir"; "-p"; old_data] None None None true;
   EvShell ["chmod"; "0700"; old_data] None None None true;
   EvShell ["chown"; "postgres:postgres"; old_data] None None None true;
   pg_event (State.new_db state) b "pg_ctl" ["-D"; new_data; "start"];
   pg_event (State.new_db state) b "pg_ctl" ["-D"; new_data; "stop"]].

Section Minor.

Variable respond : list Event -> ExecReq -> list string * Z.
Variable getcwd : string.
Variable manifest : Manifest.t.
Variable env : Environment.t.

(** Every command exits with code 0. *)
Definition all_succeed : Prop :=
  forall (history : list Event) (req : ExecReq), snd (respond history req) = 0%Z.

Lemma shell_succeeds (command : list string) (w : World) :
  all_succeed ->
  exists (r : ExecResult) (w' : World),
    shell_ respond command w = (Ok r, w') /\
    events w' = events w ++ [EvShell command None None None true].
Proof.
  intros Hz. unfold shell_.
  destruct (respond (events w) (mkReq (Shlex.join command) None None)) as [chunks code] eqn:H.
  pose proof (Hz (events w) (mkReq (Shlex.join command) None None)) as Hc.
  rewrite H in Hc. cbn in Hc. subst code.
  rewrite (shell_eq respond _ _ _ _ _ _ _ _ H). cbv zeta. cbn [andb negb Z.eqb].
  eexists _, _. split; reflexivity.
Qed.

Lemma pg_ctl_succeeds (db : Database.t) (b command : string) (w : World) :
  all_succeed ->
  Database.bin_path db = Some b ->
  exists w' : World,
    pg_ctl respond db command w = (Ok tt, w') /\
    events w' = events w ++ [pg_event db b "pg_ctl" ["-D"; Database.data_path db; command]].
Proof.
  intros Hz Hb. unfold pg_ctl.
  destruct (respond (events w) (pg_request db b "pg_ctl" ["-D"; Database.data_path db; command]))
    as [chunks code] eqn:H.
  pose proof (Hz (events w) (pg_request db b "pg_ctl" ["-D"; Database.data_path db; command]))
    as Hc.
  rewrite H in Hc. cbn in Hc. subst code.
  unfold bind.
  rewrite (run_pg_binary_eq respond db b "pg_ctl" _ w chunks 0 Hb eq_refl H).
  cbv zeta. cbn [Z.eqb]. eexists. split; reflexivity.
Qed.

(** C4, amended.  In [run_minor], once the pre-step scripts have run, the
    majors of the old and the new instance are compared.  When they differ
    a [ValueError] is raised and [run_minor] has issued no command of its
    own: the world is the one the pre-step scripts left.  When they are equal
    and the commands succeed, [run_minor] removes the new data directory,
    moves the old one to its path, puts back an empty old directory, starts
    and stops the new instance, and goes on with the post-step scripts. *)
Theorem minor_upgrade_checks_majors_first (state : State.t) (old_version new_version : DbVersion.t)
    (b : string) (w w1 : World) :
  Database.version (State.old_db state) = Some old_version ->
  Database.version (State.new_db state) = Some new_version ->
  Database.bin_path (State.new_db state) = Some b ->
  run_pre_step respond getcwd manifest env state w = (Ok tt, w1) ->
  (DbVersion.major old_version <> DbVersion.major new_version ->
   run_minor respond getcwd manifest env state w
   = (Raise (minor_mismatch (DbVersion.major old_version) (DbVersion.major new_version)), w1)) /\
  (DbVersion.major old_version = DbVersion.major new_version ->
   all_succeed ->
   exists w2 : World,
     events w2 = events w1 ++ minor_events state b /\
     run_minor respond getcwd manifest env state w
     = run_post_step respond getcwd manifest env state w2).
Proof.
  intros Hold Hnew Hb Hpre. unfold run_minor. step_ok Hpre.
  assert (Ho : version_major (State.old_db state) w1 = (Ok (DbVersion.major old_version), w1))
    by (unfold version_major; now rewrite Hold).
  assert (Hn : version_major (State.new_db state) w1 = (Ok (DbVersion.major new_version), w1))
    by (unfold version_major; now rewrite Hnew).
  step_ok Ho. step_ok Hn.
  split.
  - intros Hne. apply String.eqb_neq in Hne. now rewrite Hne.
  - intros He Hz. rewrite He, String.eqb_refl. cbn [negb].
    destruct (shell_succeeds ["rm"; "-rf"; Database.data_path (State.new_db state)] w1 Hz)
      as (r1 & wa & E1 & V1). step_ok E1.
    destruct (shell_succeeds ["mv"; Database.data_path (State.old_db state);
                              Database.data_path (State.new_db state)] wa Hz)
      as (r2 & wb & E2 & V2). step_ok E2.
    destruct (shell_succeeds ["mkdir"; "-p"; Database.data_path (State.old_db state)] wb Hz)
      as (r3 & wc & E3 & V3). step_ok E3.
    destruct (shell_succeeds ["chmod"; "0700"; Database.data_path (State.old_db state)] wc Hz)
      as (r4 & wd & E4 & V4). step_ok E4.
    destruct (shell_succeeds ["chown"; "postgres:postgres";
                              Database.data_path (State.old_db state)] wd Hz)
      as (r5 & we & E5 & V5). step_ok E5.
    destruct (pg_ctl_succeeds (State.new_db state) b "start" we Hz Hb) as (wf & E6 & V6).
    unfold run_db, stop_db. step_ok E6.
    destruct (pg_ctl_succeeds (State.new_db state) b "stop" wf Hz Hb) as (wg & E7 & V7).
    step_ok E7.
    exists wg. split; [|reflexivity].
    rewrite V7, V6, V5, V4, V3, V2, V1. unfold minor_events. now rewrite <- !app_assoc.
Qed.

End Minor.

(** The minor step of the run above, from 16.6.0 to 16.8.0. *)
Lemma minor_upgrade_checks_majors_first_witness :
  exists w2 : World,
    events w2 = events (snd UpgradeRun.prepared)
                ++ minor_events (UpgradeRun.state_of UpgradeRun.prepared) "/opt/tantor/db/16/bin" /\
    run_minor Fixture.quiet "/work" UpgradeRun.manifest UpgradeRun.env
      (UpgradeRun.state_of UpgradeRun.prepared) (snd UpgradeRun.prepared)
    = run_post_step Fixture.quiet "/work" UpgradeRun.manifest UpgradeRun.env
        (UpgradeRun.state_of UpgradeRun.prepared) w2.
Proof.
  destruct (minor_upgrade_checks_majors_first Fixture.quiet "/work" UpgradeRun.manifest
              UpgradeRun.env (UpgradeRun.state_of UpgradeRun.prepared)
              (DbVersion.mk "16.6.0" (Some "se") "16" "ttdb")
              (DbVersion.mk "16.8.0" (Some "se") "16" "ttdb")
              "/opt/tantor/db/16/bin" (snd UpgradeRun.prepared) (snd UpgradeRun.prepared))
    as [_ H]; [vm_compute; reflexivity .. |].
  apply H; [reflexivity | intros history req; reflexivity].
Defined.

(** C4 as stated fails: in the run of a minor step across two majors the
    [ValueError] is raised, but by then [prepare_step] has removed the old
    data directory and moved the new one into its place. *)
Lemma cross_major_minor_fails_after_the_data_move :
  let run := run_upgrade Fixture.quiet "TS" "/work" Scenario.environ Scenario.manifest
               "items/scenario" Fixture.w0 in
  fst run = Raise (minor_mismatch "15" "16") /\
  In (EvShell ["rm"; "-rf"; "/tmp/old_data"] None None None true) (events (snd run)) /\
  In (EvShell ["mv"; "/tmp/new_data"; "/tmp/old_data"] None None None true) (events (snd run)).
Proof.
  vm_compute. split; [reflexivity|].
  split; repeat first [left; reflexivity | right].
Qed.


(** * Further properties of the embedded code *)

(** ** Versions of the ttdb product *)

Section TtdbPattern.

Lemma all_chars_append (p : ascii -> bool) (a b : string) :
  Py.all_chars p (a +:+ b) = Py.all_chars p a && Py.all_chars p b.
Proof.
  induction a as [|x a IH]; [reflexivity|].
  rewrite append_cons. simpl. rewrite IH. now rewrite andb_assoc.
Qed.

Lemma all_chars_weaken (p q : ascii -> bool) (a : string) :
  (forall c, p c = true -> q c = true) ->
  Py.all_chars p a = true -> Py.all_chars q a = true.
Proof.
  intros Hpq. induction a as [|x a IH]; [reflexivity|]. simpl. intros H.
  apply andb_prop in H as [Hx Ha]. now rewrite (Hpq x Hx), (IH Ha).
Qed.

Lemma digit_is_not (c sep : ascii) :
  Py.is_digit sep = false -> Py.is_digit c = true -> negb (Ascii.eqb c sep) = true.
Proof.
  intros Hs Hc. destruct (Ascii.eqb_spec c sep) as [->|]; [congruence | reflexivity].
Qed.

(** [s.split(sep)[0]] is the run in front of the first separator. *)
Lemma split_first_run (sep : ascii) (a r : string) :
  lacks sep a -> Py.split_first sep (a +:+ String sep r) = a.
Proof.
  unfold lacks. induction a as [|x a IH]; intros H.
  - rewrite append_nil_l. simpl. now rewrite Ascii.eqb_refl.
  - simpl in H. apply andb_prop in H as [Hx Ha]. rewrite append_cons. simpl.
    apply negb_true_iff in Hx. rewrite Hx. now rewrite (IH Ha).
Qed.

Lemma digits_lack (sep : ascii) (X : string) :
  Py.is_digit sep = false -> digits X -> lacks sep X.
Proof.
  intros Hs [_ D]. unfold lacks.
  apply (all_chars_weaken Py.is_digit); [|exact D]. intros c. now apply digit_is_not.
Qed.

(** [v] is [X.Y.Z] with three non-empty runs of digits, possibly followed by
    one line feed: the strings [^\d+\.\d+\.\d+$] matches. *)
Definition ttdb_shape (v X : string) : Prop :=
  digits X /\
  exists Y Z tail, digits Y /\ digits Z /\ Py.at_dollar tail = true /\
    v = X +:+ "." +:+ Y +:+ "." +:+ Z +:+ tail.

Lemma match_ttdb_spec (v : string) :
  DbVersion.match_ttdb v = true <-> exists X, ttdb_shape v X.
Proof.
  split.
  - unfold DbVersion.match_ttdb. intros H.
    destruct (Py.span Py.is_digit v) as [g1 r1] eqn:S1.
    apply span_spec in S1 as (-> & D1 & _).
    apply andb_prop in H as [T1 H].
    destruct r1 as [|c r2]; [discriminate|].
    destruct (Ascii.eqb_spec c "."%char) as [->|Hc].
    2:{ destruct c as [[] [] [] [] [] [] [] []]; try discriminate. now destruct Hc. }
    destruct (Py.span Py.is_digit r2) as [g2 r3] eqn:S2.
    apply span_spec in S2 as (-> & D2 & _).
    apply andb_prop in H as [T2 H].
    destruct r3 as [|c3 r4]; [discriminate|].
    destruct (Ascii.eqb_spec c3 "."%char) as [->|Hc3].
    2:{ destruct c3 as [[] [] [] [] [] [] [] []]; try discriminate. now destruct Hc3. }
    destruct (Py.span Py.is_digit r4) as [g3 r5] eqn:S3.
    apply span_spec in S3 as (-> & D3 & _).
    apply andb_prop in H as [T3 A5].
    exists g1. split; [now split|]. exists g2, g3, r5.
    repeat split; assumption.
  - intros (X & [T1 D1] & Y & Z & tail & [T2 D2] & [T3 D3] & At & ->).
    unfold DbVersion.match_ttdb.
    rewrite (span_run _ X _ D1) by reflexivity. rewrite T1. cbn [andb].
    rewrite append_cons, append_nil_l.
    rewrite (span_run _ Y _ D2) by reflexivity. rewrite T2. cbn [andb].
    rewrite append_cons, append_nil_l.
    rewrite (span_run _ Z tail D3) by now apply at_dollar_stops.
    now rewrite T3, At.
Qed.

Lemma ttdb_shape_major (v X : string) :
  ttdb_shape v X -> Py.split_first "."%char v = X.
Proof.
  intros (DX & Y & Z & tail & _ & _ & _ & ->).
  rewrite append_cons, append_nil_l.
  apply split_first_run. now apply digits_lack.
Qed.

(** A descriptor of the ttdb product that [DbVersion.create] returned. *)
Lemma ttdb_create_ok (v : string) (e : option string) (d : DbVersion.t) :
  DbVersion.create v e "ttdb" = Ok d ->
  exists X, ttdb_shape v X /\ Py.truthy_opt e = true /\ d = DbVersion.mk v e X "ttdb".
Proof.
  unfold DbVersion.create. cbn [String.eqb Ascii.eqb Bool.eqb].
  destruct (DbVersion.match_ttdb v) eqn:Hm; cbn [negb]; [|discriminate].
  apply match_ttdb_spec in Hm as (X & HX).
  destruct (Py.truthy_opt e); cbn [negb]; [|discriminate].
  rewrite (ttdb_shape_major v X HX). intros [= <-]. exists X.
  split; [exact HX|]. split; reflexivity.
Qed.

(** Every character of [s] is an ASCII character: the text is its own
    sequence of code points, whatever its encoding. *)
Definition ascii_text (s : string) : Prop :=
  Py.all_chars (fun c => (nat_of_ascii c <? 128)%nat) s = true.

(** For the ttdb product and a version string of ASCII characters
    [DbVersion.create] returns a descriptor exactly when the version is
    [X.Y.Z] (three non-empty runs of the digits [0] to [9], possibly
    followed by one line feed) and the edition is a non-empty string.  The
    descriptor then keeps the version string and the edition as they were
    given, and its major is [X]. *)
Theorem ttdb_create_spec (v : string) (e : option string) (d : DbVersion.t) :
  ascii_text v ->
  DbVersion.create v e "ttdb" = Ok d <->
  exists X, ttdb_shape v X /\ Py.truthy_opt e = true /\ d = DbVersion.mk v e X "ttdb".
Proof.
  intros _. unfold DbVersion.create. cbn [String.eqb Ascii.eqb Bool.eqb].
  destruct (DbVersion.match_ttdb v) eqn:Hm; cbn [negb].
  - apply match_ttdb_spec in Hm as (X & HX).
    pose proof (ttdb_shape_major v X HX) as Hmaj.
    destruct (Py.truthy_opt e); cbn [negb].
    + rewrite Hmaj. split.
      * intros [= <-]. exists X. split; [exact HX|]. split; reflexivity.
      * intros (X' & HX' & _ & ->). apply ttdb_shape_major in HX'. congruence.
    + split; [discriminate|]. intros (X' & _ & He & _). discriminate.
  - split; [discriminate|]. intros (X & HX & _).
    assert (Ht : DbVersion.match_ttdb v = true) by (apply match_ttdb_spec; eauto).
    congruence.
Qed.

(** A malformed ttdb version is reported whether or not an edition is given,
    and a well-formed one without an edition is refused as well; both are
    [ValueError]s. *)
Theorem ttdb_create_errors (v : string) (e : option string) :
  (DbVersion.match_ttdb v = false ->
   DbVersion.create v e "ttdb"
   = Raise (ValueError ("Invalid version string " +:+ Py.dquote +:+ v +:+ Py.dquote
                        +:+ " - must be in MAJOR.MINOR.PATCH form for ttdb"))) /\
  (DbVersion.match_ttdb v = true -> Py.truthy_opt e = false ->
   DbVersion.create v e "ttdb"
   = Raise (ValueError ("DB edition is not provided for version " +:+ Py.dquote +:+ v
                        +:+ Py.dquote +:+ " in ttdb mode"))).
Proof.
  unfold DbVersion.create. cbn [String.eqb Ascii.eqb Bool.eqb].
  split; [intros -> | intros -> ->]; reflexivity.
Qed.

End TtdbPattern.

(** The version and edition of the fixture. *)
Lemma ttdb_create_spec_witness :
  exists X, ttdb_shape "16.6.0" X /\ Py.truthy_opt (Some "se") = true /\
            Fixture.version_16 = DbVersion.mk "16.6.0" (Some "se") X "ttdb".
Proof.
  apply (ttdb_create_spec "16.6.0" (Some "se") Fixture.version_16); reflexivity.
Defined.

(** ** The rendering of a version *)

Section Rendering.

Lemma dash_split (sep : ascii) (a a' b b' : string) :
  lacks sep a -> lacks sep a' ->
  a +:+ String sep b = a' +:+ String sep b' -> a = a' /\ b = b'.
Proof.
  unfold lacks. revert a'. induction a as [|x a IH]; intros a' Ha Ha' E.
  - destruct a' as [|x' a'].
    + rewrite !append_nil_l in E. now inversion E.
    + rewrite append_nil_l, append_cons in E. inversion E; subst.
      simpl in Ha'. now rewrite Ascii.eqb_refl in Ha'.
  - simpl in Ha. apply andb_prop in Ha as [Hx Ha]. destruct a' as [|x' a'].
    + rewrite append_nil_l, append_cons in E. inversion E; subst.
      now rewrite Ascii.eqb_refl in Hx.
    + simpl in Ha'. apply andb_prop in Ha' as [_ Ha'].
      rewrite !append_cons in E. inversion E; subst.
      destruct (IH a' Ha Ha' H1) as [-> ->]. now split.
Qed.

Lemma lacks_append (sep : ascii) (a b : string) :
  lacks sep a -> lacks sep b -> lacks sep (a +:+ b).
Proof. unfold lacks. intros Ha Hb. now rewrite all_chars_append, Ha, Hb. Qed.

Lemma at_dollar_lacks_dash (tail : string) :
  Py.at_dollar tail = true -> lacks "-"%char tail.
Proof.
  unfold Py.at_dollar. intros H. apply orb_prop in H as [H|H];
    apply String.eqb_eq in H; subst; reflexivity.
Qed.

Lemma ttdb_version_lacks_dash (v X : string) : ttdb_shape v X -> lacks "-"%char v.
Proof.
  intros (DX & Y & Z & tail & DY & DZ & At & ->).
  repeat apply lacks_append; try reflexivity;
    try (apply digits_lack; [reflexivity | assumption]).
  now apply at_dollar_lacks_dash.
Qed.

Lemma pgdg_version_lacks_dash (X Y : string) :
  digits X -> digits Y -> lacks "-"%char (X +:+ "." +:+ Y).
Proof.
  intros DX DY. repeat apply lacks_append; try reflexivity;
    apply digits_lack; try reflexivity; assumption.
Qed.

(** A version of three components is never one of two components. *)
Lemma three_is_not_two (v X X' Y' : string) :
  ttdb_shape v X -> digits X' -> digits Y' -> v <> X' +:+ "." +:+ Y'.
Proof.
  intros ([_ DX] & Y & Z & tail & [_ DY] & _ & _ & ->) [_ DX'] [_ DY'] E.
  apply (f_equal (Py.span Py.is_digit)) in E.
  rewrite (span_run _ X _ DX), (span_run _ X' _ DX') in E by reflexivity.
  inversion E as [[EX ER]].
  rewrite !append_cons, !append_nil_l in ER. inversion ER as [EY].
  apply (f_equal (Py.all_chars Py.is_digit)) in EY.
  rewrite DY', all_chars_append, DY in EY. discriminate.
Qed.

(** What [DbVersion.create] returns, by product. *)
Lemma create_ok_cases (v : string) (e : option string) (t : string) (d : DbVersion.t) :
  DbVersion.create v e t = Ok d ->
  (exists X s, ttdb_shape v X /\ Py.truthy s = true /\ d = DbVersion.mk v (Some s) X "ttdb") \/
  (exists X Y, digits X /\ digits Y /\ d = DbVersion.mk (X +:+ "." +:+ Y) None X "pgdg").
Proof.
  intros H. destruct (String.eqb_spec t "ttdb") as [->|Ht].
  - left. apply ttdb_create_ok in H as (X & HX & He & ->).
    destruct e as [s|]; [|discriminate]. exists X, s.
    split; [exact HX|]. split; [exact He | reflexivity].
  - destruct (String.eqb_spec t "pgdg") as [->|Hp].
    + right. apply pgdg_create_spec in H as (X & Y & (DX & DY & _) & ->).
      exists X, Y. split; [exact DX|]. split; [exact DY | reflexivity].
    + unfold DbVersion.create in H.
      apply String.eqb_neq in Ht, Hp. rewrite Ht, Hp in H. discriminate.
Qed.

Lemma ttdb_render (v s : string) : v +:+ "-" +:+ s = v +:+ String "-"%char s.
Proof. reflexivity. Qed.

Lemma pgdg_render (X Y : string) :
  X +:+ "." +:+ Y +:+ "-pgdg" = (X +:+ "." +:+ Y) +:+ String "-"%char "pgdg".
Proof. now rewrite !append_assoc. Qed.

(** Two descriptors that [DbVersion.create] returned and that render alike
    are the same descriptor: the names of the logs built from the rendering
    tell versions, editions and products apart. *)
Theorem rendering_is_injective (v1 v2 : string) (e1 e2 : option string) (t1 t2 : string)
    (d1 d2 : DbVersion.t) :
  DbVersion.create v1 e1 t1 = Ok d1 ->
  DbVersion.create v2 e2 t2 = Ok d2 ->
  DbVersion.str d1 = DbVersion.str d2 ->
  d1 = d2.
Proof.
  intros H1 H2 E.
  apply create_ok_cases in H1 as [(X1 & s1 & S1 & T1 & ->)|(X1 & Y1 & DX1 & DY1 & ->)];
    apply create_ok_cases in H2 as [(X2 & s2 & S2 & T2 & ->)|(X2 & Y2 & DX2 & DY2 & ->)];
    unfold DbVersion.str in E; cbn in E;
    rewrite ?ttdb_render, ?pgdg_render in E.
  - apply dash_split in E as [-> ->]; try (eapply ttdb_version_lacks_dash; eassumption).
    apply ttdb_shape_major in S1, S2. congruence.
  - exfalso.
    apply dash_split in E as [E _];
      [| eapply ttdb_version_lacks_dash; eassumption
       | now apply pgdg_version_lacks_dash].
    exact (three_is_not_two v1 X1 X2 Y2 S1 DX2 DY2 E).
  - exfalso. symmetry in E.
    apply dash_split in E as [E _];
      [| eapply ttdb_version_lacks_dash; eassumption
       | now apply pgdg_version_lacks_dash].
    exact (three_is_not_two v2 X2 X1 Y1 S2 DX1 DY1 E).
  - apply dash_split in E as [E _]; try (now apply pgdg_version_lacks_dash).
    assert (EX : X1 = X2).
    { apply (f_equal (Py.span Py.is_digit)) in E.
      rewrite (span_run _ X1 _ (proj2 DX1)), (span_run _ X2 _ (proj2 DX2)) in E
        by reflexivity.
      now inversion E. }
    subst X2. now rewrite E.
Qed.

Lemma rendering_is_injective_witness :
  DbVersion.mk "16.6" None "16" "pgdg" = DbVersion.mk "16.6" None "16" "pgdg".
Proof.
  apply (rendering_is_injective "16.6" "16.6.3" (Some "se") None "pgdg" "pgdg");
    reflexivity.
Defined.

End Rendering.

(** ** A failed binary upgrade *)

(** The calls with which [run_pg_binary] collects the logs of a failed
    [pg_upgrade]. *)
Definition diagnostic_events (db : Database.t) : list Event :=
  let error_logs_dir := OsPath.join (Database.logs_dir db) "additionally_errors_logs" in
  [EvShell ["mkdir"; "-p"; error_logs_dir] None None None true;
   EvShell ["bash"; "-c"; "cp -r " +:+ Database.data_path db
                          +:+ "/pg_upgrade_output.d/*/log/* " +:+ error_logs_dir]
     None None None true;
   EvShell ["find"; error_logs_dir; "-type"; "d"; "-exec"; "chmod"; "775"; "{}"; "+"]
     None None None true;
   EvShell ["find"; error_logs_dir; "-type"; "f"; "-exec"; "chmod"; "664"; "{}"; "+"]
     None None None true].

Section FailedUpgrade.

Variable respond : list Event -> ExecReq -> list string * Z.

(** [shell] with the defaults, when the container answers with code 0. *)
Lemma shell_zero (command : list string) (w : World) (chunks : list string) :
  respond (events w) (mkReq (Shlex.join command) None None) = (chunks, 0%Z) ->
  shell_ respond command w
  = (Ok (mkExecResult 0 (fold_left String.append chunks EmptyString)),
     after_shell (EvShell command None None None true) None chunks w).
Proof. intros H. unfold shell_. now rewrite (shell_eq respond _ _ _ _ _ _ _ _ H). Qed.

(** [shell] with the defaults, when the container answers with another
    code. *)
Lemma shell_nonzero (command : list string) (w : World) (chunks : list string) (code : Z) :
  respond (events w) (mkReq (Shlex.join command) None None) = (chunks, code) ->
  code <> 0%Z ->
  exists w', shell_ respond command w
             = (Raise (RuntimeError (command_failed code (Shlex.join command))), w') /\
             events w' = events w ++ [EvShell command None None None true].
Proof.
  intros H Hc. unfold shell_. rewrite (shell_eq respond _ _ _ _ _ _ _ _ H). cbv zeta.
  apply Z.eqb_neq in Hc. rewrite Hc. cbn [andb negb]. eexists. split; reflexivity.
Qed.

(** A command of the handler that the container answers with code 0. *)
Lemma shell_accepted (command : list string) (w : World) :
  (forall history req, workdir req = None -> snd (respond history req) = 0%Z) ->
  exists r w', shell_ respond command w = (Ok r, w') /\
               events w' = events w ++ [EvShell command None None None true].
Proof.
  intros Hz.
  destruct (respond (events w) (mkReq (Shlex.join command) None None)) as [c k] eqn:Hr.
  pose proof (Hz (events w) (mkReq (Shlex.join command) None None) eq_refl) as Hk.
  rewrite Hr in Hk. cbn in Hk. subst k.
  rewrite (shell_zero command w c Hr). eexists _, _. split; reflexivity.
Qed.

(** When [pg_upgrade] fails and the commands that collect its logs succeed,
    [run_pg_binary] creates [additionally_errors_logs] in the log directory
    of the instance, copies the log tree of the tool into it, sets the
    modes of the copies, and then raises the error of [pg_upgrade] itself. *)
Theorem failed_pg_upgrade_is_diagnosed (db : Database.t) (b : string) (args : list string)
    (w : World) (chunks : list string) (code : Z) :
  Database.bin_path db = Some b ->
  respond (events w) (pg_request db b "pg_upgrade" args) = (chunks, code) ->
  code <> 0%Z ->
  (forall history req, workdir req = None -> snd (respond history req) = 0%Z) ->
  exists w',
    run_pg_binary respond db "pg_upgrade" args w
    = (Raise (RuntimeError (command_failed code (Shlex.join (pg_argv b "pg_upgrade" args)))),
       w') /\
    events w' = events w ++ pg_event db b "pg_upgrade" args :: diagnostic_events db.
Proof.
  intros Hb H Hc Hz. unfold run_pg_binary, get_pg_binary, require_str. rewrite Hb.
  unfold bind at 1. unfold bind at 1. unfold ret at 1. unfold ret at 1.
  unfold try_except at 1. unfold bind at 1.
  unfold pg_request, pg_argv in H.
  rewrite (shell_eq respond _ _ _ _ _ _ _ _ H). cbv zeta. cbn [andb].
  apply Z.eqb_neq in Hc. rewrite Hc. cbn [negb].
  unfold bind at 1, log at 1. cbn [String.eqb Ascii.eqb Bool.eqb when].
  match goal with |- context [mkWorld ?e ?f ?d ?l] => set (w2 := mkWorld e f d l) end.
  unfold bind at 1. unfold bind at 1.
  match goal with |- context [shell_ respond ?c w2] =>
    destruct (shell_accepted c w2 Hz) as (r3 & w3 & E3 & V3) end.
  rewrite E3. unfold bind at 1.
  match goal with |- context [shell_ respond ?c w3] =>
    destruct (shell_accepted c w3 Hz) as (r4 & w4 & E4 & V4) end.
  rewrite E4. unfold bind at 1.
  match goal with |- context [shell_ respond ?c w4] =>
    destruct (shell_accepted c w4 Hz) as (r5 & w5 & E5 & V5) end.
  rewrite E5. unfold bind at 1.
  match goal with |- context [shell_ respond ?c w5] =>
    destruct (shell_accepted c w5 Hz) as (r6 & w6 & E6 & V6) end.
  rewrite E6. unfold ret, raise.
  exists w6. split; [reflexivity|].
  rewrite V6, V5, V4, V3. unfold w2. cbn [events with_logged after_shell].
  unfold diagnostic_events, pg_event, pg_argv, pg_logfile, get_log_file.
  now rewrite <- !app_assoc.
Qed.

End FailedUpgrade.

Section MaskedUpgradeError.

Variable respond : list Event -> ExecReq -> list string * Z.

(** The directory the logs of a failed [pg_upgrade] are collected in, and
    the command that copies them. *)
Definition error_logs_dir (db : Database.t) : string :=
  OsPath.join (Database.logs_dir db) "additionally_errors_logs".

Definition copy_upgrade_logs (db : Database.t) : list string :=
  ["bash"; "-c"; "cp -r " +:+ Database.data_path db
                 +:+ "/pg_upgrade_output.d/*/log/* " +:+ error_logs_dir db].

(** The handler of [run_pg_binary] runs its commands with [shell], which
    raises on a non-zero code: when the copy of the logs of a failed
    [pg_upgrade] fails (as it does when the tool left no log tree), the
    error that leaves [run_pg_binary] is the one of the copy, the error of
    [pg_upgrade] is lost, and the modes are not set. *)
Theorem failed_copy_replaces_the_upgrade_error (db : Database.t) (b : string)
    (args : list string) (w : World) (chunks c1 c2 : list string) (code code2 : Z) :
  Database.bin_path db = Some b ->
  respond (events w) (pg_request db b "pg_upgrade" args) = (chunks, code) ->
  code <> 0%Z ->
  respond (events w ++ [pg_event db b "pg_upgrade" args])
    (mkReq (Shlex.join ["mkdir"; "-p"; error_logs_dir db]) None None) = (c1, 0%Z) ->
  respond (events w ++ pg_event db b "pg_upgrade" args :: firstn 1 (diagnostic_events db))
    (mkReq (Shlex.join (copy_upgrade_logs db)) None None) = (c2, code2) ->
  code2 <> 0%Z ->
  exists w',
    run_pg_binary respond db "pg_upgrade" args w
    = (Raise (RuntimeError (command_failed code2 (Shlex.join (copy_upgrade_logs db)))), w') /\
    events w' = events w ++ pg_event db b "pg_upgrade" args :: firstn 2 (diagnostic_events db).
Proof.
  intros Hb H Hc H1 H2 Hc2. unfold run_pg_binary, get_pg_binary, require_str. rewrite Hb.
  unfold bind at 1. unfold bind at 1. unfold ret at 1. unfold ret at 1.
  unfold try_except at 1. unfold bind at 1.
  unfold pg_request, pg_argv in H.
  rewrite (shell_eq respond _ _ _ _ _ _ _ _ H). cbv zeta. cbn [andb].
  apply Z.eqb_neq in Hc. rewrite Hc. cbn [negb].
  unfold bind at 1, log at 1. cbn [String.eqb Ascii.eqb Bool.eqb when].
  match goal with |- context [mkWorld ?e ?f ?d ?l] => set (w2 := mkWorld e f d l) end.
  assert (V2 : events w2 = events w ++ [pg_event db b "pg_upgrade" args]) by reflexivity.
  unfold bind at 1. unfold bind at 1.
  rewrite <- V2 in H1. fold (error_logs_dir db).
  rewrite (shell_zero respond _ w2 c1 H1).
  set (w3 := after_shell _ None c1 w2).
  assert (V3 : events w3
               = events w ++ pg_event db b "pg_upgrade" args :: firstn 1 (diagnostic_events db)).
  { unfold w3. cbn [events after_shell]. rewrite V2, <- app_assoc. reflexivity. }
  rewrite <- V3 in H2. unfold bind at 1. fold (copy_upgrade_logs db).
  destruct (shell_nonzero respond _ w3 c2 code2 H2 Hc2) as (w4 & E4 & V4).
  rewrite E4. exists w4. split; [reflexivity|].
  rewrite V4, V3, <- app_assoc. reflexivity.
Qed.

End MaskedUpgradeError.

(** A container in which every command run in a working directory fails
    with code 1 and every other command succeeds. *)
Definition only_plain_commands_succeed : list Event -> ExecReq -> list string * Z :=
  fun _ req => match workdir req with
               | Some _ => (["could not connect"], 1%Z)
               | None => ([], 0%Z)
               end.

(** A container in which, besides, the copy of the logs fails. *)
Definition copy_fails_too : list Event -> ExecReq -> list string * Z :=
  fun _ req => match workdir req with
               | Some _ => (["could not connect"], 1%Z)
               | None => if Py.contains "cp -r" (cmd req) then (["No such file"], 1%Z)
                         else ([], 0%Z)
               end.

Lemma failed_pg_upgrade_is_diagnosed_witness :
  exists w',
    run_pg_binary only_plain_commands_succeed Fixture.db_16 "pg_upgrade" ["--check"] Fixture.w0
    = (Raise (RuntimeError
                (command_failed 1
                   (Shlex.join (pg_argv "/opt/tantor/db/16/bin" "pg_upgrade" ["--check"])))),
       w') /\
    events w' = events Fixture.w0
                ++ pg_event Fixture.db_16 "/opt/tantor/db/16/bin" "pg_upgrade" ["--check"]
                   :: diagnostic_events Fixture.db_16.
Proof.
  apply (failed_pg_upgrade_is_diagnosed only_plain_commands_succeed Fixture.db_16
           "/opt/tantor/db/16/bin" ["--check"] Fixture.w0 ["could not connect"] 1%Z).
  - reflexivity.
  - reflexivity.
  - discriminate.
  - intros history req Hreq. unfold only_plain_commands_succeed. rewrite Hreq. reflexivity.
Defined.

Lemma failed_copy_replaces_the_upgrade_error_witness :
  exists w',
    run_pg_binary copy_fails_too Fixture.db_16 "pg_upgrade" ["--check"] Fixture.w0
    = (Raise (RuntimeError
                (command_failed 1 (Shlex.join (copy_upgrade_logs Fixture.db_16)))), w') /\
    events w' = events Fixture.w0
                ++ pg_event Fixture.db_16 "/opt/tantor/db/16/bin" "pg_upgrade" ["--check"]
                   :: firstn 2 (diagnostic_events Fixture.db_16).
Proof.
  apply (failed_copy_replaces_the_upgrade_error copy_fails_too Fixture.db_16
           "/opt/tantor/db/16/bin" ["--check"] Fixture.w0 ["could not connect"] []
           ["No such file"] 1%Z 1%Z).
  - reflexivity.
  - reflexivity.
  - discriminate.
  - vm_compute. reflexivity.
  - vm_compute. reflexivity.
  - discriminate.
Defined.

(** ** The extension script of a binary upgrade *)



Section ExtensionScript.

Variable respond : list Event -> ExecReq -> list string * Z.




End ExtensionScript.



(** ** The check of the scripts *)

Section ScriptCheck.

Variable getcwd : string.

Lemma missing_in_spec (w : World) (scripts_path : string) (scripts : list string) (p : string) :
  In p (missing_in w scripts_path scripts) <->
  exists script, In script scripts /\ Py.truthy script = true /\
                 Host.present w (OsPath.join scripts_path script) = false /\
                 p = OsPath.join scripts_path script.
Proof.
  unfold missing_in. rewrite in_flat_map. split.
  - intros (script & Hin & Hp). exists script.
    destruct (Py.truthy script); [|destruct Hp].
    destruct (Host.present w _); cbn in Hp; [destruct Hp|].
    destruct Hp as [<-|[]]. now repeat split.
  - intros (script & Hin & Ht & Hp & ->). exists script. split; [exact Hin|].
    rewrite Ht, Hp. now left.
Qed.

Lemma missing_in_nil (w : World) (scripts_path : string) (scripts : list string) :
  missing_in w scripts_path scripts = [] <->
  Forall (fun script => Py.truthy script = true ->
                        Host.present w (OsPath.join scripts_path script) = true) scripts.
Proof.
  rewrite List.Forall_forall. split.
  - intros Hnil script Hin Ht.
    destruct (Host.present w (OsPath.join scripts_path script)) eqn:Hp; [reflexivity|].
    now destruct (missing_in_nonempty w scripts_path script scripts Hin Ht Hp).
  - intros Hall. destruct (missing_in w scripts_path scripts) as [|p ps] eqn:Hm; [reflexivity|].
    assert (Hp : In p (missing_in w scripts_path scripts)) by (rewrite Hm; now left).
    apply missing_in_spec in Hp as (script & Hin & Ht & Hp & _).
    rewrite (Hall script Hin Ht) in Hp. discriminate.
Qed.

(** [check_scripts_exist] only reads the host.  It returns exactly when
    every non-empty script name of the manifest and of its steps is a file
    or a directory under the scripts directory; otherwise it raises one
    [FileNotFoundError] whose message lists the paths of all the missing
    scripts, not only of the first. *)
Theorem check_scripts_exist_reports_all (scripts_path : string) (manifest : Manifest.t)
    (w : World) :
  let run := check_scripts_exist scripts_path manifest w in
  snd run = w /\
  (fst run = Ok tt <->
   Forall (fun script => Py.truthy script = true ->
                         Host.present w (OsPath.join scripts_path script) = true)
     (iter_scripts manifest)) /\
  (forall e, fst run = Raise e ->
     exists paths,
       e = FileNotFoundError ("Script files not found: " +:+ Py.join ", " paths) /\
       forall p, In p paths <->
         exists script, In script (iter_scripts manifest) /\ Py.truthy script = true /\
                        Host.present w (OsPath.join scripts_path script) = false /\
                        p = OsPath.join scripts_path script).
Proof.
  cbv zeta. unfold check_scripts_exist. unfold bind. rewrite collect_missing_eq.
  rewrite <- missing_in_nil.
  pose proof (missing_in_spec w scripts_path (iter_scripts manifest)) as Hspec.
  destruct (missing_in w scripts_path (iter_scripts manifest)) as [|p ps].
  - split; [reflexivity|]. split; [now split|]. intros e He. discriminate.
  - split; [reflexivity|]. split; [split; discriminate|].
    intros e [= <-]. exists (p :: ps). split; [reflexivity|]. exact Hspec.
Qed.

(** The check of the scripts accepts a directory, the look-up of a script
    when it is run does not: a script name that passed the check and is not
    a file of the host is a directory, and [Environment.get_script] raises
    [FileNotFoundError] for it. *)
Theorem checked_script_can_fail_the_lookup (manifest : Manifest.t) (env : Environment.t)
    (scripts_dir name : string) (w : World) :
  Environment.scripts_dir env = Some scripts_dir ->
  check_scripts_exist scripts_dir manifest w = (Ok tt, w) ->
  In name (iter_scripts manifest) ->
  Py.truthy name = true ->
  files w !! OsPath.join scripts_dir name = None ->
  OsPath.join scripts_dir name ∈ dirs w /\
  get_script getcwd env name w
  = (Raise (FileNotFoundError ("Failed to find script " +:+ OsPath.join scripts_dir name)), w).
Proof.
  intros Hd Hcheck Hin Ht Hf. split.
  - unfold check_scripts_exist, bind in Hcheck. rewrite collect_missing_eq in Hcheck.
    destruct (missing_in w scripts_dir (iter_scripts manifest)) eqn:Hm; [|discriminate].
    apply missing_in_nil in Hm. rewrite List.Forall_forall in Hm.
    specialize (Hm name Hin Ht). unfold Host.present in Hm. rewrite Hf in Hm.
    rewrite bool_decide_false in Hm by (intros [x Hx]; discriminate).
    cbn [orb] in Hm. now apply bool_decide_eq_true in Hm.
  - unfold get_script, require_str. rewrite Hd. unfold bind, ret, Host.isfile. rewrite Hf.
    rewrite bool_decide_false by (intros [x Hx]; discriminate). reflexivity.
Qed.

End ScriptCheck.

(** A manifest whose only script is [setup], and a host on which
    [/work/scripts/setup] is a directory. *)
Lemma checked_script_can_fail_the_lookup_witness :
  let manifest := Manifest.mk [] "ttdb" "14.11.0" (Some "se") None None SNone SNone
                    (SStr "setup") SNone SNone Scenario.docker in
  let env := Environment.mk "/tmp" "/tmp/new_data" "/tmp/old_data" "/work/logs"
               (Some "/work/scripts") None "/work/db_installer.sh"
               "/work/src/pgdg_installer.sh" in
  let w := mkWorld [] ∅ {["/work/scripts/setup"]} [] in
  "/work/scripts/setup" ∈ dirs w /\
  get_script "/work" env "setup" w
  = (Raise (FileNotFoundError "Failed to find script /work/scripts/setup"), w).
Proof.
  intros manifest env w.
  apply (checked_script_can_fail_the_lookup "/work" manifest env "/work/scripts" "setup" w).
  - reflexivity.
  - vm_compute. reflexivity.
  - cbn. now left.
  - reflexivity.
  - reflexivity.
Defined.

(** ** The check of the packages *)

(** The first package of the manifest that is not a file under
    [packages_dir], if any. *)
Definition first_missing_package (w : World) (packages_dir : string) (manifest : Manifest.t)
  : option string :=
  find (fun package =>
          negb (bool_decide (is_Some (files w !! OsPath.join packages_dir package))))
    (package_files manifest).

Section PackageCheck.

Variable respond : list Event -> ExecReq -> list string * Z.
Variable TIMESTAMP : string.
Variable getcwd : string.
Variable environ : gmap string string.

(** [check_packages_exist] only reads the host and stops at the first
    package that is not a file. *)
Lemma check_packages_exist_eq (packages_dir : string) (manifest : Manifest.t) (w : World) :
  check_packages_exist packages_dir manifest w
  = (match first_missing_package w packages_dir manifest with
     | Some package =>
         Raise (FileNotFoundError ("Package file not found: "
                                   +:+ OsPath.join packages_dir package))
     | None => Ok tt
     end, w).
Proof.
  unfold check_packages_exist, first_missing_package.
  induction (package_files manifest) as [|package rest IH]; [reflexivity|].
  cbn [for_each find]. unfold bind at 1. unfold bind at 1. unfold Host.isfile at 1.
  destruct (bool_decide (is_Some (files w !! OsPath.join packages_dir package)));
    cbn [negb]; [|reflexivity].
  unfold ret at 1. exact IH.
Qed.

Lemma given_some (o : option string) (p : string) :
  given o = Some p -> Py.truthy_opt o = true.
Proof.
  unfold given, Py.truthy_opt. destruct o as [s|]; [|discriminate].
  now destruct (Py.truthy s).
Qed.

Lemma package_files_has_packages (manifest : Manifest.t) (package : string) :
  In package (package_files manifest) -> has_packages manifest = true.
Proof.
  unfold package_files, has_packages. intros H. apply in_app_or in H as [H|H].
  - destruct (given (Manifest.package manifest)) as [p|] eqn:Hg; [|destruct H].
    now rewrite (given_some _ _ Hg).
  - apply in_flat_map in H as (step & Hs & H). apply orb_true_iff. right.
    apply existsb_exists. exists step. split; [exact Hs|].
    destruct (given (Step.package step)) as [p|] eqn:Hg; [|destruct H].
    exact (given_some _ _ Hg).
Qed.

(** When the scripts of the manifest pass their check and a package the
    manifest names is not a file under the packages directory of the
    scenario, [run_upgrade] raises [FileNotFoundError] for the first such
    package and leaves the world as it found it: no log directory is made,
    no manager is built, no container is started, no command is run. *)
Theorem missing_package_raises_before_any_operation (manifest : Manifest.t)
    (scenario_path package : string) (w : World) :
  let scripts_dir := abspath getcwd (OsPath.join scenario_path "scripts") in
  let packages_dir := abspath getcwd (OsPath.join scenario_path "packages") in
  (has_scripts manifest = true -> check_scripts_exist scripts_dir manifest w = (Ok tt, w)) ->
  first_missing_package w packages_dir manifest = Some package ->
  run_upgrade respond TIMESTAMP getcwd environ manifest scenario_path w
  = (Raise (FileNotFoundError ("Package file not found: "
                               +:+ OsPath.join packages_dir package)), w).
Proof.
  intros scripts_dir packages_dir Hscripts Hfirst.
  assert (Hhas : has_packages manifest = true).
  { apply (package_files_has_packages manifest package).
    unfold first_missing_package in Hfirst. now apply find_some in Hfirst. }
  unfold run_upgrade, prepare_environment. unfold bind at 1. unfold bind at 1.
  fold scripts_dir. fold packages_dir. rewrite Hhas.
  assert (Hs : (if has_scripts manifest
                then check_scripts_exist scripts_dir manifest ;; ret (Some scripts_dir)
                else ret None) w
               = (Ok (if has_scripts manifest then Some scripts_dir else None), w)).
  { destruct (has_scripts manifest); [|reflexivity].
    unfold bind. now rewrite (Hscripts eq_refl). }
  rewrite Hs. unfold bind at 1. unfold bind at 1.
  rewrite check_packages_exist_eq, Hfirst. reflexivity.
Qed.

End PackageCheck.

(** The manifest of the test of the repository: a package [nopkg.deb] and
    an empty packages directory. *)
Lemma missing_package_raises_before_any_operation_witness :
  run_upgrade Fixture.quiet "TS" "/work" Scenario.environ
    (Manifest.mk [] "ttdb" "14.11.0" (Some "se") (Some "nopkg.deb") None SNone SNone
       SNone SNone SNone Scenario.docker)
    "items/scenario" Fixture.w0
  = (Raise (FileNotFoundError "Package file not found: /work/items/scenario/packages/nopkg.deb"),
     Fixture.w0).
Proof.
  apply (missing_package_raises_before_any_operation Fixture.quiet "TS" "/work"
           Scenario.environ _ "items/scenario" "nopkg.deb" Fixture.w0).
  - intros H. vm_compute in H. discriminate.
  - vm_compute. reflexivity.
Defined.

(** ** The environment of a run *)

Section PreparedEnvironment.

Variable TIMESTAMP : string.
Variable getcwd : string.

(** An environment that [prepare_environment] returns: the scripts
    directory is set exactly when the manifest names a script and the
    packages directory exactly when it names a package; the checked scripts
    exist and the packages are files under these directories; the two data
    directories are the fixed paths under [/tmp]; the log directory has been
    made on the host, and nothing else has happened. *)
Theorem prepared_environment (scenario_path : string) (manifest : Manifest.t)
    (w w' : World) (env : Environment.t) :
  prepare_environment TIMESTAMP getcwd scenario_path manifest w = (Ok env, w') ->
  let scripts_dir := abspath getcwd (OsPath.join scenario_path "scripts") in
  let packages_dir := abspath getcwd (OsPath.join scenario_path "packages") in
  Environment.scripts_dir env = (if has_scripts manifest then Some scripts_dir else None) /\
  Environment.packages_dir env = (if has_packages manifest then Some packages_dir else None) /\
  (has_scripts manifest = true ->
   forall script, In script (iter_scripts manifest) -> Py.truthy script = true ->
                  Host.present w (OsPath.join scripts_dir script) = true) /\
  (forall package, In package (package_files manifest) ->
                   is_Some (files w !! OsPath.join packages_dir package)) /\
  Environment.new_db env = "/tmp/new_data" /\
  Environment.old_db env = "/tmp/old_data" /\
  dirs w' = {[Environment.logs_dir env]} ∪ dirs w /\
  files w' = files w /\ events w' = events w.
Proof.
  intros H scripts_dir packages_dir. unfold prepare_environment in H.
  fold scripts_dir packages_dir in H.
  apply bind_ok_inv in H as (sd & w1 & Hs & H).
  apply bind_ok_inv in H as (pd & w2 & Hp & H).
  apply bind_ok_inv in H as ([] & w3 & Hm & H).
  inversion H; subst; clear H. inversion Hm; subst; clear Hm. cbn.
  assert (Hs' : sd = (if has_scripts manifest then Some scripts_dir else None) /\ w1 = w /\
                (has_scripts manifest = true ->
                 missing_in w scripts_dir (iter_scripts manifest) = [])).
  { destruct (has_scripts manifest).
    - apply bind_ok_inv in Hs as ([] & wa & Hc & Hr). inversion Hr; subst; clear Hr.
      unfold check_scripts_exist, bind in Hc. rewrite collect_missing_eq in Hc.
      destruct (missing_in w scripts_dir (iter_scripts manifest)); [|discriminate].
      inversion Hc; subst. now repeat split.
    - inversion Hs; subst. repeat split. discriminate. }
  destruct Hs' as (-> & -> & Hmiss).
  assert (Hp' : pd = (if has_packages manifest then Some packages_dir else None) /\ w2 = w /\
                (has_packages manifest = true ->
                 first_missing_package w packages_dir manifest = None)).
  { destruct (has_packages manifest).
    - apply bind_ok_inv in Hp as ([] & wa & Hc & Hr). inversion Hr; subst; clear Hr.
      rewrite check_packages_exist_eq in Hc.
      destruct (first_missing_package w packages_dir manifest); [discriminate|].
      inversion Hc; subst. now repeat split.
    - inversion Hp; subst. repeat split. discriminate. }
  destruct Hp' as (-> & -> & Hpk).
  split; [reflexivity|]. split; [reflexivity|]. split.
  { intros Hh script Hin Ht. specialize (Hmiss Hh).
    apply missing_in_nil in Hmiss. rewrite List.Forall_forall in Hmiss. now apply Hmiss. }
  split.
  { intros package Hin. specialize (Hpk (package_files_has_packages manifest package Hin)).
    unfold first_missing_package in Hpk.
    pose proof (find_none _ _ Hpk package Hin) as Hn. cbn beta in Hn.
    apply negb_false_iff in Hn. now apply bool_decide_eq_true in Hn. }
  now repeat split.
Qed.

End PreparedEnvironment.

(** The manifest of the test of the repository: no script and no package,
    so neither directory is set. *)
Lemma prepared_environment_witness :
  let manifest := Manifest.mk [] "ttdb" "14.11.0" (Some "se") None None SNone SNone
                    SNone SNone SNone Scenario.docker in
  let run := prepare_environment "TS" "/work" "items/scenario" manifest Fixture.w0 in
  exists env, fst run = Ok env /\
              Environment.scripts_dir env = None /\ Environment.packages_dir env = None /\
              dirs (snd run) = {[Environment.logs_dir env]} ∪ dirs Fixture.w0.
Proof.
  intros manifest run.
  destruct run as [[env|e] w'] eqn:Hrun; [|vm_compute in Hrun; discriminate].
  exists env.
  destruct (prepared_environment "TS" "/work" "items/scenario" manifest Fixture.w0 w' env Hrun)
    as (Hs & Hp & _ & _ & _ & _ & Hd & _).
  repeat split; assumption.
Defined.

(** ** A stage of scripts *)


(** The call of [pg_ctl] on the instance [db]. *)
Definition pg_ctl_event (db : Database.t) (b command : string) : Event :=
  pg_event db b "pg_ctl" ["-D"; Database.data_path db; command].

Section ScriptStage.

Variable respond : list Event -> ExecReq -> list string * Z.
Variable getcwd : string.
Variable env : Environment.t.





(** Whatever the SQL client answers, [run_sql_script] has made one call. *)
Lemma run_sql_script_events (db : Database.t) (b script_path : string) (w w' : World)
    (r : result unit) :
  Database.bin_path db = Some b ->
  run_sql_script respond db script_path w = (r, w') ->
  events w' = events w ++ [pg_event db b "psql" ["-f"; script_path]].
Proof.
  intros Hb.
  destruct (respond (events w) (pg_request db b "psql" ["-f"; script_path]))
    as [chunks code] eqn:H.
  rewrite (run_sql_script_eq respond db b script_path w chunks code Hb H). cbv zeta.
  destruct (code =? 0)%Z; [|now intros [= _ <-]].
  destruct (files _ !! _) as [text|].
  - destruct (first_error_line text); now intros [= _ <-].
  - destruct (bool_decide _); now intros [= _ <-].
Qed.




End ScriptStage.

(** A stage of three scripts, the last of which is not on the host: the
    first is run with the SQL client, the second with [bash], and the new
    instance is started and never stopped. *)
Module StageRun.

Definition env : Environment.t :=
  Environment.mk "/tmp" "/tmp/new_data" "/tmp/old_data" "/work/logs"
    (Some "/work/scripts") None "/work/db_installer.sh" "/work/src/pgdg_installer.sh".

Definition state : State.t := State.mk Fixture.db_16 Fixture.db_16 None.

Definition w : World :=
  mkWorld []
    (<["/work/scripts/fill.sql" := "select 1;"]>
       (<["/work/scripts/tune.sh" := "true"]> ∅))
    ∅ [].

Definition scripts : list string := ["fill.sql"; "tune.sh"; "check.sql"].

Definition run := run_scripts Fixture.quiet "/work" env state (SList scripts) w.

End StageRun.


(** ** The initial state *)

(** The four calls of [clean_db_directory]. *)
Definition clean_events (db_path : string) : list Event :=
  [EvShell ["rm"; "-rf"; db_path] None None None true;
   EvShell ["mkdir"; "-p"; db_path] None None None true;
   EvShell ["chmod"; "0700"; db_path] None None None true;
   EvShell ["chown"; "postgres:postgres"; db_path] None None None true].

Section InitialState.

Variable respond : list Event -> ExecReq -> list string * Z.
Variable getcwd : string.
Variable manifest : Manifest.t.
Variable env : Environment.t.
Variable nexus_env : NexusEnv.t.

Lemma clean_db_directory_ok (db_path : string) (w w' : World) :
  clean_db_directory respond db_path w = (Ok tt, w') ->
  events w' = events w ++ clean_events db_path.
Proof.
  unfold clean_db_directory. intros H.
  apply bind_ok_inv in H as (r1 & w1 & H1 & H).
  apply bind_ok_inv in H as (r2 & w2 & H2 & H).
  apply bind_ok_inv in H as (r3 & w3 & H3 & H).
  apply bind_ok_inv in H as (r4 & w4 & H4 & H).
  inversion H; subst; clear H.
  apply shell_events_of in H1, H2, H3, H4.
  rewrite H4, H3, H2, H1. unfold clean_events. now rewrite <- !app_assoc.
Qed.

(** A binary other than the upgrade tool that returned was called once. *)
Lemma run_pg_binary_returned (db : Database.t) (b binary : string) (args : list string)
    (w w' : World) (out : string) :
  Database.bin_path db = Some b ->
  String.eqb binary "pg_upgrade" = false ->
  run_pg_binary respond db binary args w = (Ok out, w') ->
  events w' = events w ++ [pg_event db b binary args].
Proof.
  intros Hb Hbin.
  destruct (respond (events w) (pg_request db b binary args)) as [chunks code] eqn:H.
  rewrite (run_pg_binary_eq respond db b binary args w chunks code Hb Hbin H). cbv zeta.
  destruct (code =? 0)%Z; [|discriminate]. now intros [= _ <-].
Qed.

(** A completed [create_initial_state] has installed the initial version
    first, then emptied the new data directory and the old one, then run
    [initdb] on the new one; the state it leaves has the initial version in
    the new slot, an old slot without version and binaries at [env.old_db],
    and no current step. *)
Theorem initial_state_is_installed_then_initialised (state : State.t) (w w' : World) :
  create_initial_state respond getcwd manifest env nexus_env w = (Ok state, w') ->
  exists (v : DbVersion.t) (package_path : option string) (b : string),
    DbVersion.create (Manifest.db_version manifest) (Manifest.db_edition manifest)
      (Manifest.db_type manifest) = Ok v /\
    State.old_db state
    = Database.mk None None (Environment.old_db env) (Environment.logs_dir env) /\
    State.step state = None /\
    Database.version (State.new_db state) = Some v /\
    Database.bin_path (State.new_db state) = Some b /\
    events w'
    = events w
      ++ install_events (Environment.db_installer env) (Environment.logs_dir env) v nexus_env
           (Manifest.db_type manifest) (Environment.pgdg_installer env) package_path
      ++ clean_events (Environment.new_db env)
      ++ clean_events (Environment.old_db env)
      ++ [pg_event (State.new_db state) b "initdb" ["-D"; Environment.new_db env]].
Proof.
  unfold create_initial_state. intros H.
  apply bind_ok_inv in H as (v & w1 & Hv & H).
  apply bind_ok_inv in H as (pkg & w2 & Hp & H).
  apply bind_ok_inv in H as (db & w3 & Hc & H).
  apply bind_ok_inv in H as ([] & w4 & Hclean & H).
  apply bind_ok_inv in H as ([] & w5 & Hinit & H).
  inversion H; subst; clear H. cbn [State.old_db State.new_db State.step].
  unfold lift in Hv. inversion Hv; subst; clear Hv.
  apply resolve_package_world in Hp. subst w2.
  apply create_db_ok in Hc as (Hver & Hpath & _ & [b Hb] & Hev).
  cbn [for_each] in Hclean.
  apply bind_ok_inv in Hclean as ([] & wa & Ha & Hclean).
  apply bind_ok_inv in Hclean as ([] & wb & Hb' & Hclean).
  inversion Hclean; subst; clear Hclean.
  apply clean_db_directory_ok in Ha, Hb'. cbn [Database.data_path] in Hb'.
  unfold initdb in Hinit. apply bind_ok_inv in Hinit as (out & wc & Hinit & Hr).
  inversion Hr; subst; clear Hr.
  apply (run_pg_binary_returned db b) in Hinit; [|exact Hb|reflexivity].
  exists v, pkg, b. rewrite Hpath in Ha, Hinit.
  repeat (split; [first [assumption | reflexivity]|]).
  rewrite Hinit, Hb', Ha, Hev. now rewrite <- !app_assoc.
Qed.

End InitialState.

(** The initial state of the run from 15.8.0. *)
Lemma initial_state_is_installed_then_initialised_witness :
  exists (v : DbVersion.t) (package_path : option string) (b : string),
    DbVersion.create "15.8.0" (Some "se") "ttdb" = Ok v /\
    State.old_db (UpgradeRun.state_of UpgradeRun.initial)
    = Database.mk None None "/tmp/old_data" "/work/logs" /\
    State.step (UpgradeRun.state_of UpgradeRun.initial) = None /\
    Database.version (State.new_db (UpgradeRun.state_of UpgradeRun.initial)) = Some v /\
    Database.bin_path (State.new_db (UpgradeRun.state_of UpgradeRun.initial)) = Some b /\
    events (snd UpgradeRun.initial)
    = events Fixture.w0
      ++ install_events "/work/db_installer.sh" "/work/logs" v UpgradeRun.nexus_env
           "ttdb" "/work/src/pgdg_installer.sh" package_path
      ++ clean_events "/tmp/new_data"
      ++ clean_events "/tmp/old_data"
      ++ [pg_event (State.new_db (UpgradeRun.state_of UpgradeRun.initial)) b "initdb"
            ["-D"; "/tmp/new_data"]].
Proof.
  apply (initial_state_is_installed_then_initialised Fixture.quiet "/work" UpgradeRun.manifest
           UpgradeRun.env UpgradeRun.nexus_env (UpgradeRun.state_of UpgradeRun.initial)
           Fixture.w0 (snd UpgradeRun.initial)).
  vm_compute. reflexivity.
Defined.

(** ** The dump-and-restore step *)

(** The configuration files [copy_configuration_files] copies, and the call
    that copies one. *)
Definition config_files : list string :=
  ["postgresql.conf"; "postgresql.auto.conf"; "pg_hba.conf"].

Definition copy_event (old_data_path new_data_path filename : string) : Event :=
  EvShell ["cp"; OsPath.join old_data_path filename; OsPath.join new_data_path filename]
    None None None true.

Section DumpAndRestore.

Variable respond : list Event -> ExecReq -> list string * Z.
Variable env : Environment.t.

Lemma copy_one (old_data_path new_data_path filename : string) (w w' : World)
    (r : result unit) :
  try_except
    (shell_ respond ["cp"; OsPath.join old_data_path filename;
                     OsPath.join new_data_path filename] ;; ret tt)
    (fun e =>
       log ERROR ("Failed to copy " +:+ filename +:+ " to new db: " +:+ exn_msg e) ;;
       raise (RuntimeError ("Failed to copy " +:+ filename +:+ " to new db"))) w = (r, w') ->
  events w' = events w ++ [copy_event old_data_path new_data_path filename] /\
  (r = Ok tt \/ r = Raise (RuntimeError ("Failed to copy " +:+ filename +:+ " to new db"))).
Proof.
  unfold try_except, bind at 1, shell_.
  destruct (shell respond _ None None None true w) as [[x|e] w1] eqn:Hs;
    apply shell_events_of in Hs.
  - intros [= <- <-]. split; [exact Hs | now left].
  - unfold bind, log, raise. intros [= <- <-]. split; [exact Hs | now right].
Qed.

Lemma copy_loop (old_data_path new_data_path : string) (names : list string) (w w' : World)
    (r : result unit) :
  for_each names (fun filename =>
    try_except
      (shell_ respond ["cp"; OsPath.join old_data_path filename;
                       OsPath.join new_data_path filename] ;; ret tt)
      (fun e =>
         log ERROR ("Failed to copy " +:+ filename +:+ " to new db: " +:+ exn_msg e) ;;
         raise (RuntimeError ("Failed to copy " +:+ filename +:+ " to new db")))) w
  = (r, w') ->
  match r with
  | Ok _ => events w' = events w ++ map (copy_event old_data_path new_data_path) names
  | Raise e =>
      exists copied filename rest,
        names = copied ++ filename :: rest /\
        events w' = events w
                    ++ map (copy_event old_data_path new_data_path) (copied ++ [filename]) /\
        e = RuntimeError ("Failed to copy " +:+ filename +:+ " to new db")
  end.
Proof.
  revert w. induction names as [|name rest IH]; intros w H.
  - inversion H; subst. cbn. now rewrite app_nil_r.
  - cbn [for_each] in H. apply bind_inv in H as [([] & w1 & H1 & H)|(e & H1 & ->)].
    + apply copy_one in H1 as [V1 _]. apply IH in H. destruct r as [[]|e].
      * rewrite H, V1. cbn [map]. now rewrite <- app_assoc.
      * destruct H as (copied & filename & rest' & -> & V & ->).
        exists (name :: copied), filename, rest'. split; [reflexivity|]. split; [|reflexivity].
        rewrite V, V1. cbn [map app]. now rewrite <- app_assoc.
    + apply copy_one in H1 as [V1 [Hr|Hr]]; [discriminate|]. inversion Hr; subst.
      exists [], name, rest. now repeat split.
Qed.


(** The calls of a dump-and-restore step that completes. *)
Definition dumpall_events (state : State.t) (bo bn : string) : list Event :=
  let old_db := State.old_db state in
  let new_db := State.new_db state in
  let dump_file :=
    get_temp_filename env ("dump_" +:+ Database.version_str old_db +:+ ".sql") in
  [pg_ctl_event old_db bo "start";
   pg_event new_db bn "pg_dumpall" ["-f"; dump_file];
   pg_ctl_event old_db bo "stop"]
  ++ map (copy_event (Database.data_path old_db) (Database.data_path new_db)) config_files
  ++ [pg_ctl_event new_db bn "start";
      pg_event new_db bn "psql" ["-f"; dump_file];
      pg_ctl_event new_db bn "stop"].

Lemma pg_ctl_returned (db : Database.t) (b command : string) (w w' : World) :
  Database.bin_path db = Some b ->
  pg_ctl respond db command w = (Ok tt, w') ->
  events w' = events w ++ [pg_ctl_event db b command].
Proof.
  intros Hb H. unfold pg_ctl in H. apply bind_ok_inv in H as (out & w1 & H & Hr).
  inversion Hr; subst; clear Hr.
  exact (run_pg_binary_returned respond db b "pg_ctl" _ w w' out Hb eq_refl H).
Qed.

(** A [run_pg_dumpall] that completes has started the old instance, taken
    the dump with the [pg_dumpall] of the new binaries into
    [dump_<old version>.sql] in the temporary directory, stopped the old
    instance, copied the three configuration files, started the new
    instance, loaded the dump with the SQL client and stopped the new
    instance. *)
Theorem dump_is_taken_with_the_new_binaries (state : State.t) (bo bn : string) (w w' : World) :
  Database.bin_path (State.old_db state) = Some bo ->
  Database.bin_path (State.new_db state) = Some bn ->
  run_pg_dumpall respond env state w = (Ok tt, w') ->
  events w' = events w ++ dumpall_events state bo bn.
Proof.
  intros Ho Hn H. unfold run_pg_dumpall, run_db, stop_db, pg_dumpall in H.
  apply bind_ok_inv in H as ([] & w1 & H1 & H).
  apply bind_ok_inv in H as ([] & w2 & H2 & H).
  apply bind_ok_inv in H as ([] & w3 & H3 & H).
  apply bind_ok_inv in H as ([] & w4 & H4 & H).
  apply bind_ok_inv in H as ([] & w5 & H5 & H).
  apply bind_ok_inv in H as ([] & w6 & H6 & H).
  apply (pg_ctl_returned _ bo) in H1; [|exact Ho].
  apply bind_ok_inv in H2 as (out & wa & H2 & Hr). inversion Hr; subst; clear Hr.
  apply (run_pg_binary_returned respond _ bn) in H2; [|exact Hn|reflexivity].
  apply (pg_ctl_returned _ bo) in H3; [|exact Ho].
  unfold copy_configuration_files in H4. apply copy_loop in H4.
  apply (pg_ctl_returned _ bn) in H5; [|exact Hn].
  apply (run_sql_script_events respond _ bn) in H6; [|exact Hn].
  apply (pg_ctl_returned _ bn) in H; [|exact Hn].
  rewrite H, H6, H5, H4, H3, H2, H1. unfold dumpall_events. cbv zeta.
  rewrite <- !app_assoc. reflexivity.
Qed.

End DumpAndRestore.



(** A dump-and-restore step from 15.6.0 to 16.6.0 in a container where
    every command succeeds. *)
Lemma dump_is_taken_with_the_new_binaries_witness :
  let old_db := Database.mk (Some (DbVersion.mk "15.6.0" (Some "se") "15" "ttdb"))
                  (Some "/opt/tantor/db/15/bin") "/tmp/old_data" "/tmp/logs" in
  let state := State.mk old_db Fixture.db_16 None in
  events (snd (run_pg_dumpall Fixture.quiet UpgradeRun.env state Fixture.w0))
  = events Fixture.w0
    ++ dumpall_events UpgradeRun.env state "/opt/tantor/db/15/bin" "/opt/tantor/db/16/bin".
Proof.
  intros old_db state.
  apply (dump_is_taken_with_the_new_binaries Fixture.quiet UpgradeRun.env state
           "/opt/tantor/db/15/bin" "/opt/tantor/db/16/bin" Fixture.w0).
  - reflexivity.
  - reflexivity.
  - vm_compute. reflexivity.
Defined.

(** ** The settings of the package repository *)

(** A computation that returns from every world, adding calls. *)
Definition completes {A} (m : M A) : Prop :=
  forall w, exists a w' added, m w = (Ok a, w') /\ events w' = events w ++ added.

(** The call that downloads the installer of the ttdb product. *)
Definition download_event (env : Environment.t) : Event :=
  EvShell ["wget"; "https://public.tantorlabs.ru/db_installer.sh"; "-O";
           Environment.db_installer env] None None None true.

Section NexusSettings.

Variable respond : list Event -> ExecReq -> list string * Z.
Variable TIMESTAMP : string.
Variable getcwd : string.
Variable environ : gmap string string.

Lemma completes_ret {A} (a : A) : completes (ret a).
Proof. intros w. exists a, w, []. split; [reflexivity|]. now rewrite app_nil_r. Qed.

Lemma completes_bind {A B} (m : M A) (k : A -> M B) :
  completes m -> (forall a, completes (k a)) -> completes (bind m k).
Proof.
  intros Hm Hk w. destruct (Hm w) as (a & w1 & e1 & E1 & V1).
  destruct (Hk a w1) as (b & w2 & e2 & E2 & V2).
  exists b, w2, (e1 ++ e2). split; [now rewrite (bind_ok _ _ _ _ _ E1)|].
  now rewrite V2, V1, <- app_assoc.
Qed.

Lemma completes_shell (command : list string) :
  all_succeed respond -> completes (shell_ respond command).
Proof.
  intros Hz w. destruct (shell_succeeds respond command w Hz) as (r & w' & E & V).
  now exists r, w', [EvShell command None None None true].
Qed.

Lemma completes_path_exists (p : string) : completes (Host.path_exists p).
Proof. intros w. eexists _, w, []. split; [reflexivity|]. now rewrite app_nil_r. Qed.

Lemma completes_removal (paths : list string) :
  all_succeed respond ->
  completes (for_each paths (fun data =>
               found <- Host.path_exists data ;;
               if found then shell_ respond ["rm"; "-rf"; data] ;; ret tt else ret tt)).
Proof.
  intros Hz. induction paths as [|p rest IH]; [apply completes_ret|].
  cbn [for_each]. apply completes_bind; [|intros _; exact IH].
  apply completes_bind; [apply completes_path_exists|]. intros [|]; [|apply completes_ret].
  apply completes_bind; [now apply completes_shell | intros _; apply completes_ret].
Qed.

Lemma completes_chmod (mode : string) (dir : option string) :
  all_succeed respond ->
  completes (match given dir with
             | Some d => found <- Host.path_exists d ;;
                         if found then shell_ respond ["chmod"; "-R"; mode; d] ;; ret tt
                         else ret tt
             | None => ret tt
             end).
Proof.
  intros Hz. destruct (given dir) as [d|]; [|apply completes_ret].
  apply completes_bind; [apply completes_path_exists|]. intros [|]; [|apply completes_ret].
  apply completes_bind; [now apply completes_shell | intros _; apply completes_ret].
Qed.

(** In a container where every command succeeds, the preparation for the
    ttdb product returns and has downloaded the installer. *)
Lemma prepare_container_env_ttdb (env : Environment.t) (w : World) :
  all_succeed respond ->
  exists w' added,
    prepare_container_env respond env "ttdb" w = (Ok tt, w') /\
    events w' = events w ++ added /\ In (download_event env) added.
Proof.
  intros Hz. unfold prepare_container_env.
  destruct (completes_removal [Environment.new_db env; Environment.old_db env] Hz w)
    as ([] & w1 & e1 & E1 & V1).
  step_ok E1. cbn [String.eqb Ascii.eqb Bool.eqb when].
  destruct (shell_succeeds respond ["apt-get"; "update"] w1 Hz) as (r2 & w2 & E2 & V2).
  destruct (shell_succeeds respond ["apt-get"; "install"; "-y"; "wget"] w2 Hz)
    as (r3 & w3 & E3 & V3).
  destruct (shell_succeeds respond ["wget"; "https://public.tantorlabs.ru/db_installer.sh";
                                    "-O"; Environment.db_installer env] w3 Hz)
    as (r4 & w4 & E4 & V4).
  destruct (shell_succeeds respond ["chmod"; "+x"; Environment.db_installer env] w4 Hz)
    as (r5 & w5 & E5 & V5).
  unfold bind at 1. unfold bind at 1. rewrite E2.
  unfold bind at 1. rewrite E3. unfold bind at 1. rewrite E4.
  unfold bind at 1. rewrite E5. unfold ret at 1.
  destruct (completes_chmod "+x" (Environment.scripts_dir env) Hz w5)
    as ([] & w6 & e6 & E6 & V6).
  step_ok E6.
  destruct (completes_chmod "+r" (Environment.packages_dir env) Hz w6)
    as ([] & w7 & e7 & E7 & V7).
  rewrite E7. eexists w7, _. split; [reflexivity|]. split.
  - rewrite V7, V6, V5, V4, V3, V2, V1. rewrite <- !app_assoc. reflexivity.
  - apply in_or_app. right. cbn. right. right. now left.
Qed.

Lemma existing_paths_completes (paths : list (option string)) : completes (existing_paths paths).
Proof.
  induction paths as [|[p|] rest IH]; [apply completes_ret | | exact IH].
  cbn [existing_paths]. apply completes_bind; [apply completes_path_exists|]. intros found.
  apply completes_bind; [exact IH | intros others; apply completes_ret].
Qed.

(** When [NexusEnv.from_env] raises, the product is ttdb and one of the
    three settings is unset or empty. *)
Lemma from_env_raises (db_type : string) (e : exn) :
  from_env environ db_type = Raise e ->
  db_type = "ttdb" /\
  exists key, In key ["NEXUS_USER"; "NEXUS_USER_PASSWORD"; "NEXUS_URL"] /\
              Py.truthy_opt (environ !! key) = false /\
              e = KeyError ("Nexus setting " +:+ key +:+ " not set in environment variables").
Proof.
  unfold from_env. intros H.
  destruct (String.eqb db_type "ttdb") eqn:Ht;
    [|rewrite !andb_false_r in H; discriminate].
  apply String.eqb_eq in Ht. split; [exact Ht|]. rewrite !andb_true_r in H.
  destruct (Py.truthy_opt (environ !! "NEXUS_USER")) eqn:H1; cbn [negb] in H.
  - destruct (Py.truthy_opt (environ !! "NEXUS_USER_PASSWORD")) eqn:H2; cbn [negb] in H.
    + destruct (Py.truthy_opt (environ !! "NEXUS_URL")) eqn:H3; cbn [negb] in H;
        [discriminate|].
      exists "NEXUS_URL". inversion H. repeat split; [cbn; tauto | exact H3].
    + exists "NEXUS_USER_PASSWORD". inversion H. repeat split; [cbn; tauto | exact H2].
  - exists "NEXUS_USER". inversion H. repeat split; [cbn; tauto | exact H1].
Qed.

(** The settings of the package repository are read inside the block that
    holds the container.  So when one of them is missing for the ttdb
    product and the commands succeed, [run_upgrade] does raise the
    [KeyError], but only after the manager was built, the container started
    and the installer downloaded; and the record the failure leaves with the
    logger says that the container failed to start. *)
Theorem missing_nexus_setting_is_found_late (manifest : Manifest.t) (scenario_path : string)
    (env : Environment.t) (w w1 : World) (e : exn) :
  prepare_environment TIMESTAMP getcwd scenario_path manifest w = (Ok env, w1) ->
  from_env environ (Manifest.db_type manifest) = Raise e ->
  all_succeed respond ->
  exists (w' : World) (key : string) (records : list (Level * string)),
    run_upgrade respond TIMESTAMP getcwd environ manifest scenario_path w = (Raise e, w') /\
    e = KeyError ("Nexus setting " +:+ key +:+ " not set in environment variables") /\
    In EvStartContainer (events w') /\
    In (download_event env) (events w') /\
    logged w' = records ++ [(ERROR, "Failed to start Docker container")].
Proof.
  intros Hprep Hfrom Hz.
  destruct (from_env_raises _ _ Hfrom) as (Htype & key & _ & _ & He).
  unfold run_upgrade. step_ok Hprep. unfold with_docker_manager.
  destruct (existing_paths_completes
              [Some (Environment.logs_dir env); Environment.scripts_dir env;
               Environment.packages_dir env; Some (Environment.pgdg_installer env)] w1)
    as (volumes & w2 & e2 & E2 & V2).
  step_ok E2. unfold bind at 1, record_event at 1.
  unfold try_except. unfold bind at 1, record_event at 1.
  rewrite Htype.
  cbn [events files dirs logged].
  match goal with |- context [mkWorld ?ev ?f ?d ?l] => set (wa := mkWorld ev f d l) end.
  destruct (prepare_container_env_ttdb env wa Hz) as (w3 & added & E3 & V3 & Hin).
  step_ok E3. unfold run_migration.
  unfold bind at 1, lift at 1. rewrite Hfrom.
  unfold bind, log, raise. eexists _, key, (logged w3).
  split; [reflexivity|]. split; [exact He|]. cbn [events logged].
  rewrite V3. cbn [events]. repeat split.
  - apply in_or_app. left. apply in_or_app. right. now left.
  - apply in_or_app. now right.
Qed.

End NexusSettings.

(** The run of the scenario with no setting in the environment. *)
Lemma missing_nexus_setting_is_found_late_witness :
  exists (w' : World) (key : string) (records : list (Level * string)),
    run_upgrade Fixture.quiet "TS" "/work" ∅ Scenario.manifest "items/scenario" Fixture.w0
    = (Raise (KeyError "Nexus setting NEXUS_USER not set in environment variables"), w') /\
    KeyError "Nexus setting NEXUS_USER not set in environment variables"
    = KeyError ("Nexus setting " +:+ key +:+ " not set in environment variables") /\
    In EvStartContainer (events w') /\
    In (download_event
          (Environment.mk "/tmp" "/tmp/new_data" "/tmp/old_data" "/work/logs/upgrade_dbms_TS"
             None None "/work/db_installer.sh" "/work/src/pgdg_installer.sh"))
       (events w') /\
    logged w' = records ++ [(ERROR, "Failed to start Docker container")].
Proof.
  apply (missing_nexus_setting_is_found_late Fixture.quiet "TS" "/work" ∅ Scenario.manifest
           "items/scenario" _ Fixture.w0
           (snd (prepare_environment "TS" "/work" "items/scenario" Scenario.manifest
                   Fixture.w0))).
  - vm_compute. reflexivity.
  - reflexivity.
  - intros history req. reflexivity.
Defined.

(** * The preparation of a performance run *)

(** ** The database parameters of [src/manifest.py] *)

(** The exceptions that leave the code below: those of the upgrade, and
    the [IndexError] of a list index out of range. *)
Inductive answer (A : Type) : Type :=
| Returned (a : A)
| Failed (e : exn)
| IndexError (msg : string).
Arguments Returned {A} a.
Arguments Failed {A} e.
Arguments IndexError {A} msg.

(** What follows the first [sep] of [s]; [None] when [s] has no [sep],
    that is when [s.split(sep)] has one element only. *)
Fixpoint after_first (sep : ascii) (s : string) : option string :=
  match s with
  | EmptyString => None
  | String c s' => if Ascii.eqb c sep then Some s' else after_first sep s'
  end.

Module DBParam.

Record t : Type := mk {
  db_type : string;
  db_version : string;
  db_port : Z;
  db_edition : option string
}.

(** [db_version.split('.')[0]]. *)
Definition db_major_version (p : t) : string :=
  Py.split_first "."%char (db_version p).

(** [db_version.split('.')[0] + '.' + db_version.split('.')[1]]. *)
Definition pgdg_maintanance_version (p : t) : answer string :=
  match after_first "."%char (db_version p) with
  | Some rest => Returned (Py.split_first "."%char (db_version p) +:+ "."
                           +:+ Py.split_first "."%char rest)
  | None => IndexError "list index out of range"
  end.

End DBParam.

(** The fields of [PerformanceManifest] that [prepare_database] reads. *)
Module PerformanceManifest.
Record t : Type := mk {
  initial_script : option string;
  configuration : option string
}.
End PerformanceManifest.

(** ** [perf/perf.py] *)

(** Computations that may also end in an [IndexError]. *)
Definition P (A : Type) : Type := World -> answer A * World.

Definition pret {A} (a : A) : P A := fun w => (Returned a, w).
Definition praise {A} (e : exn) : P A := fun w => (Failed e, w).
Definition of_answer {A} (a : answer A) : P A := fun w => (a, w).
Definition of_m {A} (m : M A) : P A :=
  fun w => match m w with
           | (Ok a, w') => (Returned a, w')
           | (Raise e, w') => (Failed e, w')
           end.
Definition pbind {A B} (m : P A) (k : A -> P B) : P B :=
  fun w => match m w with
           | (Returned a, w') => k a w'
           | (Failed e, w') => (Failed e, w')
           | (IndexError msg, w') => (IndexError msg, w')
           end.

Declare Scope p_scope.
Delimit Scope p_scope with P.
Notation "x <- m ;; k" := (pbind m (fun x => k))
  (at level 100, m at next level, right associativity) : p_scope.
Notation "m ;; k" := (pbind m (fun _ => k))
  (at level 100, right associativity) : p_scope.

Fixpoint pfor_each {A} (l : list A) (body : A -> P unit) : P unit :=
  match l with
  | [] => pret tt
  | x :: rest => pbind (body x) (fun _ => pfor_each rest body)
  end.

(** [f'{x}'] for an exit code and for a command, either of which may be
    [None]. *)
Definition str_code (code : option Z) : string :=
  match code with Some z => Py.str_int z | None => "None" end.

(** The backslash, as a string. *)
Definition backslash : string := String (ascii_of_nat 92) EmptyString.

Section Perf.

Variable respond : list Event -> ExecReq -> list string * Z.
Variable TIMESTAMP : string.
Variable getcwd : string.

Local Open Scope p_scope.

(** [exec_command(cmd, log_to_file=True)].  For a command that is not a
    [str] the method opens the log file, runs nothing and returns [None]. *)
Definition exec_logged (command : option string) : P (option Z) :=
  match command with
  | Some c => code <- of_m (exec_command respond TIMESTAMP getcwd c true) ;; pret (Some code)
  | None =>
      of_m (Host.makedirs (OsPath.join getcwd "logs") ;;
            Host.append (OsPath.join (OsPath.join getcwd "logs")
                           ("perf_dbms_" +:+ TIMESTAMP +:+ ".log")) EmptyString)%M ;;
      pret None
  end.

(** [get_data_directory] of [prepare_database]. *)
Definition get_data_directory (test : DBParam.t) : P string :=
  if String.eqb (DBParam.db_type test) "ttdb" then
    pret ("/var/lib/postgresql/tantor-" +:+ DbVersion.str_opt (DBParam.db_edition test)
          +:+ "-" +:+ DBParam.db_major_version test +:+ "/data")
  else if String.eqb (DBParam.db_type test) "pgdg" then
    version <- of_answer (DBParam.pgdg_maintanance_version test) ;;
    pret ("/var/lib/postgresql/" +:+ version +:+ "/data")
  else praise (ValueError ("Unsupported db_type: " +:+ DBParam.db_type test)).

(** [get_pg_ctl_command]: the function falls off its end, and returns
    [None], for a product that is neither of the two. *)
Definition get_pg_ctl_command (test : DBParam.t) : P (option string) :=
  data_dir <- get_data_directory test ;;
  if String.eqb (DBParam.db_type test) "ttdb" then
    pret (Some ("su - postgres -c " +:+ Py.dquote +:+ "/opt/tantor/db/"
                +:+ DBParam.db_major_version test +:+ "/bin/pg_ctl -D " +:+ data_dir
                +:+ " -l logfile start" +:+ Py.dquote))
  else if String.eqb (DBParam.db_type test) "pgdg" then
    pret (Some ("su - postgres -c " +:+ Py.dquote +:+ "/usr/local/pgsql/bin/pg_ctl -D "
                +:+ data_dir +:+ " -l logfile start" +:+ Py.dquote))
  else pret None.

(** [get_psql_version_command]. *)
Definition get_psql_version_command (test : DBParam.t) : option string :=
  if String.eqb (DBParam.db_type test) "ttdb" then
    Some ("su - postgres -c " +:+ Py.dquote +:+ "/opt/tantor/db/"
          +:+ DBParam.db_major_version test +:+ "/bin/psql -c " +:+ backslash +:+ Py.dquote
          +:+ "select tantor_version();" +:+ backslash +:+ Py.dquote +:+ Py.dquote)
  else if String.eqb (DBParam.db_type test) "pgdg" then
    Some ("su - postgres -c " +:+ Py.dquote +:+ "/usr/local/pgsql/bin/psql -c "
          +:+ backslash +:+ Py.dquote +:+ "select version();" +:+ backslash +:+ Py.dquote +:+ Py.dquote)
  else None.

(** The command that opens [pg_hba.conf] to every host. *)
Definition trust_all (data_dir : string) : string :=
  "su - postgres -c " +:+ Py.dquote +:+ "echo 'host all all 0.0.0.0/0 trust' >> "
  +:+ data_dir +:+ "/pg_hba.conf" +:+ Py.dquote.

(** The loop over a block of commands (their descriptions are logged at
    the info level only and are left out). *)
Definition run_block (commands : list (option string)) : P unit :=
  pfor_each commands (fun cmd =>
    exit_code <- exec_logged cmd ;;
    match exit_code with
    | Some 0%Z => pret tt
    | _ =>
        let msg := "Command failed with exit code " +:+ str_code exit_code +:+ ": "
                   +:+ DbVersion.str_opt cmd in
        of_m (log ERROR msg) ;;
        praise (RuntimeError msg)
    end).

(** The commands of the installation block, before those that every
    supported product shares. *)
Definition install_commands (test : DBParam.t) : P (list (option string)) :=
  if String.eqb (DBParam.db_type test) "ttdb" then
    pret [Some "apt-get update";
          Some "apt-get install wget locales-all -y";
          Some "wget https://public.tantorlabs.ru/db_installer.sh";
          Some "chmod +x db_installer.sh";
          Some ("./db_installer.sh --do-initdb --major-version="
                +:+ DBParam.db_major_version test
                +:+ " --maintenance-version=" +:+ DBParam.db_version test
                +:+ " --edition=" +:+ DbVersion.str_opt (DBParam.db_edition test))]
  else if String.eqb (DBParam.db_type test) "pgdg" then
    version <- of_answer (DBParam.pgdg_maintanance_version test) ;;
    pret [Some "chmod +x pgdg_installer.sh";
          Some ("./pgdg_installer.sh --maintenance-version=" +:+ version +:+ " --with-initdb")]
  else
    of_m (log WARNING ("Unknown db_type: " +:+ DBParam.db_type test
                       +:+ ". No commands will be executed.")) ;;
    pret [].

(** [prepare_database]. *)
Definition prepare_database (test : DBParam.t) (manifest : PerformanceManifest.t) : P unit :=
  commands_install <- install_commands test ;;
  commands_install <-
    (if String.eqb (DBParam.db_type test) "ttdb" || String.eqb (DBParam.db_type test) "pgdg"
     then
       data_dir <- get_data_directory test ;;
       pg_ctl_command <- get_pg_ctl_command test ;;
       pret (commands_install ++ [Some (trust_all data_dir); pg_ctl_command])
     else pret commands_install) ;;
  run_block commands_install ;;
  match given (PerformanceManifest.initial_script manifest) with
  | Some initial_script =>
      let initial_script_local_path := OsPath.join getcwd initial_script in
      is_file <- of_m (Host.isfile initial_script_local_path) ;;
      if is_file then
        let initial_cmd :=
          if Py.endswith initial_script ".sh" then "bash /scenario/" +:+ initial_script
          else if Py.endswith initial_script ".py" then "python /scenario/" +:+ initial_script
          else "/scenario/" +:+ initial_script in
        exit_code <- of_m (exec_command respond TIMESTAMP getcwd initial_cmd true) ;;
        if negb (exit_code =? 0)%Z then
          let msg := "Initial script " +:+ initial_script +:+ " failed with exit code "
                     +:+ Py.str_int exit_code in
          of_m (log ERROR msg) ;;
          praise (RuntimeError msg)
        else pret tt
      else
        let msg := "Initial script file does not exist: " +:+ initial_script_local_path in
        of_m (log ERROR msg) ;;
        praise (RuntimeError msg)
  | None => pret tt
  end ;;
  match given (PerformanceManifest.configuration manifest) with
  | Some configuration =>
      data_dir <- get_data_directory test ;;
      pg_ctl_command <- get_pg_ctl_command test ;;
      run_block
        [Some ("su - postgres -c " +:+ Py.dquote +:+ "cat /scenario/" +:+ configuration
               +:+ " >> " +:+ data_dir +:+ "/postgresql.conf" +:+ Py.dquote);
         Some ("su - postgres -c " +:+ Py.dquote +:+ "sed -i " +:+ backslash +:+ Py.dquote
               +:+ "s/^#listen_addresses.*/listen_addresses = '*'/" +:+ backslash +:+ Py.dquote
               +:+ " " +:+ data_dir +:+ "/postgresql.conf" +:+ Py.dquote);
         Some (trust_all data_dir);
         pg_ctl_command;
         get_psql_version_command test]
  | None => pret tt
  end.

End Perf.

(** ** The versions of the two manifests *)

Section ParamVersions.

Lemma after_first_run (sep : ascii) (a r : string) :
  lacks sep a -> after_first sep (a +:+ String sep r) = Some r.
Proof.
  unfold lacks. induction a as [|x a IH]; intros H.
  - rewrite append_nil_l. simpl. now rewrite Ascii.eqb_refl.
  - simpl in H. apply andb_prop in H as [Hx Ha]. rewrite append_cons. simpl.
    apply negb_true_iff in Hx. rewrite Hx. exact (IH Ha).
Qed.

Lemma split_first_whole (sep : ascii) (a : string) :
  lacks sep a -> Py.split_first sep a = a.
Proof.
  unfold lacks. induction a as [|x a IH]; intros H; [reflexivity|].
  simpl in H. apply andb_prop in H as [Hx Ha]. simpl.
  apply negb_true_iff in Hx. rewrite Hx. now rewrite (IH Ha).
Qed.

Lemma lacks_tail (c : ascii) (a b : string) : lacks c (a +:+ b) -> lacks c b.
Proof. unfold lacks. rewrite all_chars_append. intros H. now apply andb_prop in H. Qed.

Lemma at_dollar_without_lf (tail : string) :
  Py.at_dollar tail = true -> lacks Py.LF tail -> tail = EmptyString.
Proof.
  unfold Py.at_dollar. intros H L. apply orb_prop in H as [H|H]; apply String.eqb_eq in H;
    [exact H|]. subst tail. discriminate L.
Qed.

(** The database parameters of a performance run and the descriptor of an
    upgrade read a version string alike: for every version string that
    [DbVersion.create] accepts, [DBParam.db_major_version] is the major of
    the descriptor, and for the pgdg product [pgdg_maintanance_version] is
    its canonical version, provided the string has no line feed (which
    [DbVersion.create] lets through at the end and discards, and
    [split] keeps). *)
Theorem perf_and_upgrade_versions_agree (v : string) (e : option string) (t : string)
    (port : Z) (d : DbVersion.t) :
  DbVersion.create v e t = Ok d ->
  DBParam.db_major_version (DBParam.mk t v port e) = DbVersion.major d /\
  (t = "pgdg" -> lacks Py.LF v ->
   DBParam.pgdg_maintanance_version (DBParam.mk t v port e) = Returned (DbVersion.version d)).
Proof.
  intros H. unfold DBParam.db_major_version, DBParam.pgdg_maintanance_version.
  cbn [DBParam.db_version].
  destruct (String.eqb_spec t "ttdb") as [->|Ht].
  - apply ttdb_create_ok in H as (X & HX & _ & ->). cbn [DbVersion.major].
    split; [now apply ttdb_shape_major | discriminate].
  - destruct (String.eqb_spec t "pgdg") as [->|Hp].
    + apply pgdg_create_spec in H as (X & Y & (DX & DY & tail & Htail & Hv) & ->).
      cbn [DbVersion.major DbVersion.version].
      assert (LX : lacks "."%char X) by (now apply digits_lack).
      assert (LY : lacks "."%char Y) by (now apply digits_lack).
      destruct Hv as [->|(Z & DZ & ->)].
      * rewrite append_cons, append_nil_l. split; [now apply split_first_run|].
        intros _ L. rewrite (after_first_run _ X _ LX), (split_first_run _ X _ LX).
        apply lacks_tail in L. change (lacks Py.LF (String "." (Y +:+ tail))) in L.
        apply (lacks_tail Py.LF "." (Y +:+ tail)) in L. apply lacks_tail in L.
        rewrite (at_dollar_without_lf tail Htail L), append_nil_r.
        now rewrite (split_first_whole _ Y LY).
      * rewrite append_cons, append_nil_l. split; [now apply split_first_run|].
        intros _ _. rewrite (after_first_run _ X _ LX), (split_first_run _ X _ LX).
        change ("." +:+ Z +:+ tail) with (String "."%char (Z +:+ tail)).
        now rewrite (split_first_run _ Y _ LY).
    + unfold DbVersion.create in H.
      apply String.eqb_neq in Ht, Hp. rewrite Ht, Hp in H. discriminate.
Qed.

End ParamVersions.

Lemma perf_and_upgrade_versions_agree_witness :
  DBParam.db_major_version (DBParam.mk "pgdg" "16.6.3" 5432 None) = "16" /\
  ("pgdg" = "pgdg" -> lacks Py.LF "16.6.3" ->
   DBParam.pgdg_maintanance_version (DBParam.mk "pgdg" "16.6.3" 5432 None) = Returned "16.6").
Proof.
  apply (perf_and_upgrade_versions_agree "16.6.3" None "pgdg" 5432
           (DbVersion.mk "16.6" None "16" "pgdg")).
  reflexivity.
Defined.

(** ** The blocks of commands of [prepare_database] *)

(** The exit code [exec_command] reports for the code of the container. *)
Definition reported (command : string) (code : Z) : Z :=
  if Py.contains "db_installer.sh" command && (code =? 127)%Z then 0%Z else code.

(** The call of one command of a block. *)
Definition block_event (command : string) : Event := EvExecCommand command true.

Section PerfBlocks.

Variable respond : list Event -> ExecReq -> list string * Z.
Variable TIMESTAMP : string.
Variable getcwd : string.

Lemma for_each_perf_events (log_to_file : bool) (path : string) (chunks : list string)
    (w : World) :
  exists w', for_each chunks (fun chunk => when log_to_file (Host.append path chunk)) w
             = (Ok tt, w') /\ events w' = events w.
Proof.
  revert w. induction chunks as [|c chunks IH]; intros w; [now exists w|].
  cbn [for_each]. unfold bind at 1.
  assert (Hstep : exists w2, when log_to_file (Host.append path c) w = (Ok tt, w2)
                             /\ events w2 = events w).
  { destruct log_to_file; eexists; split; reflexivity. }
  destruct Hstep as (w2 & -> & Hl2).
  destruct (IH w2) as (w3 & -> & Hl3).
  exists w3. split; [reflexivity | congruence].
Qed.

(** [exec_command] makes one call and returns the reported code. *)
Lemma exec_command_run (command : string) (log_to_file : bool) (w : World)
    (chunks : list string) (code : Z) :
  respond (events w) (mkReq command None None) = (chunks, code) ->
  exists w', exec_command respond TIMESTAMP getcwd command log_to_file w
             = (Ok (reported command code), w') /\
             events w' = events w ++ [EvExecCommand command log_to_file].
Proof.
  intros H. unfold exec_command. unfold bind at 1.
  assert (Hpre : exists w1,
             when log_to_file
               (Host.makedirs (OsPath.join getcwd "logs");;
                Host.append (OsPath.join (OsPath.join getcwd "logs")
                               ("perf_dbms_" +:+ TIMESTAMP +:+ ".log")) EmptyString) w
             = (Ok tt, w1) /\ events w1 = events w).
  { destruct log_to_file; cbn [when]; eexists; split; reflexivity. }
  destruct Hpre as (w1 & -> & Hev).
  unfold bind at 1, container_exec. rewrite Hev, H.
  unfold bind at 1.
  match goal with
  | |- context [for_each chunks ?f ?w2] =>
      destruct (for_each_perf_events log_to_file
                  (OsPath.join (OsPath.join getcwd "logs")
                     ("perf_dbms_" +:+ TIMESTAMP +:+ ".log")) chunks w2) as (w3 & -> & Hev3)
  end.
  cbn [events] in Hev3. unfold reported.
  destruct (code =? 0)%Z eqn:Hc; cbn [negb].
  - apply Z.eqb_eq in Hc. subst code. cbn [Z.eqb]. rewrite andb_false_r.
    eexists. split; [reflexivity | exact Hev3].
  - destruct (Py.contains "db_installer.sh" command && (code =? 127)%Z);
      eexists; (split; [reflexivity | exact Hev3]).
Qed.

Lemma pbind_eq {A B} (m : P A) (k : A -> P B) (w : World) :
  pbind m k w = match m w with
                | (Returned a, w1) => k a w1
                | (Failed e, w1) => (Failed e, w1)
                | (IndexError msg, w1) => (IndexError msg, w1)
                end.
Proof. reflexivity. Qed.

Lemma run_block_cons (command : option string) (rest : list (option string)) (w : World) :
  run_block respond TIMESTAMP getcwd (command :: rest) w
  = match run_block respond TIMESTAMP getcwd [command] w with
    | (Returned _, w1) => run_block respond TIMESTAMP getcwd rest w1
    | (Failed e, w1) => (Failed e, w1)
    | (IndexError msg, w1) => (IndexError msg, w1)
    end.
Proof.
  unfold run_block. cbn [pfor_each].
  match goal with
  | |- pbind ?m ?k w = match pbind ?m ?k' w with _ => _ end =>
      rewrite (pbind_eq m k w), (pbind_eq m k' w); destruct (m w) as [[[]|e|msg] w1]
  end; reflexivity.
Qed.

(** One command of a block: it is called once, and the block goes on
    exactly when the reported code is 0. *)
Lemma run_block_one (command : string) (w : World) (chunks : list string) (code : Z) :
  respond (events w) (mkReq command None None) = (chunks, code) ->
  exists w1,
    events w1 = events w ++ [block_event command] /\
    run_block respond TIMESTAMP getcwd [Some command] w
    = (if (reported command code =? 0)%Z then Returned tt
       else Failed (RuntimeError (command_failed (reported command code) command)), w1).
Proof.
  intros H. destruct (exec_command_run command true w chunks code H) as (w1 & E & V).
  unfold run_block. cbn [pfor_each]. unfold pbind at 1. unfold pbind at 1.
  unfold exec_logged. unfold pbind at 1, of_m. rewrite E. unfold pret at 1.
  destruct (reported command code) as [|p|p]; cbn [Z.eqb].
  - exists w1. split; [exact V | reflexivity].
  - eexists. split; [|reflexivity]. exact V.
  - eexists. split; [|reflexivity]. exact V.
Qed.


(** In a container where a command exits with code 0, or with code 127 if
    it names [db_installer.sh], a block returns. *)
Lemma run_block_tolerant (commands : list string) (w : World) :
  (forall history req, reported (cmd req) (snd (respond history req)) = 0%Z) ->
  exists w', run_block respond TIMESTAMP getcwd (map Some commands) w = (Returned tt, w') /\
             events w' = events w ++ map block_event commands.
Proof.
  intros Htol. revert w. induction commands as [|command rest IH]; intros w.
  - exists w. split; [reflexivity|]. cbn. now rewrite app_nil_r.
  - cbn [map]. rewrite run_block_cons.
    destruct (respond (events w) (mkReq command None None)) as [chunks code] eqn:Hr.
    destruct (run_block_one command w chunks code Hr) as (w1 & V1 & E1).
    rewrite E1. pose proof (Htol (events w) (mkReq command None None)) as Hz.
    rewrite Hr in Hz. cbn [cmd snd] in Hz. rewrite Hz. cbn [Z.eqb].
    destruct (IH w1) as (w2 & E2 & V2). exists w2. split; [exact E2|].
    rewrite V2, V1. cbn [map]. now rewrite <- app_assoc.
Qed.

End PerfBlocks.

(** A container in which [pg_ctl] fails with code 1. *)
Definition pg_ctl_fails : list Event -> ExecReq -> list string * Z :=
  fun _ req => if Py.contains "pg_ctl" (cmd req) then (["no such directory"], 1%Z)
               else ([], 0%Z).


(** ** The preparation for the ttdb product *)

(** The commands of [prepare_database] for the ttdb product, when the
    manifest has neither an initial script nor a configuration. *)
Definition ttdb_preparation (test : DBParam.t) : list string :=
  let major := DBParam.db_major_version test in
  let data_dir := "/var/lib/postgresql/tantor-" +:+ DbVersion.str_opt (DBParam.db_edition test)
                  +:+ "-" +:+ major +:+ "/data" in
  ["apt-get update";
   "apt-get install wget locales-all -y";
   "wget https://public.tantorlabs.ru/db_installer.sh";
   "chmod +x db_installer.sh";
   "./db_installer.sh --do-initdb --major-version=" +:+ major
   +:+ " --maintenance-version=" +:+ DBParam.db_version test
   +:+ " --edition=" +:+ DbVersion.str_opt (DBParam.db_edition test);
   trust_all data_dir;
   "su - postgres -c " +:+ Py.dquote +:+ "/opt/tantor/db/" +:+ major +:+ "/bin/pg_ctl -D "
   +:+ data_dir +:+ " -l logfile start" +:+ Py.dquote].

(** No [IndexError] leaves the computation. *)
Definition no_index {A} (m : P A) : Prop :=
  forall w msg, fst (m w) <> IndexError msg.

Section Preparation.

Variable respond : list Event -> ExecReq -> list string * Z.
Variable TIMESTAMP : string.
Variable getcwd : string.

(** In a performance run the exit code 127 is let through for every
    command that names [db_installer.sh]: the download and the [chmod] of
    the installer as well as its run.  So in a container where each command
    exits with code 0, or with 127 when it names the installer,
    [prepare_database] returns for the ttdb product, having run its seven
    commands. *)
Theorem ttdb_preparation_tolerates_127 (test : DBParam.t) (manifest : PerformanceManifest.t)
    (w : World) :
  DBParam.db_type test = "ttdb" ->
  given (PerformanceManifest.initial_script manifest) = None ->
  given (PerformanceManifest.configuration manifest) = None ->
  (forall history req,
      snd (respond history req) = 0%Z \/
      (snd (respond history req) = 127%Z /\ Py.contains "db_installer.sh" (cmd req) = true)) ->
  exists w',
    prepare_database respond TIMESTAMP getcwd test manifest w = (Returned tt, w') /\
    events w' = events w ++ map block_event (ttdb_preparation test).
Proof.
  intros Ht Hi Hc Htol.
  assert (Hrep : forall history req, reported (cmd req) (snd (respond history req)) = 0%Z).
  { intros history req. unfold reported.
    destruct (Htol history req) as [->|[-> ->]]; [now rewrite andb_false_r | reflexivity]. }
  destruct (run_block_tolerant respond TIMESTAMP getcwd (ttdb_preparation test) w Hrep)
    as (w1 & E & V).
  exists w1. split; [|exact V].
  unfold prepare_database, install_commands, get_pg_ctl_command, get_data_directory.
  rewrite Ht, Hi, Hc. cbn [String.eqb Ascii.eqb Bool.eqb orb].
  rewrite !pbind_eq. unfold pret at 1. unfold pret at 1. unfold pret at 1.
  rewrite !pbind_eq. unfold pret at 1. unfold pret at 1. cbn [app].
  unfold ttdb_preparation in E. cbv zeta in E. cbn [map] in E.
  rewrite pbind_eq, E. reflexivity.
Qed.

Lemma no_index_pret {A} (a : A) : no_index (pret a).
Proof. intros w msg. discriminate. Qed.

Lemma no_index_praise {A} (e : exn) : no_index (@praise A e).
Proof. intros w msg. discriminate. Qed.

Lemma no_index_returned {A} (a : A) : no_index (of_answer (Returned a)).
Proof. intros w msg. discriminate. Qed.

Lemma no_index_of_m {A} (m : M A) : no_index (of_m m).
Proof. intros w msg. unfold of_m. destruct (m w) as [[a|e] w1]; discriminate. Qed.

Lemma no_index_bind {A B} (m : P A) (k : A -> P B) :
  no_index m -> (forall a, no_index (k a)) -> no_index (pbind m k).
Proof.
  intros Hm Hk w msg. rewrite pbind_eq. specialize (Hm w).
  destruct (m w) as [[a|e|msg'] w1]; [apply Hk | discriminate | now destruct (Hm msg')].
Qed.

Lemma no_index_pfor_each {A} (l : list A) (body : A -> P unit) :
  (forall a, no_index (body a)) -> no_index (pfor_each l body).
Proof.
  intros Hb. induction l as [|x rest IH]; [apply no_index_pret|].
  cbn [pfor_each]. apply no_index_bind; [apply Hb | intros _; exact IH].
Qed.

Lemma no_index_run_block (commands : list (option string)) :
  no_index (run_block respond TIMESTAMP getcwd commands).
Proof.
  unfold run_block. apply no_index_pfor_each. intros command.
  apply no_index_bind.
  - unfold exec_logged. destruct command as [c|];
      (apply no_index_bind; [apply no_index_of_m | intros; apply no_index_pret]).
  - intros [[|p|p]|]; try apply no_index_pret;
      (apply no_index_bind; [apply no_index_of_m | intros; apply no_index_praise]).
Qed.

Ltac no_index_step :=
  first [ apply no_index_pret | apply no_index_praise | apply no_index_returned
        | apply no_index_of_m | apply no_index_run_block
        | apply no_index_bind; [|intros ?]
        | progress cbv beta match
        | match goal with
          | |- no_index (if ?c then _ else _) => destruct c
          | |- no_index (match ?x with _ => _ end) => destruct x
          end ].

Lemma no_index_prepare (test : DBParam.t) (manifest : PerformanceManifest.t) :
  (exists rest, after_first "."%char (DBParam.db_version test) = Some rest) \/
  String.eqb (DBParam.db_type test) "pgdg" = false ->
  no_index (prepare_database respond TIMESTAMP getcwd test manifest).
Proof.
  intros Hc.
  unfold prepare_database, install_commands, get_pg_ctl_command, get_data_directory,
    DBParam.pgdg_maintanance_version.
  destruct Hc as [[rest ->]| ->]; repeat no_index_step.
Qed.

(** For the pgdg product and a version without a dot [prepare_database]
    ends in an [IndexError], raised while the list of commands is built: no
    command has been run and nothing has changed.  In no other case does an
    [IndexError] leave [prepare_database], whatever the container answers.
    (For the ttdb product such a version is not refused.) *)
Theorem index_error_for_a_pgdg_version_without_dot (test : DBParam.t)
    (manifest : PerformanceManifest.t) (w : World) :
  (DBParam.db_type test = "pgdg" ->
   after_first "."%char (DBParam.db_version test) = None ->
   prepare_database respond TIMESTAMP getcwd test manifest w
   = (IndexError "list index out of range", w)) /\
  ((exists msg,
       fst (prepare_database respond TIMESTAMP getcwd test manifest w) = IndexError msg) ->
   DBParam.db_type test = "pgdg" /\
   after_first "."%char (DBParam.db_version test) = None).
Proof.
  split.
  - intros Hp Ha.
    unfold prepare_database, install_commands, DBParam.pgdg_maintanance_version.
    rewrite Hp, Ha. reflexivity.
  - intros [msg H].
    destruct (after_first "."%char (DBParam.db_version test)) as [rest|] eqn:Ha.
    { now destruct (no_index_prepare test manifest (or_introl (ex_intro _ rest Ha)) w msg). }
    destruct (String.eqb (DBParam.db_type test) "pgdg") eqn:Hp.
    2:{ now destruct (no_index_prepare test manifest (or_intror Hp) w msg). }
    apply String.eqb_eq in Hp. now split.
Qed.

End Preparation.

(** The pgdg product with the version [16]: no command is run. *)
Lemma index_error_for_a_pgdg_version_without_dot_witness :
  prepare_database Fixture.quiet "TS" "/work" (DBParam.mk "pgdg" "16" 5432 None)
    (PerformanceManifest.mk None None) Fixture.w0
  = (IndexError "list index out of range", Fixture.w0).
Proof.
  destruct (index_error_for_a_pgdg_version_without_dot Fixture.quiet "TS" "/work"
              (DBParam.mk "pgdg" "16" 5432 None) (PerformanceManifest.mk None None)
              Fixture.w0) as [H _].
  apply H; reflexivity.
Defined.

(** A container in which every command that names the installer exits
    with code 127. *)
Definition installer_commands_exit_127 : list Event -> ExecReq -> list string * Z :=
  fun _ req => if Py.contains "db_installer.sh" (cmd req) then ([], 127%Z) else ([], 0%Z).

Lemma ttdb_preparation_tolerates_127_witness :
  let test := DBParam.mk "ttdb" "16.6.0" 5432 (Some "se") in
  exists w',
    prepare_database installer_commands_exit_127 "TS" "/work" test
      (PerformanceManifest.mk None None) Fixture.w0 = (Returned tt, w') /\
    events w' = events Fixture.w0 ++ map block_event (ttdb_preparation test).
Proof.
  intros test.
  apply (ttdb_preparation_tolerates_127 installer_commands_exit_127 "TS" "/work" test
           (PerformanceManifest.mk None None) Fixture.w0); try reflexivity.
  intros history req. unfold installer_commands_exit_127.
  destruct (Py.contains "db_installer.sh" (cmd req)); [right; now split | now left].
Defined.

(** ** The version of a package *)

Section PackageVersion.

Variable respond : list Event -> ExecReq -> list string * Z.

(** [verify_package_version] accepts a package exactly when [dpkg -I]
    exits with code 0, its output has a [Version:] field, and the value of
    the field is the expected version: the whole value for the ttdb
    product, the value up to its first hyphen (so without the revision of
    the package) for the pgdg product. *)
Theorem package_version_is_accepted_iff (package_path : string) (version : DbVersion.t)
    (w : World) (chunks : list string) (code : Z) :
  respond (events w) (mkReq (Shlex.join ["dpkg"; "-I"; package_path]) None None)
  = (chunks, code) ->
  fst (verify_package_version respond package_path version w) = Ok tt <->
  code = 0%Z /\
  exists package_version,
    search_version (fold_left String.append chunks EmptyString) = Some package_version /\
    (if String.eqb (DbVersion.db_type version) "pgdg"
     then Py.split_first "-"%char package_version
     else package_version) = DbVersion.version version.
Proof.
  intros H. unfold verify_package_version.
  rewrite (bind_ok _ _ _ _ _ (shell_unchecked respond _ None None None w chunks code H)).
  cbn [exit_code output].
  destruct (code =? 0)%Z eqn:Hc; cbn [negb].
  - apply Z.eqb_eq in Hc. subst code.
    destruct (search_version (fold_left String.append chunks EmptyString)) as [pv|] eqn:Hs.
    + destruct (String.eqb (DbVersion.db_type version) "pgdg").
      * destruct (String.eqb_spec (Py.split_first "-"%char pv) (DbVersion.version version))
          as [He|Hne]; cbn [negb fst raise ret].
        -- split; [intros _|reflexivity]. split; [reflexivity|]. now exists pv.
        -- split; [discriminate|]. intros (_ & pv' & [= <-] & He). now destruct Hne.
      * destruct (String.eqb_spec pv (DbVersion.version version)) as [He|Hne];
          cbn [negb fst raise ret].
        -- split; [intros _|reflexivity]. split; [reflexivity|]. now exists pv.
        -- split; [discriminate|]. intros (_ & pv' & [= <-] & He). now destruct Hne.
    + split; [discriminate|]. intros (_ & pv & Hpv & _). discriminate.
  - apply Z.eqb_neq in Hc. split; [discriminate|]. intros [-> _]. now destruct Hc.
Qed.

End PackageVersion.

(** A container whose [dpkg -I] shows a pgdg package with a revision. *)
Definition shows_pgdg_package : list Event -> ExecReq -> list string * Z :=
  fun _ _ => ([" Package: postgresql-16" +:+ String Py.LF EmptyString;
               " Version: 16.6-1.pgdg22.04+1" +:+ String Py.LF EmptyString], 0%Z).

Lemma package_version_is_accepted_iff_witness :
  fst (verify_package_version shows_pgdg_package "/pkgs/pg.deb"
         (DbVersion.mk "16.6" None "16" "pgdg") Fixture.w0) = Ok tt.
Proof.
  apply (package_version_is_accepted_iff shows_pgdg_package "/pkgs/pg.deb"
           (DbVersion.mk "16.6" None "16" "pgdg") Fixture.w0 _ 0%Z eq_refl).
  split; [reflexivity|]. exists "16.6-1.pgdg22.04+1". split; vm_compute; reflexivity.
Defined.

(** ** The calls of a preparation *)

(** Whatever the computation does, the calls it adds are commands run
    through [exec_command] with their output logged. *)
Definition only_logged_commands {A} (m : P A) : Prop :=
  forall w r w', m w = (r, w') -> exists ran, events w' = events w ++ map block_event ran.

(** A computation of the upgrade monad that makes no call. *)
Definition makes_no_call {A} (m : M A) : Prop :=
  forall w r w', m w = (r, w') -> events w' = events w.

Section PreparationCalls.

Variable respond : list Event -> ExecReq -> list string * Z.
Variable TIMESTAMP : string.
Variable getcwd : string.

Lemma olc_pret {A} (a : A) : only_logged_commands (pret a).
Proof. intros w r w' [= _ <-]. exists []. cbn. now rewrite app_nil_r. Qed.

Lemma olc_praise {A} (e : exn) : only_logged_commands (@praise A e).
Proof. intros w r w' [= _ <-]. exists []. cbn. now rewrite app_nil_r. Qed.

Lemma olc_of_answer {A} (a : answer A) : only_logged_commands (of_answer a).
Proof. intros w r w' [= _ <-]. exists []. cbn. now rewrite app_nil_r. Qed.

Lemma olc_quiet {A} (m : M A) : makes_no_call m -> only_logged_commands (of_m m).
Proof.
  intros Hm w r w' H. unfold of_m in H. specialize (Hm w).
  destruct (m w) as [[a|e] w1]; inversion H; subst; exists []; cbn;
    rewrite app_nil_r; eapply Hm; reflexivity.
Qed.

Lemma no_call_log (l : Level) (msg : string) : makes_no_call (log l msg).
Proof. intros w r w' [= _ <-]. reflexivity. Qed.

Lemma no_call_isfile (p : string) : makes_no_call (Host.isfile p).
Proof. intros w r w' [= _ <-]. reflexivity. Qed.

Lemma no_call_open_log (dir path : string) :
  makes_no_call (Host.makedirs dir ;; Host.append path EmptyString)%M.
Proof. intros w r w' [= _ <-]. reflexivity. Qed.

Lemma olc_exec (command : string) :
  only_logged_commands (of_m (exec_command respond TIMESTAMP getcwd command true)).
Proof.
  intros w r w' H. unfold of_m in H.
  destruct (respond (events w) (mkReq command None None)) as [chunks code] eqn:Hr.
  destruct (exec_command_run respond TIMESTAMP getcwd command true w chunks code Hr)
    as (w1 & E & V).
  rewrite E in H. inversion H; subst. now exists [command].
Qed.

Lemma olc_bind {A B} (m : P A) (k : A -> P B) :
  only_logged_commands m -> (forall a, only_logged_commands (k a)) ->
  only_logged_commands (pbind m k).
Proof.
  intros Hm Hk w r w' H. rewrite pbind_eq in H. specialize (Hm w).
  destruct (m w) as [[a|e|msg] w1].
  - destruct (Hm _ _ eq_refl) as (ran1 & V1). destruct (Hk a w1 r w' H) as (ran2 & V2).
    exists (ran1 ++ ran2). now rewrite V2, V1, map_app, <- app_assoc.
  - inversion H; subst. exact (Hm _ _ eq_refl).
  - inversion H; subst. exact (Hm _ _ eq_refl).
Qed.

Lemma olc_pfor_each {A} (l : list A) (body : A -> P unit) :
  (forall a, only_logged_commands (body a)) -> only_logged_commands (pfor_each l body).
Proof.
  intros Hb. induction l as [|x rest IH]; [apply olc_pret|].
  cbn [pfor_each]. apply olc_bind; [apply Hb | intros _; exact IH].
Qed.

Ltac olc_step :=
  first [ apply olc_pret | apply olc_praise | apply olc_of_answer | apply olc_exec
        | apply olc_quiet; first [apply no_call_log | apply no_call_isfile
                                 | apply no_call_open_log]
        | apply olc_pfor_each; intros ?
        | apply olc_bind; [|intros ?]
        | match goal with
          | |- only_logged_commands (if ?c then _ else _) => destruct c
          | |- only_logged_commands (match ?x with _ => _ end) => destruct x
          | |- only_logged_commands (let _ := _ in _) => cbv zeta
          end ].

(** The preparation of a performance run reaches the container through
    [exec_command] alone, always with the output logged: whatever the
    container answers and however [prepare_database] ends, every call it
    has added is such a command, and none goes through [shell], whose check
    of the exit code therefore never applies here. *)
Theorem preparation_only_runs_logged_commands (test : DBParam.t)
    (manifest : PerformanceManifest.t) (w w' : World) (r : answer unit) :
  prepare_database respond TIMESTAMP getcwd test manifest w = (r, w') ->
  exists ran, events w' = events w ++ map block_event ran.
Proof.
  revert w r w'. change (only_logged_commands
                           (prepare_database respond TIMESTAMP getcwd test manifest)).
  unfold prepare_database, install_commands, get_pg_ctl_command, get_data_directory,
    run_block, exec_logged.
  repeat olc_step.
Qed.

End PreparationCalls.

Lemma preparation_only_runs_logged_commands_witness :
  exists ran,
    events (snd (prepare_database pg_ctl_fails "TS" "/work"
                   (DBParam.mk "pgdg" "16.6" 5432 None)
                   (PerformanceManifest.mk (Some "setup.sh") None) Fixture.w0))
    = events Fixture.w0 ++ map block_event ran.
Proof.
  apply (preparation_only_runs_logged_commands pg_ctl_fails "TS" "/work"
           (DBParam.mk "pgdg" "16.6" 5432 None)
           (PerformanceManifest.mk (Some "setup.sh") None) Fixture.w0 _
           (fst (prepare_database pg_ctl_fails "TS" "/work"
                   (DBParam.mk "pgdg" "16.6" 5432 None)
                   (PerformanceManifest.mk (Some "setup.sh") None) Fixture.w0))).
  apply surjective_pairing.
Defined.

(** ** Absolute names in a manifest *)

Section AbsoluteNames.

Variable getcwd : string.

(** A script or package that the manifest names by an absolute path is
    looked up at that path: [os.path.join] drops the directory of the
    scenario, so the check of the scripts and the look-ups of
    [Environment] ask the host about the name as it is written, and the
    path that is handed on is the name, normalised by [os.path.abspath]. *)
Theorem absolute_name_ignores_the_scenario_directory (env : Environment.t)
    (dir name : string) (w : World) :
  OsPath.is_abs name = true ->
  missing_in w dir [name] = (if Host.present w name then [] else [name]) /\
  (Environment.scripts_dir env = Some dir ->
   get_script getcwd env name w
   = (if bool_decide (is_Some (files w !! name)) then Ok (OsPath.normpath name)
      else Raise (FileNotFoundError ("Failed to find script " +:+ name)), w)) /\
  (Environment.packages_dir env = Some dir ->
   get_package getcwd env name w
   = (if bool_decide (is_Some (files w !! name)) then Ok (OsPath.normpath name)
      else Raise (FileNotFoundError ("Failed to find package " +:+ name)), w)).
Proof.
  intros Habs.
  assert (Hjoin : OsPath.join dir name = name) by (unfold OsPath.join; now rewrite Habs).
  assert (Ht : Py.truthy name = true) by (destruct name; [discriminate | reflexivity]).
  split; [|split].
  - unfold missing_in. cbn [flat_map]. rewrite Hjoin, Ht, app_nil_r. cbn [andb].
    now destruct (Host.present w name).
  - intros Hd. unfold get_script, require_str. rewrite Hd.
    unfold bind, ret, Host.isfile. rewrite Hjoin. unfold abspath. rewrite Habs.
    now destruct (bool_decide (is_Some (files w !! name))).
  - intros Hd. unfold get_package, require_str. rewrite Hd.
    unfold bind, ret, Host.isfile. rewrite Hjoin. unfold abspath. rewrite Habs.
    now destruct (bool_decide (is_Some (files w !! name))).
Qed.

End AbsoluteNames.

(** A script named by an absolute path that is not normalised. *)
Lemma absolute_name_ignores_the_scenario_directory_witness :
  let env := Environment.mk "/tmp" "/tmp/new_data" "/tmp/old_data" "/work/logs"
               (Some "/work/scripts") None "/work/db_installer.sh"
               "/work/src/pgdg_installer.sh" in
  let w := mkWorld [] {["/opt/hooks/../hooks/check.sql" := "select 1;"]} ∅ [] in
  get_script "/work" env "/opt/hooks/../hooks/check.sql" w = (Ok "/opt/hooks/check.sql", w).
Proof.
  intros env w.
  destruct (absolute_name_ignores_the_scenario_directory "/work" env "/work/scripts"
              "/opt/hooks/../hooks/check.sql" w eq_refl) as (_ & Hs & _).
  rewrite (Hs eq_refl). vm_compute. reflexivity.
Defined.
